(** * chirped_pulse_simulation: the wave-packet computation of [pulse_animation.py]

    A shallow embedding of [k], [sin_sum], [calc_pulses] and
    [plot_pulses] of [pulse_animation.py] and of the NumPy / SciPy /
    Matplotlib calls they make, followed by the properties the
    specification states about them and by further properties of the
    code.

    Modelling conventions.
    - A NumPy [float64] is idealised as a real number ([R]); [np.pi],
      [np.sin] and [np.exp] are [PI], [sin] and [exp].  Rounding,
      infinities and not-a-number values are outside the model; the one
      place where the size of a float decides between returning and
      raising, Python's [float ** 2], has its range check written out
      ([k_float]).
    - A Python [int] is a [Z]; [len] and loop indices are [nat].
    - A one-dimensional array is a [list R]; a two-dimensional array is a
      record carrying its shape and its rows.
    - A call either returns or raises: [result].  Code that talks to
      Matplotlib, the terminal or the file system runs in the monad [M],
      which threads a [world] (what has been rendered so far, which
      directories exist, and what Matplotlib refuses) and propagates
      exceptions.
    - Matplotlib is not part of the repository: which calls it accepts is
      a parameter of the world, not something the model decides. *)

From Stdlib Require Import Reals Lra Lia ZArith String DecimalString List.
From stdpp Require Import base list.
Import ListNotations.
Open Scope string_scope.
Open Scope list_scope.
Open Scope R_scope.

(** ** Python outcomes *)

Inductive exn : Type :=
| ValueError (msg : string)
| TypeError (msg : string)
| IndexError (msg : string)
| FileNotFoundError (path : string)
| PermissionError (path : string)
| OverflowError (msg : string)
| RuntimeError (msg : string).

Inductive result (A : Type) : Type :=
| Ok (a : A)
| Raise (e : exn).
Arguments Ok {A} a.
Arguments Raise {A} e.

Definition rbind {A B : Type} (r : result A) (f : A -> result B) : result B :=
  match r with
  | Ok a => f a
  | Raise e => Raise e
  end.

Definition rmap {A B : Type} (f : A -> B) (r : result A) : result B :=
  rbind r (fun a => Ok (f a)).

(** ** The rendering world *)

(** The Matplotlib / terminal calls [sin_sum] makes when [plotting] is set. *)
Inductive event : Type :=
| Subplots (figsize : Z * Z)
| SetXlim (lo hi : R)
| SetYlim (lo hi : R)
| AxisOff
| Plot (xs ys : list R) (label : option R)
| SetXlabel (s : string)
| SetYlabel (s : string)
| Print (n_plotted : nat)
| Show
| Savefig (path : string).

(** [rendered]: the calls made so far, in order.  [writable path]: the
    directory of [path] exists, so that the file can be created there.
    [refusal history e]: the exception Matplotlib (or the terminal, or
    the operating system) raises when the call [e] is made after the
    calls [history], if it raises one: a [ValueError] for a figure size
    that is not positive, a [PermissionError] for a target that may not
    be overwritten, and so on. *)
Record world : Type := MkWorld {
  rendered : list event;
  writable : string -> bool;
  refusal : list event -> event -> option exn
}.

(** The world in which every call is accepted. *)
Definition World (rendered : list event) (writable : string -> bool) : world :=
  MkWorld rendered writable (fun _ _ => None).

Definition M (A : Type) : Type := world -> result A * world.

Definition ret {A : Type} (a : A) : M A := fun w => (Ok a, w).

Definition bind {A B : Type} (m : M A) (f : A -> M B) : M B :=
  fun w =>
    match m w with
    | (Ok a, w') => f a w'
    | (Raise e, w') => (Raise e, w')
    end.

Definition lift {A : Type} (r : result A) : M A := fun w => (r, w).

(** A rendering call: it is recorded unless it is refused. *)
Definition emit (e : event) : M unit :=
  fun w =>
    match refusal w (rendered w) e with
    | Some x => (Raise x, w)
    | None => (Ok tt, MkWorld (rendered w ++ [e]) (writable w) (refusal w))
    end.

(** [fig.savefig(path)]: [open] raises [FileNotFoundError] when the
    directory of [path] does not exist (nothing in the module creates
    [plots/]); any other failure is a refusal of the call. *)
Definition savefig (path : string) : M unit :=
  fun w =>
    if writable w path then emit (Savefig path) w
    else (Raise (FileNotFoundError path), w).

Notation "x <- m ;; f" := (bind m (fun x => f))
  (at level 20, m at level 99, f at level 200, only parsing).
Notation "' pat <- m ;; f" := (bind m (fun x => match x with pat => f end))
  (at level 20, pat pattern, m at level 99, f at level 200, only parsing).
Notation "m ;; f" := (bind m (fun _ => f))
  (at level 100, f at level 200, only parsing, right associativity).

(** [for x in l: s = body(x, s)] *)
Fixpoint foldM {A S : Type} (body : A -> S -> M S) (l : list A) (s : S) : M S :=
  match l with
  | [] => ret s
  | x :: xs => s' <- body x s ;; foldM body xs s'
  end.

(** [for i in range(n): s = body(i, s)] *)
Definition for_range {S : Type} (n : nat) (body : nat -> S -> M S) (s : S) : M S :=
  foldM body (seq 0 n) s.

(** ** Python integers and sequences *)

(** [int(a / b)] for integers [a], [b]: true division, then truncation
    towards zero. *)
Definition int_div (a b : Z) : Z := Z.quot a b.

(** [l[i]] for an index produced by [range(len(l))]. *)
Definition getitem {A : Type} (l : list A) (i : nat) : result A :=
  match l !! i with
  | Some x => Ok x
  | None => Raise (IndexError "index out of bounds")
  end.

(** Normalisation of a slice bound: a negative bound counts from the end,
    the result is clipped to [lo .. hi]. *)
Definition adjust_index (len i lo hi : Z) : Z :=
  let i := if (i <? 0)%Z then (i + len)%Z else i in
  Z.max lo (Z.min hi i).

(** [l[start:stop]] *)
Definition slice {A : Type} (l : list A) (start stop : Z) : list A :=
  let len := Z.of_nat (length l) in
  let a := adjust_index len start 0 len in
  let b := adjust_index len stop 0 len in
  take (Z.to_nat (b - a)) (drop (Z.to_nat a) l).

(** The indices [i, i + step, ...] on the near side of [stop]. *)
Fixpoint slice_indices (fuel : nat) (i stop step : Z) : list Z :=
  match fuel with
  | O => []
  | S fuel' =>
      if (if (0 <? step)%Z then (i <? stop)%Z else (stop <? i)%Z)
      then i :: slice_indices fuel' (i + step) stop step
      else []
  end.

(** [l[start:stop:step]]; a zero step is an error. *)
Definition slice_step {A : Type} (l : list A) (start stop step : Z)
  : result (list A) :=
  if (step =? 0)%Z then Raise (ValueError "slice step cannot be zero")
  else
    let len := Z.of_nat (length l) in
    let lo := if (0 <? step)%Z then 0%Z else (-1)%Z in
    let hi := if (0 <? step)%Z then len else (len - 1)%Z in
    let a := adjust_index len start lo hi in
    let b := adjust_index len stop lo hi in
    Ok (omap (fun i => l !! Z.to_nat i) (slice_indices (length l) a b step)).

(** ** NumPy *)

(** [np.arange(0, n)] as floats. *)
Definition arange (n : nat) : list R := INR <$> seq 0 n.

(** [np.linspace(start, stop, num)], after NumPy's implementation: the
    samples are [arange(num) * step + start], and the last one is then
    overwritten with [stop]. *)
Definition linspace (start stop : R) (num : Z) : result (list R) :=
  if (num <? 0)%Z
  then Raise (ValueError "Number of samples must be non-negative.")
  else
    let div := (num - 1)%Z in
    let delta := stop - start in
    let y := arange (Z.to_nat num) in
    let y :=
      if (0 <? div)%Z then
        let step := delta / IZR div in
        if Req_dec_T step 0
        then (fun v => v / IZR div * delta) <$> y
        else (fun v => v * step) <$> y
      else (fun v => v * delta) <$> y in
    let y := (fun v => v + start) <$> y in
    Ok (if (1 <? num)%Z then <[Nat.pred (length y) := stop]> y else y).

(** A two-dimensional [float64] array. *)
Record ndarray2 : Type := Array2 {
  nrows : nat;
  ncols : nat;
  rows : list (list R)
}.

(** [np.zeros([n, m])] *)
Definition zeros (n m : Z) : result ndarray2 :=
  if ((n <? 0) || (m <? 0))%Z
  then Raise (ValueError "negative dimensions are not allowed")
  else Ok (Array2 (Z.to_nat n) (Z.to_nat m)
             (replicate (Z.to_nat n) (replicate (Z.to_nat m) 0))).

(** [a[i, :] = v]: [v] must have the row length, or length one (it is then
    broadcast along the row). *)
Definition set_row (a : ndarray2) (i : nat) (v : list R) : result ndarray2 :=
  if (i <? nrows a)%nat then
    if (length v =? ncols a)%nat
    then Ok (Array2 (nrows a) (ncols a) (<[i := v]> (rows a)))
    else
      match v with
      | [x] => Ok (Array2 (nrows a) (ncols a)
                     (<[i := replicate (ncols a) x]> (rows a)))
      | _ => Raise (ValueError "could not broadcast input array")
      end
  else Raise (IndexError "index out of bounds").

(** [a.sum(axis=0)]: the rows are added, one after the other, onto zeros. *)
Definition sum_axis0 (a : ndarray2) : list R :=
  fold_left (zip_with Rplus) (rows a) (replicate (ncols a) 0).

(** [v.min()], [v.max()] of a one-dimensional array. *)
Definition amin (v : list R) : result R :=
  match v with
  | [] => Raise (ValueError "zero-size array to reduction operation minimum")
  | x :: xs => Ok (fold_left Rmin xs x)
  end.

Definition amax (v : list R) : result R :=
  match v with
  | [] => Raise (ValueError "zero-size array to reduction operation maximum")
  | x :: xs => Ok (fold_left Rmax xs x)
  end.

(** [a.min()], [a.max()] over all entries of a two-dimensional array. *)
Definition amin2 (a : ndarray2) : result R := amin (concat (rows a)).
Definition amax2 (a : ndarray2) : result R := amax (concat (rows a)).

(** ** SciPy *)

(** [scipy.signal.gaussian(M, std)] (symmetric window):
    [exp(-n**2 / (2*std*std))] for [n = arange(M) - (M - 1.0) / 2.0], and
    all ones when [M <= 1].  This is the window for [std] other than
    zero: at [std = 0] SciPy divides by zero and returns weights that are
    zero or not a number, which a real number does not model; the
    properties that speak of the weights assume [std <> 0]. *)
Definition gaussian (M : nat) (std : R) : list R :=
  if (M <=? 1)%nat then replicate M 1
  else
    let n := (fun v => v - (INR M - 1) / 2) <$> arange M in
    let sig2 := 2 * std * std in
    (fun v => exp (- (v ^ 2) / sig2)) <$> n.

(** ** pulse_animation.py *)

(** [def k(nu, nu_center, k0=1, k1=0, k2=0)] *)
Definition k (nu nu_center k0 k1 k2 : R) : R :=
  let omega := 2 * PI * nu in
  let omega_0 := 2 * PI * nu_center in
  k0 + k1 * (omega - omega_0) + k2 * (omega - omega_0) ^ 2.




(** The call [k(nu, nu_center, *k_i)]: the entries of [k_i] fill [k0],
    [k1], [k2] in order, missing ones take their defaults, and more than
    three are a [TypeError]. *)
Definition k_star (nu nu_center : R) (k_i : list R) : result R :=
  match k_i with
  | [] => Ok (k nu nu_center 1 0 0)
  | [k0] => Ok (k nu nu_center k0 0 0)
  | [k0; k1] => Ok (k nu nu_center k0 k1 0)
  | [k0; k1; k2] => Ok (k nu nu_center k0 k1 k2)
  | _ => Raise (TypeError "k() takes from 2 to 5 positional arguments")
  end.

(** The body of the loop over the spectral components in [sin_sum]; the
    loop state is [(E_nu, n_plotted)]. *)
Definition sin_sum_body (z : list R) (t nu_center : R) (k_i : list R)
    (plotting : bool) (frequencies spectrum plotting_frequencies : list R)
    (i : nat) (st : ndarray2 * nat) : M (ndarray2 * nat) :=
  let '(E_nu, n_plotted) := st in
  nu_i <- lift (getitem frequencies i) ;;
  k_nu <- lift (k_star nu_i nu_center k_i) ;;
  let phi_nu := (fun z_j => k_nu * z_j) <$> z in
  s_i <- lift (getitem spectrum i) ;;
  nu_i' <- lift (getitem frequencies i) ;;
  E_nu <- lift (set_row E_nu i
                  ((fun phi => s_i * sin (2 * PI * nu_i' * t - phi)) <$> phi_nu)) ;;
  if plotting then
    nu_i'' <- lift (getitem frequencies i) ;;
    if in_dec Req_dec_T nu_i'' plotting_frequencies then
      row <- lift (getitem (rows E_nu) i) ;;
      label <- lift (getitem frequencies i) ;;
      emit (Plot z row (Some label)) ;;
      ret (E_nu, S n_plotted)
    else ret (E_nu, n_plotted)
  else ret (E_nu, n_plotted).

(** [def sin_sum(z, t, nu_center=1, nu_min=0.001, N_frequencies=4000,
                 spec_width=200, k_i=[1, 5, 0], plotting=False,
                 z_arrow=False, figuresize=(11, 4))] *)
Definition sin_sum (z : list R) (t nu_center nu_min : R) (N_frequencies : Z)
    (spec_width : R) (k_i : list R) (plotting z_arrow : bool)
    (figuresize : Z * Z) : M (list R) :=
  frequencies <- lift (linspace nu_min (nu_center * 2) N_frequencies) ;;
  let spectrum := gaussian (length frequencies) spec_width in
  E_nu <- lift (zeros (Z.of_nat (length frequencies)) (Z.of_nat (length z))) ;;
  let n_plotted := 0%nat in
  let N_spec_plot_tot := 20%Z in
  let N_spec_plot_min := int_div (2 * N_frequencies) 5 in
  let N_spec_plot_max := int_div (3 * N_frequencies) 5 in
  let spacing :=
    int_div (Z.of_nat (length (slice frequencies N_spec_plot_min N_spec_plot_max)))
            N_spec_plot_tot in
  plotting_frequencies <-
    lift (slice_step frequencies N_spec_plot_min N_spec_plot_max spacing) ;;
  (if plotting then
     emit (Subplots figuresize) ;;
     z_min <- lift (amin z) ;;
     z_max <- lift (amax z) ;;
     emit (SetXlim z_min z_max) ;;
     emit AxisOff
   else ret tt) ;;
  '(E_nu, n_plotted) <-
    for_range (length frequencies)
      (sin_sum_body z t nu_center k_i plotting
         frequencies spectrum plotting_frequencies)
      (E_nu, n_plotted) ;;
  let E := sum_axis0 E_nu in
  (if plotting then
     lo <- lift (amin2 E_nu) ;;
     let ymin := lo * (11 / 10) in
     hi <- lift (amax2 E_nu) ;;
     let ymax := hi * (11 / 10) in
     emit (SetYlim ymin ymax) ;;
     emit (Print n_plotted) ;;
     emit Show ;;
     savefig "plots/spectral_components.pdf" ;;
     emit (Subplots figuresize) ;;
     z_min <- lift (amin z) ;;
     z_max <- lift (amax z) ;;
     emit (SetXlim z_min z_max) ;;
     emit AxisOff ;;
     lo <- lift (amin E) ;;
     let ymin := lo * 2 in
     ymax <- lift (amax E) ;;
     emit (SetYlim ymin ymax) ;;
     emit (Plot z E None) ;;
     savefig "plots/resulting_pulse.pdf" ;;
     emit (Subplots (6, 4)%Z) ;;
     emit (Plot frequencies spectrum None) ;;
     emit (SetXlabel "Frequency $\nu$") ;;
     emit (SetYlabel "Spectral amplitude $S(\nu)$") ;;
     savefig "plots/spectrum.pdf"
   else ret tt) ;;
  ret E.

(** The defaults of the parameters [calc_pulses] leaves to [sin_sum]. *)
Definition default_nu_min : R := 1 / 1000.
Definition default_N_frequencies : Z := 4000.
Definition default_plotting : bool := false.
Definition default_z_arrow : bool := false.
Definition default_figuresize : Z * Z := (11, 4)%Z.

(** [def calc_pulses(z, t_start, t_end, n_steps, nu_center=1,
                     k_i=[1, 5, 0], spec_width=100)]: the body of its loop,
    whose state is [pulses], and the function.  [tqdm] only wraps the
    index range and is left out. *)
Definition calc_pulses_body (z : list R) (nu_center : R) (k_i : list R)
    (spec_width : R) (times : list R) (i : nat) (pulses : ndarray2)
  : M ndarray2 :=
  t_i <- lift (getitem times i) ;;
  E <- sin_sum z t_i nu_center default_nu_min default_N_frequencies
         spec_width k_i default_plotting default_z_arrow
         default_figuresize ;;
  lift (set_row pulses i E).

Definition calc_pulses (z : list R) (t_start t_end : R) (n_steps : Z)
    (nu_center : R) (k_i : list R) (spec_width : R) : M ndarray2 :=
  times <- lift (linspace t_start t_end n_steps) ;;
  pulses <- lift (zeros n_steps (Z.of_nat (length z))) ;;
  for_range (length times)
    (calc_pulses_body z nu_center k_i spec_width times)
    pulses.

(** ** The value of [sin_sum], with the rendering erased

    [sin_sum_value] keeps the steps of [sin_sum] that can influence the
    returned array or raise before it is returned when nothing is
    rendered; [sin_sum_returns] and [sin_sum_quiet] below relate the two. *)

Definition component (z : list R) (t nu_center : R) (k_i : list R)
    (frequencies spectrum : list R) (i : nat) : result (list R) :=
  rbind (getitem frequencies i) (fun nu_i =>
  rbind (k_star nu_i nu_center k_i) (fun k_nu =>
  rbind (getitem spectrum i) (fun s_i =>
  Ok ((fun phi => s_i * sin (2 * PI * nu_i * t - phi))
        <$> ((fun z_j => k_nu * z_j) <$> z))))).

Fixpoint fill (row : nat -> result (list R)) (idxs : list nat) (a : ndarray2)
  : result ndarray2 :=
  match idxs with
  | [] => Ok a
  | i :: idxs' =>
      rbind (row i) (fun v => rbind (set_row a i v) (fill row idxs'))
  end.

Definition plot_spacing (frequencies : list R) (N_frequencies : Z) : Z :=
  int_div (Z.of_nat (length (slice frequencies
                               (int_div (2 * N_frequencies) 5)
                               (int_div (3 * N_frequencies) 5)))) 20.

Definition sin_sum_value (z : list R) (t nu_center nu_min : R)
    (N_frequencies : Z) (spec_width : R) (k_i : list R) : result (list R) :=
  rbind (linspace nu_min (nu_center * 2) N_frequencies) (fun frequencies =>
  rbind (zeros (Z.of_nat (length frequencies)) (Z.of_nat (length z))) (fun E_nu =>
  rbind (slice_step frequencies (int_div (2 * N_frequencies) 5)
           (int_div (3 * N_frequencies) 5)
           (plot_spacing frequencies N_frequencies)) (fun _ =>
  rmap sum_axis0
    (fill (component z t nu_center k_i frequencies
             (gaussian (length frequencies) spec_width))
       (seq 0 (length frequencies)) E_nu)))).

(** [sequence rs]: all the values of [rs], or its first exception. *)
Fixpoint sequence {A : Type} (rs : list (result A)) : result (list A) :=
  match rs with
  | [] => Ok []
  | r :: rs' => rbind r (fun a => rmap (cons a) (sequence rs'))
  end.

(** ** The quantities the specification speaks of *)

(** The sum of [f 0], ..., [f (n - 1)]. *)
Fixpoint big_sum (n : nat) (f : nat -> R) : R :=
  match n with
  | O => 0
  | S n' => big_sum n' f + f n'
  end.

(** Sample [i] of [num] samples linearly spaced over [[start, stop]]. *)
Definition linear_sample (start stop : R) (num : Z) (i : nat) : R :=
  start + INR i * ((stop - start) / IZR (num - 1)).

(** Entry [i] of the Gaussian sequence of length [n] and standard
    deviation [std], centred on the middle index. *)
Definition gaussian_weight (n : nat) (std : R) (i : nat) : R :=
  if (n <=? 1)%nat then 1
  else exp (- ((INR i - (INR n - 1) / 2) ^ 2) / (2 * std * std)).

(** The field at position [z_j] and time [t]: the sum over the [N]
    spectral components of [weight * sin(2 pi nu t - k(nu) z_j)]. *)
Definition superposition (t nu_center nu_min : R) (N : Z) (spec_width : R)
    (wave_vector : R -> R) (z_j : R) : R :=
  big_sum (Z.to_nat N) (fun i =>
    let nu_i := linear_sample nu_min (2 * nu_center) N i in
    gaussian_weight (Z.to_nat N) spec_width i
    * sin (2 * PI * nu_i * t - wave_vector nu_i * z_j)).

(** The sum of the entries of an array. *)
Definition sum_list (l : list R) : R := fold_right Rplus 0 l.

(** The number of frequency samples [frequencies[a:b]] holds for
    [a = int(2*N/5)] and [b = int(3*N/5)], divided by the twenty
    components that are to be plotted: the slice step of [sin_sum]. *)
Definition slice_spacing (N_frequencies : Z) : Z :=
  int_div (int_div (3 * N_frequencies) 5 - int_div (2 * N_frequencies) 5) 20.

(** The shape of a two-dimensional array, and what it means for its rows
    to fit the shape. *)
Definition shape (a : ndarray2) : nat * nat := (nrows a, ncols a).

Definition well_shaped (a : ndarray2) : Prop :=
  length (rows a) = nrows a /\ Forall (fun r => length r = ncols a) (rows a).

(** ** What a run renders

    [advance w es] is the world after the calls [es]; [accepts w es]
    says that every call of [es], made in this order from [w], is
    accepted; [renders m w es r] says that [m], run in [w], makes
    exactly the calls [es] and ends with [r], provided these calls are
    accepted. *)

Definition advance (w : world) (es : list event) : world :=
  MkWorld (rendered w ++ es) (writable w) (refusal w).

Fixpoint accepts (w : world) (es : list event) : Prop :=
  match es with
  | [] => True
  | e :: es' => refusal w (rendered w) e = None /\ accepts (advance w [e]) es'
  end.

Definition renders {A : Type} (m : M A) (w : world) (es : list event)
    (r : result A) : Prop :=
  accepts w es -> m w = (r, advance w es).

(** The value of a call that returns. *)
Definition value_or {A : Type} (d : A) (r : result A) : A :=
  match r with
  | Ok a => a
  | Raise _ => d
  end.

(** [v.min()] and [v.max()] of an array that is not empty. *)
Definition minimum (v : list R) : R := value_or 0 (amin v).
Definition maximum (v : list R) : R := value_or 0 (amax v).

(** ** The figures of [sin_sum]

    What [sin_sum] computes and draws, written as functions of its
    arguments. *)

(** [k(nu, nu_center, *k_i)] for at most three coefficients. *)
Definition wave_vector (nu_center : R) (k_i : list R) (nu : R) : R :=
  k nu nu_center (nth 0 k_i 1) (nth 1 k_i 0) (nth 2 k_i 0).

(** [frequencies], and [plotting_frequencies], the slice
    [frequencies[int(2N/5) : int(3N/5) : spacing]]. *)
Definition frequency_samples (nu_min nu_center : R) (N : Z) : list R :=
  linear_sample nu_min (nu_center * 2) N <$> seq 0 (Z.to_nat N).

Definition plotting_samples (nu_min nu_center : R) (N : Z) : list R :=
  value_or []
    (slice_step (frequency_samples nu_min nu_center N)
       (int_div (2 * N) 5) (int_div (3 * N) 5) (slice_spacing N)).

(** Row [i] of [E_nu], and the returned field [E]. *)
Definition spectral_component (z : list R) (t nu_center nu_min : R) (N : Z)
    (spec_width : R) (k_i : list R) (i : nat) : list R :=
  (fun z_j =>
     gaussian_weight (Z.to_nat N) spec_width i
     * sin (2 * PI * linear_sample nu_min (2 * nu_center) N i * t
            - wave_vector nu_center k_i
                (linear_sample nu_min (2 * nu_center) N i) * z_j)) <$> z.

Definition summed_field (z : list R) (t nu_center nu_min : R) (N : Z)
    (spec_width : R) (k_i : list R) : list R :=
  superposition t nu_center nu_min N spec_width (wave_vector nu_center k_i)
    <$> z.

(** The labelled curves: one for every index [i] whose frequency occurs
    in [plotting_frequencies]. *)
Definition component_curves (z : list R) (t nu_center nu_min : R) (N : Z)
    (spec_width : R) (k_i : list R) : list event :=
  omap (fun i =>
          let nu_i := linear_sample nu_min (nu_center * 2) N i in
          if in_dec Req_dec_T nu_i (plotting_samples nu_min nu_center N)
          then Some (Plot z (spectral_component z t nu_center nu_min N
                               spec_width k_i i) (Some nu_i))
          else None)
    (seq 0 (Z.to_nat N)).

(** The three figures, each up to its [savefig]. *)
Definition components_drawing (z : list R) (t nu_center nu_min : R) (N : Z)
    (spec_width : R) (k_i : list R) (figuresize : Z * Z) : list event :=
  let E_nu :=
    concat (spectral_component z t nu_center nu_min N spec_width k_i
              <$> seq 0 (Z.to_nat N)) in
  let curves := component_curves z t nu_center nu_min N spec_width k_i in
  [Subplots figuresize; SetXlim (minimum z) (maximum z); AxisOff]
  ++ curves
  ++ [SetYlim (minimum E_nu * (11 / 10)) (maximum E_nu * (11 / 10));
      Print (length curves); Show].

Definition pulse_drawing (z : list R) (t nu_center nu_min : R) (N : Z)
    (spec_width : R) (k_i : list R) (figuresize : Z * Z) : list event :=
  let E := summed_field z t nu_center nu_min N spec_width k_i in
  [Subplots figuresize; SetXlim (minimum z) (maximum z); AxisOff;
   SetYlim (minimum E * 2) (maximum E); Plot z E None].

Definition spectrum_drawing (nu_center nu_min : R) (N : Z) (spec_width : R)
  : list event :=
  [Subplots (6, 4)%Z;
   Plot (frequency_samples nu_min nu_center N)
     (gaussian (Z.to_nat N) spec_width) None;
   SetXlabel "Frequency $\nu$";
   SetYlabel "Spectral amplitude $S(\nu)$"].

(** Figures are drawn and saved one after the other; the first one whose
    directory is missing is drawn, and ends the run. *)
Fixpoint drawn_and_saved (writable : string -> bool)
    (figures : list (list event * string)) : list event :=
  match figures with
  | [] => []
  | (drawing, path) :: rest =>
      drawing
      ++ (if writable path then Savefig path :: drawn_and_saved writable rest
          else [])
  end.

Definition sin_sum_paths : list string :=
  ["plots/spectral_components.pdf"; "plots/resulting_pulse.pdf";
   "plots/spectrum.pdf"].

Definition sin_sum_figures (z : list R) (t nu_center nu_min : R) (N : Z)
    (spec_width : R) (k_i : list R) (figuresize : Z * Z)
    (writable : string -> bool) : list event :=
  drawn_and_saved writable
    [(components_drawing z t nu_center nu_min N spec_width k_i figuresize,
      "plots/spectral_components.pdf");
     (pulse_drawing z t nu_center nu_min N spec_width k_i figuresize,
      "plots/resulting_pulse.pdf");
     (spectrum_drawing nu_center nu_min N spec_width, "plots/spectrum.pdf")].

Definition sin_sum_outcome (z : list R) (t nu_center nu_min : R) (N : Z)
    (spec_width : R) (k_i : list R) (writable : string -> bool)
  : result (list R) :=
  match find (fun path => negb (writable path)) sin_sum_paths with
  | Some path => Raise (FileNotFoundError path)
  | None => Ok (summed_field z t nu_center nu_min N spec_width k_i)
  end.

(** ** pulse_animation.py: [plot_pulses]

    The figure of [plot_pulses] takes a resolution, coloured curves and
    annotations.  Its Matplotlib calls are recorded, in order, in a
    [session] that also carries the world the calls of [sin_sum] run in
    and that says which directories exist.  As in a [world], what
    Matplotlib refuses is a parameter: [denial history c] is the
    exception it raises at the call [c] after the calls [history], if it
    raises one (a [ValueError] for a string that is no colour or for a
    figure size that is not positive, and so on). *)

Inductive pyplot_call : Type :=
| PSubplots (figsize : Z * Z) (dpi : Z)
| PSetXlim (lo hi : R)
| PSetYlim (lo hi : R)
| PAxisOff
| PAnnotate (text : string) (xytext xy : R * R) (arrow : bool)
| PPlot (xs ys : list R) (color : string)
| PSavefig (path : string)
| PShow.

Record session : Type := MkSession {
  backdrop : world;
  calls : list pyplot_call;
  denial : list pyplot_call -> pyplot_call -> option exn
}.

(** The session in which every call is accepted. *)
Definition Session (backdrop : world) (calls : list pyplot_call) : session :=
  MkSession backdrop calls (fun _ _ => None).

Definition P (A : Type) : Type := session -> result A * session.

Definition pret {A : Type} (a : A) : P A := fun s => (Ok a, s).

Definition pbind {A B : Type} (m : P A) (f : A -> P B) : P B :=
  fun s =>
    match m s with
    | (Ok a, s') => f a s'
    | (Raise e, s') => (Raise e, s')
    end.

Definition plift {A : Type} (r : result A) : P A := fun s => (r, s).

Definition pcall (c : pyplot_call) : P unit :=
  fun s =>
    match denial s (calls s) c with
    | Some x => (Raise x, s)
    | None => (Ok tt, MkSession (backdrop s) (calls s ++ [c]) (denial s))
    end.

(** A computation of [M], run in the world of the session. *)
Definition prun {A : Type} (m : M A) : P A :=
  fun s =>
    let (r, w') := m (backdrop s) in (r, MkSession w' (calls s) (denial s)).

Definition psavefig (path : string) : P unit :=
  fun s =>
    if writable (backdrop s) path then pcall (PSavefig path) s
    else (Raise (FileNotFoundError path), s).

Notation "x <~ m ;; f" := (pbind m (fun x => f))
  (at level 20, m at level 99, f at level 200, only parsing).
Notation "m ;;; f" := (pbind m (fun _ => f))
  (at level 100, f at level 200, only parsing, right associativity).

Fixpoint pfoldM {A S : Type} (body : A -> S -> P S) (l : list A) (s : S)
  : P S :=
  match l with
  | [] => pret s
  | x :: xs => s' <~ body x s ;; pfoldM body xs s'
  end.

Definition pfor_range {S : Type} (n : nat) (body : nat -> S -> P S) (s : S)
  : P S :=
  pfoldM body (seq 0 n) s.

(** [[f(x) for x in l]] *)
Fixpoint comprehension {A B : Type} (f : A -> P B) (l : list A) : P (list B) :=
  match l with
  | [] => pret []
  | x :: xs =>
      y <~ f x ;;
      ys <~ comprehension f xs ;;
      pret (y :: ys)
  end.

(** [str(n)] for a natural number. *)
Definition str (n : nat) : string := NilEmpty.string_of_uint (Nat.to_uint n).

(** [v.mean()] of a non-empty one-dimensional array. *)
Definition mean (v : list R) : R := sum_list v / INR (length v).

(** The default of [colors]: [["steelblue" for i in range(10)]]. *)
Definition default_colors : list string := replicate 10 "steelblue".

(** The body of the loop of [plot_pulses] over the pulses. *)
Definition plot_pulses_body (z : list R) (pulses : list (list R))
    (plotname : string) (colors : list string) (i : nat) (_ : unit)
  : P unit :=
  pulse <~ plift (getitem pulses i) ;;
  color <~ plift (getitem colors i) ;;
  pcall (PPlot z pulse color) ;;;
  if negb (plotname =? "")%string then
    if (1 <? length pulses)%nat
    then psavefig (plotname ++ "_" ++ str (i + 1) ++ ".pdf")%string
    else psavefig (plotname ++ ".pdf")%string
  else pret tt.

(** [def plot_pulses(z, times, nu_center=0.5, k_i=[1, 10, 0],
                     spec_width=400, no_axes=False, plotname="", dpi=100,
                     figuresize=(11, 4), z_arrow=False,
                     colors=["steelblue" for i in range(10)])] *)
Definition plot_pulses (z times : list R) (nu_center : R) (k_i : list R)
    (spec_width : R) (no_axes : bool) (plotname : string) (dpi : Z)
    (figuresize : Z * Z) (z_arrow : bool) (colors : list string) : P unit :=
  pulses <~
    comprehension
      (fun t =>
         prun (sin_sum z t nu_center default_nu_min default_N_frequencies
                 spec_width k_i default_plotting default_z_arrow
                 default_figuresize))
      times ;;
  pcall (PSubplots figuresize dpi) ;;;
  z_min <~ plift (amin z) ;;
  z_max <~ plift (amax z) ;;
  pcall (PSetXlim z_min z_max) ;;;
  first_pulse <~ plift (getitem pulses 0) ;;
  hi <~ plift (amax first_pulse) ;;
  let ymax := hi * (11 / 10) in
  first_pulse' <~ plift (getitem pulses 0) ;;
  lo <~ plift (amin first_pulse') ;;
  let ymin := lo * (11 / 10) in
  let ymin := if z_arrow then ymin * 2 else ymin in
  pcall (PSetYlim ymin ymax) ;;;
  (if no_axes then
     pcall PAxisOff ;;;
     if z_arrow then
       let arrow_coord :=
         (mean z - 2 / 10 * mean z, mean z + 2 / 10 * mean z, ymin, ymin) in
       let text_coord :=
         (mean z - 1 / 10 * mean z, mean z, 9 / 10 * ymin, 9 / 10 * ymin) in
       let '(a0, a1, a2, a3) := arrow_coord in
       let '(t0, t1, t2, t3) := text_coord in
       pcall (PAnnotate "" (a0, a2) (a1, a3) true) ;;;
       pcall (PAnnotate "position $z$" (t0, t2) (t1, t3) false)
     else pret tt
   else pret tt) ;;;
  pfor_range (length pulses)
    (plot_pulses_body z pulses plotname colors) tt ;;;
  pcall PShow.

(** What [plot_pulses] is to draw and save for the pulses from index [i]
    on: one curve per pulse in the colour of its index, each followed,
    when a plot name is given, by a file of the figure so far; the
    curves stop where the colours run out. *)
Definition saved_name (plotname : string) (n i : nat) : string :=
  if (1 <? n)%nat then (plotname ++ "_" ++ str (i + 1) ++ ".pdf")%string
  else (plotname ++ ".pdf")%string.

Fixpoint curve_calls (z : list R) (plotname : string) (n i : nat)
    (pulses : list (list R)) (colors : list string) : list pyplot_call :=
  match pulses, colors with
  | E :: pulses', color :: colors' =>
      PPlot z E color
      :: (if (plotname =? "")%string then []
          else [PSavefig (saved_name plotname n i)])
      ++ curve_calls z plotname n (S i) pulses' colors'
  | _, _ => []
  end.

(** The files a sequence of calls saves, in order. *)
Definition saved_files (cs : list pyplot_call) : list string :=
  omap (fun c => match c with PSavefig path => Some path | _ => None end) cs.

(** The curves a sequence of calls draws, in order, each with its
    colour. *)
Definition drawn_curves (cs : list pyplot_call) : list (list R * string) :=
  omap (fun c => match c with PPlot _ ys color => Some (ys, color) | _ => None end)
    cs.

(** The calls between [set_ylim] and the curves: with [no_axes] the axes
    are switched off, and with [z_arrow] as well an arrow and its label
    are drawn at the height [ymin]. *)
Definition decoration_calls (z : list R) (ymin : R) (no_axes z_arrow : bool)
  : list pyplot_call :=
  if no_axes then
    PAxisOff
    :: (if z_arrow then
          [PAnnotate "" (mean z - 2 / 10 * mean z, ymin)
             (mean z + 2 / 10 * mean z, ymin) true;
           PAnnotate "position $z$" (mean z - 1 / 10 * mean z, 9 / 10 * ymin)
             (mean z, 9 / 10 * ymin) false]
        else [])
  else [].

(** The session after the calls [cs], the calls being accepted, and a
    computation making exactly the calls [cs]: as for a [world]. *)
Definition padvance (s : session) (cs : list pyplot_call) : session :=
  MkSession (backdrop s) (calls s ++ cs) (denial s).

Fixpoint paccepts (s : session) (cs : list pyplot_call) : Prop :=
  match cs with
  | [] => True
  | c :: cs' => denial s (calls s) c = None /\ paccepts (padvance s [c]) cs'
  end.

Definition draws {A : Type} (m : P A) (s : session) (cs : list pyplot_call)
    (r : result A) : Prop :=
  paccepts s cs -> m s = (r, padvance s cs).

(** The pulse [plot_pulses] computes for the time [t], and all the calls
    it makes for the times [times]: the figure, the limits, the
    decoration, the curves with their files and, when the colours
    suffice, [plt.show()]. *)
Definition pulse (z : list R) (nu_center : R) (k_i : list R) (spec_width : R)
    (w : world) (t : R) : list R :=
  value_or []
    (fst (sin_sum z t nu_center default_nu_min default_N_frequencies
            spec_width k_i default_plotting default_z_arrow
            default_figuresize w)).

Definition plot_pulses_calls (z times : list R) (nu_center : R)
    (k_i : list R) (spec_width : R) (no_axes : bool) (plotname : string)
    (dpi : Z) (figuresize : Z * Z) (z_arrow : bool) (colors : list string)
    (w : world) : list pyplot_call :=
  let pulses := pulse z nu_center k_i spec_width w <$> times in
  let first_pulse := value_or [] (getitem pulses 0) in
  let ymax := maximum first_pulse * (11 / 10) in
  let ymin := minimum first_pulse * (11 / 10) in
  let ymin := if z_arrow then ymin * 2 else ymin in
  [PSubplots figuresize dpi; PSetXlim (minimum z) (maximum z);
   PSetYlim ymin ymax]
  ++ decoration_calls z ymin no_axes z_arrow
  ++ curve_calls z plotname (length times) 0 pulses colors
  ++ (if (length times <=? length colors)%nat then [PShow] else []).

(** The numbers a sequence of rendering events prints, and the curves
    among the events that carry a label. *)
Definition printed_counts (evs : list event) : list nat :=
  omap (fun e => match e with Print n => Some n | _ => None end) evs.

Definition labelled_curves (evs : list event) : list event :=
  omap (fun e => match e with Plot _ _ (Some _) => Some e | _ => None end) evs.

(** * Properties *)

(** ** The monad *)

Lemma bind_lift {A B : Type} (r : result A) (f : A -> M B) (w : world) :
  bind (lift r) f w = match r with Ok a => f a w | Raise e => (Raise e, w) end.
Proof. unfold bind, lift. destruct r; reflexivity. Qed.

Lemma bind_returns {A B : Type} (m : M A) (f : A -> M B) (w w' : world) (b : B) :
  bind m f w = (Ok b, w') ->
  exists a w1, m w = (Ok a, w1) /\ f a w1 = (Ok b, w').
Proof.
  unfold bind. destruct (m w) as [[a|e] w1]; intros H.
  - exists a, w1. split; [reflexivity | exact H].
  - discriminate H.
Qed.

Lemma lift_returns {A : Type} (r : result A) (w w' : world) (a : A) :
  lift r w = (Ok a, w') -> r = Ok a /\ w' = w.
Proof. unfold lift. intros H. inversion H. split; reflexivity. Qed.

(** ** NumPy arrays *)

Lemma zeros_of_nat (n m : nat) :
  zeros (Z.of_nat n) (Z.of_nat m)
  = Ok (Array2 n m (replicate n (replicate m 0))).
Proof.
  unfold zeros.
  destruct (Z.ltb_spec (Z.of_nat n) 0); [lia|].
  destruct (Z.ltb_spec (Z.of_nat m) 0); [lia|].
  cbn [orb]. rewrite !Nat2Z.id. reflexivity.
Qed.

Lemma zeros_well_shaped (n m : nat) :
  well_shaped (Array2 n m (replicate n (replicate m 0))).
Proof.
  split; cbn [rows nrows ncols].
  - apply length_replicate.
  - apply Forall_replicate, length_replicate.
Qed.

Lemma set_row_returns (a a' : ndarray2) (i : nat) (v : list R) :
  well_shaped a -> set_row a i v = Ok a' ->
  well_shaped a' /\ nrows a' = nrows a /\ ncols a' = ncols a
  /\ (i < length (rows a'))%nat.
Proof.
  intros [Hlen Hall]. unfold set_row.
  destruct (Nat.ltb_spec i (nrows a)) as [Hi|]; [|discriminate].
  destruct (Nat.eqb_spec (length v) (ncols a)) as [Hv|Hv].
  - intros [= <-]. cbn [rows nrows ncols]. unfold well_shaped. cbn [rows nrows ncols].
    rewrite length_insert. repeat split; try lia.
    apply Forall_insert; assumption.
  - destruct v as [|x [|]]; try discriminate.
    intros [= <-]. unfold well_shaped. cbn [rows nrows ncols].
    rewrite length_insert. repeat split; try lia.
    apply Forall_insert; [assumption | apply length_replicate].
Qed.

Lemma set_row_fits (a : ndarray2) (i : nat) (v : list R) :
  (i < nrows a)%nat -> length v = ncols a ->
  set_row a i v = Ok (Array2 (nrows a) (ncols a) (<[i := v]> (rows a))).
Proof.
  intros Hi Hv. unfold set_row.
  destruct (Nat.ltb_spec i (nrows a)); [|lia].
  destruct (Nat.eqb_spec (length v) (ncols a)); [reflexivity | contradiction].
Qed.

Lemma arange_lookup (n i : nat) :
  (i < n)%nat -> arange n !! i = Some (INR i).
Proof.
  intros Hi. unfold arange.
  rewrite list_lookup_fmap, lookup_seq_lt by assumption. reflexivity.
Qed.

Lemma length_arange (n : nat) : length (arange n) = n.
Proof. unfold arange. rewrite length_fmap. apply length_seq. Qed.

(** [np.linspace] returns the [num] linearly spaced samples, first [start]
    and, from two samples on, last [stop]. *)
Lemma linspace_samples (start stop : R) (num : Z) :
  (0 <= num)%Z ->
  linspace start stop num
  = Ok (linear_sample start stop num <$> seq 0 (Z.to_nat num)).
Proof.
  intros Hnum. unfold linspace.
  destruct (Z.ltb_spec num 0) as [|_]; [lia|].
  f_equal. apply list_eq. intros i.
  rewrite list_lookup_fmap.
  destruct (Nat.lt_ge_cases i (Z.to_nat num)) as [Hi|Hi].
  2:{ rewrite (lookup_ge_None_2 (seq _ _)) by (rewrite length_seq; lia).
      apply lookup_ge_None_2.
      repeat match goal with
             | |- context [if ?b then _ else _] => destruct b
             end;
        rewrite ?length_insert, !length_fmap, length_arange; lia. }
  rewrite lookup_seq_lt by assumption. cbn [fmap option_fmap option_map Nat.add].
  unfold linear_sample.
  destruct (Z.ltb_spec 1 num) as [Hgt|Hle].
  - destruct (Z.ltb_spec 0 (num - 1)) as [_|]; [|lia].
    assert (Hdiv : IZR (num - 1) <> 0) by (apply not_0_IZR; lia).
    set (y := (fun v => v + start) <$> _).
    assert (Hlen : length y = Z.to_nat num).
    { subst y. destruct (Req_dec_T _ _); rewrite !length_fmap; apply length_arange. }
    destruct (Nat.eq_dec i (Nat.pred (length y))) as [->|Hne].
    + rewrite list_lookup_insert_eq by lia. f_equal.
      rewrite Hlen, INR_IZR_INZ.
      replace (Z.of_nat (Nat.pred (Z.to_nat num))) with (num - 1)%Z by lia.
      field. exact Hdiv.
    + rewrite list_lookup_insert_ne by congruence.
      subst y. destruct (Req_dec_T _ _) as [Hz|Hnz];
        rewrite !list_lookup_fmap, arange_lookup by assumption;
        cbn [fmap option_fmap option_map]; f_equal.
      * assert (Hdelta : stop - start = 0).
        { apply (Rmult_eq_compat_r (IZR (num - 1))) in Hz.
          unfold Rdiv in Hz. rewrite Rmult_assoc, Rinv_l, Rmult_1_r, Rmult_0_l in Hz
            by exact Hdiv. exact Hz. }
        rewrite Hdelta. unfold Rdiv. ring.
      * ring.
  - destruct (Z.ltb_spec 0 (num - 1)); [lia|].
    rewrite !list_lookup_fmap, arange_lookup by assumption.
    cbn [fmap option_fmap option_map]. f_equal.
    assert (i = 0)%nat as -> by lia. cbn [INR]. ring.
Qed.

Lemma linspace_negative (start stop : R) (num : Z) :
  (num < 0)%Z ->
  linspace start stop num
  = Raise (ValueError "Number of samples must be non-negative.").
Proof.
  intros Hnum. unfold linspace.
  destruct (Z.ltb_spec num 0); [reflexivity | lia].
Qed.

Lemma linspace_returns (start stop : R) (num : Z) (l : list R) :
  linspace start stop num = Ok l ->
  (0 <= num)%Z /\ length l = Z.to_nat num
  /\ l = linear_sample start stop num <$> seq 0 (Z.to_nat num).
Proof.
  intros H. destruct (Z.lt_ge_cases num 0) as [Hneg|Hpos].
  - rewrite linspace_negative in H by assumption. discriminate H.
  - rewrite linspace_samples in H by assumption. injection H as <-.
    rewrite length_fmap, length_seq. auto.
Qed.

Lemma linspace_single (start stop : R) : linspace start stop 1 = Ok [start].
Proof.
  rewrite linspace_samples by lia. f_equal.
  change (Z.to_nat 1) with 1%nat. cbn [seq fmap list_fmap].
  unfold linear_sample. cbn [INR]. f_equal. ring.
Qed.

(** The samples start at [start] and, from two samples on, end at
    [stop]. *)
Lemma linear_sample_endpoints (start stop : R) (num : Z) :
  linear_sample start stop num 0 = start
  /\ ((1 < num)%Z ->
      linear_sample start stop num (Z.to_nat (num - 1)) = stop).
Proof.
  unfold linear_sample. split.
  - cbn [INR]. ring.
  - intros Hnum. rewrite INR_IZR_INZ, Z2Nat.id by lia.
    field. apply not_0_IZR. lia.
Qed.

(** ** The Gaussian window *)

Lemma gaussian_weights (n : nat) (std : R) :
  gaussian n std = gaussian_weight n std <$> seq 0 n.
Proof.
  unfold gaussian, gaussian_weight.
  destruct (n <=? 1)%nat eqn:Hn.
  - apply Nat.leb_le in Hn.
    destruct n as [|[|n]]; [reflexivity | reflexivity | lia].
  - unfold arange. rewrite <- !list_fmap_compose. reflexivity.
Qed.

Lemma length_gaussian (n : nat) (std : R) : length (gaussian n std) = n.
Proof. rewrite gaussian_weights, length_fmap. apply length_seq. Qed.

Lemma gaussian_weight_nonneg (n : nat) (std : R) (i : nat) :
  0 <= gaussian_weight n std i.
Proof.
  unfold gaussian_weight. destruct (n <=? 1)%nat.
  - lra.
  - left. apply exp_pos.
Qed.

(** ** Slices *)

Lemma length_slice {A : Type} (l : list A) (start stop : Z) :
  (0 <= start <= stop)%Z -> (stop <= Z.of_nat (length l))%Z ->
  length (slice l start stop) = Z.to_nat (stop - start).
Proof.
  intros Hs He. unfold slice, adjust_index.
  destruct (Z.ltb_spec start 0); [lia|].
  destruct (Z.ltb_spec stop 0); [lia|].
  rewrite length_take, length_drop. lia.
Qed.

Lemma slice_step_zero {A : Type} (l : list A) (start stop : Z) :
  slice_step l start stop 0 = Raise (ValueError "slice step cannot be zero").
Proof. reflexivity. Qed.

Lemma slice_step_nonzero {A : Type} (l : list A) (start stop step : Z) :
  step <> 0%Z -> exists s, slice_step l start stop step = Ok s.
Proof.
  intros Hstep. unfold slice_step.
  destruct (Z.eqb_spec step 0); [contradiction|]. eauto.
Qed.

Lemma slice_step_returns {A : Type} (l s : list A) (start stop step : Z) :
  slice_step l start stop step = Ok s -> step <> 0%Z.
Proof.
  unfold slice_step. destruct (Z.eqb_spec step 0); [discriminate | auto].
Qed.

(** Python's [l[2:8:3]], [l[8:2:-3]], [l[-3:]] (up to the end) and
    [l[7:3]] on [l = list(range(10))]. *)
Example slice_step_examples :
  let l := [0; 1; 2; 3; 4; 5; 6; 7; 8; 9]%Z in
  slice_step l 2 8 3 = Ok [2; 5]%Z
  /\ slice_step l 8 2 (-3) = Ok [8; 5]%Z
  /\ slice l (-3) 10 = [7; 8; 9]%Z
  /\ slice l 7 3 = [].
Proof. repeat split. Qed.

Lemma plot_bounds (N : Z) :
  (0 <= N)%Z ->
  (0 <= int_div (2 * N) 5 <= int_div (3 * N) 5)%Z /\ (int_div (3 * N) 5 <= N)%Z.
Proof.
  intros HN. unfold int_div. Z.quot_rem_to_equations. lia.
Qed.

(** The slice step [sin_sum] computes is a function of [N_frequencies]. *)
Lemma plot_spacing_slice_spacing (frequencies : list R) (N : Z) :
  (0 <= N)%Z -> length frequencies = Z.to_nat N ->
  plot_spacing frequencies N = slice_spacing N.
Proof.
  intros HN Hlen. unfold plot_spacing, slice_spacing.
  destruct (plot_bounds N HN) as [Hlo Hhi].
  rewrite length_slice by lia. f_equal. lia.
Qed.

Example slice_spacing_examples :
  slice_spacing 1 = 0%Z /\ slice_spacing 96 = 0%Z /\ slice_spacing 97 = 1%Z
  /\ slice_spacing 98 = 0%Z /\ slice_spacing 4000 = 40%Z.
Proof. repeat split. Qed.

(** From 99 samples on the slice step is at least one. *)
Lemma slice_spacing_positive (N : Z) : (99 <= N)%Z -> (0 < slice_spacing N)%Z.
Proof.
  intros HN. unfold slice_spacing, int_div. Z.quot_rem_to_equations. lia.
Qed.

Lemma slice_spacing_nonzero (N : Z) :
  (0 <= N)%Z -> slice_spacing N <> 0%Z -> (97 <= N)%Z.
Proof.
  intros HN. unfold slice_spacing, int_div. Z.quot_rem_to_equations. lia.
Qed.

(** ** The loop of [sin_sum] *)

Section SinSumLoop.
Variables (z : list R) (t nu_center : R) (k_i : list R) (plotting : bool).
Variables (frequencies spectrum plotting_frequencies : list R).

Local Abbreviation body :=
  (sin_sum_body z t nu_center k_i plotting
     frequencies spectrum plotting_frequencies).
Local Abbreviation row := (component z t nu_center k_i frequencies spectrum).

(** One iteration stores the component [row i] in row [i]; rendering
    touches only the counter and the world, and can only make the
    iteration raise. *)
Lemma sin_sum_body_value (i : nat) (E_nu : ndarray2) (n_plotted : nat)
    (w : world) :
  well_shaped E_nu ->
  exists r w',
    body i (E_nu, n_plotted) w = (r, w')
    /\ (plotting = false ->
        r = rmap (fun a => (a, n_plotted)) (rbind (row i) (set_row E_nu i))
        /\ w' = w)
    /\ (forall a n', r = Ok (a, n') ->
        rbind (row i) (set_row E_nu i) = Ok a).
Proof.
  intros Hwf. unfold sin_sum_body, component.
  cbv beta iota zeta.
  rewrite bind_lift.
  destruct (getitem frequencies i) as [nu_i|e] eqn:Hnu; cbn [rbind rmap];
    [|eexists _, _; split; [reflexivity|]; split; [auto | discriminate]].
  rewrite bind_lift.
  destruct (k_star nu_i nu_center k_i) as [k_nu|e]; cbn [rbind rmap];
    [|eexists _, _; split; [reflexivity|]; split; [auto | discriminate]].
  rewrite bind_lift.
  destruct (getitem spectrum i) as [s_i|e]; cbn [rbind rmap];
    [|eexists _, _; split; [reflexivity|]; split; [auto | discriminate]].
  rewrite !bind_lift.
  destruct (set_row E_nu i _) as [E'|e] eqn:Hset; cbn [rbind rmap];
    [|eexists _, _; split; [reflexivity|]; split; [auto | discriminate]].
  destruct plotting;
    [|eexists _, _; split; [reflexivity|]; split; [auto | congruence]].
  rewrite bind_lift.
  destruct (in_dec Req_dec_T nu_i plotting_frequencies);
    [|eexists _, _; split; [reflexivity|]; split; [discriminate | congruence]].
  apply set_row_returns in Hset as (_ & _ & _ & Hi); [|exact Hwf].
  apply lookup_lt_is_Some_2 in Hi as [r Hr].
  rewrite bind_lift. unfold getitem at 1. rewrite Hr.
  rewrite bind_lift. unfold bind, emit, ret.
  destruct (refusal w (rendered w) (Plot z r (Some nu_i)));
    eexists _, _; (split; [reflexivity|]);
    (split; [discriminate | congruence]).
Qed.

Lemma sin_sum_loop_value (idxs : list nat) :
  forall (E_nu : ndarray2) (n_plotted : nat) (w : world),
    well_shaped E_nu ->
    exists r w',
      foldM body idxs (E_nu, n_plotted) w = (r, w')
      /\ (plotting = false ->
          r = rmap (fun a => (a, n_plotted)) (fill row idxs E_nu) /\ w' = w)
      /\ (forall a n', r = Ok (a, n') -> fill row idxs E_nu = Ok a).
Proof.
  induction idxs as [|i idxs IH]; intros E_nu n_plotted w Hwf.
  - exists (Ok (E_nu, n_plotted)), w. cbn [foldM fill rmap rbind].
    split; [reflexivity|]. split; [auto | congruence].
  - cbn [foldM fill]. unfold bind at 1.
    destruct (sin_sum_body_value i E_nu n_plotted w Hwf)
      as (r1 & w1 & -> & Hquiet1 & Hvalue1).
    destruct r1 as [[E1 n1]|e].
    + specialize (Hvalue1 E1 n1 eq_refl).
      destruct (row i) as [v|e]; cbn [rbind rmap] in Hvalue1, Hquiet1 |- *;
        [|discriminate Hvalue1].
      rewrite Hvalue1 in Hquiet1 |- *. cbn [rbind rmap] in Hquiet1 |- *.
      apply set_row_returns in Hvalue1 as (Hwf1 & _); [|exact Hwf].
      destruct (IH E1 n1 w1 Hwf1) as (r2 & w2 & -> & Hquiet2 & Hvalue2).
      exists r2, w2. split; [reflexivity|]. split; [|exact Hvalue2].
      intros Hp. destruct (Hquiet1 Hp) as [Hr1 ->].
      destruct (Hquiet2 Hp) as [-> ->].
      injection Hr1 as ->. auto.
    + exists (Raise e), w1. split; [reflexivity|]. split; [|discriminate].
      intros Hp. destruct (Hquiet1 Hp) as [Hr1 ->]. split; [|reflexivity].
      destruct (row i) as [v|e']; cbn [rbind rmap] in Hr1 |- *;
        [|exact Hr1].
      destruct (set_row E_nu i v) as [E1|e']; cbn [rbind rmap] in Hr1 |- *;
        [discriminate Hr1 | exact Hr1].
Qed.
End SinSumLoop.

(** ** [sin_sum] and its value *)

(** Without plotting, [sin_sum] computes [sin_sum_value] and leaves the
    world as it found it. *)
Lemma sin_sum_quiet (z : list R) (t nu_center nu_min : R) (N : Z)
    (spec_width : R) (k_i : list R) (z_arrow : bool) (figuresize : Z * Z)
    (w : world) :
  sin_sum z t nu_center nu_min N spec_width k_i false z_arrow figuresize w
  = (sin_sum_value z t nu_center nu_min N spec_width k_i, w).
Proof.
  unfold sin_sum, sin_sum_value. cbv zeta. rewrite bind_lift.
  destruct (linspace nu_min (nu_center * 2) N) as [fr|e]; cbn [rbind];
    [|reflexivity].
  rewrite bind_lift, zeros_of_nat. cbn [rbind]. rewrite bind_lift.
  fold (plot_spacing fr N).
  destruct (slice_step fr _ _ _) as [pf|e]; cbn [rbind]; [|reflexivity].
  unfold bind at 1. cbn [ret]. unfold ret at 1.
  unfold bind at 1, for_range.
  destruct (sin_sum_loop_value z t nu_center k_i false fr
              (gaussian (length fr) spec_width) pf (seq 0 (length fr))
              _ 0%nat w (zeros_well_shaped (length fr) (length z)))
    as (r & w' & -> & Hquiet & _).
  destruct (Hquiet eq_refl) as [-> ->].
  destruct (fill _ _ _) as [E'|e]; reflexivity.
Qed.

(** Whatever is rendered, an array [sin_sum] returns is [sin_sum_value]. *)
Lemma sin_sum_returns (z : list R) (t nu_center nu_min : R) (N : Z)
    (spec_width : R) (k_i : list R) (plotting z_arrow : bool)
    (figuresize : Z * Z) (w w' : world) (E : list R) :
  sin_sum z t nu_center nu_min N spec_width k_i plotting z_arrow figuresize w
  = (Ok E, w') ->
  sin_sum_value z t nu_center nu_min N spec_width k_i = Ok E.
Proof.
  unfold sin_sum, sin_sum_value. cbv zeta. intros H.
  apply bind_returns in H as (fr & w1 & H1 & H).
  apply lift_returns in H1 as [-> ->]. cbn [rbind].
  apply bind_returns in H as (E0 & w1 & H1 & H).
  apply lift_returns in H1 as [H1 ->]. rewrite H1. cbn [rbind].
  rewrite zeros_of_nat in H1. injection H1 as <-.
  apply bind_returns in H as (pf & w1 & H1 & H).
  apply lift_returns in H1 as [H1 ->].
  fold (plot_spacing fr N) in H1. rewrite H1. cbn [rbind].
  apply bind_returns in H as (u & w1 & _ & H).
  apply bind_returns in H as ([E1 n1] & w2 & Hloop & H).
  apply bind_returns in H as (u' & w3 & _ & H).
  unfold ret in H. injection H as <- _.
  unfold for_range in Hloop.
  destruct (sin_sum_loop_value z t nu_center k_i plotting fr
              (gaussian (length fr) spec_width) pf (seq 0 (length fr))
              _ 0%nat w1 (zeros_well_shaped (length fr) (length z)))
    as (r & w'' & Hval & _ & Hfill).
  rewrite Hval in Hloop. injection Hloop as -> _.
  rewrite (Hfill E1 n1 eq_refl). reflexivity.
Qed.

(** ** Shapes *)

Lemma fill_returns (row : nat -> result (list R)) (idxs : list nat) :
  forall a a' : ndarray2,
    well_shaped a -> fill row idxs a = Ok a' ->
    well_shaped a' /\ nrows a' = nrows a /\ ncols a' = ncols a.
Proof.
  induction idxs as [|i idxs IH]; intros a a' Hwf H; cbn [fill] in H.
  - injection H as <-. auto.
  - destruct (row i) as [v|e]; cbn [rbind] in H; [|discriminate H].
    destruct (set_row a i v) as [a1|e] eqn:Hset; cbn [rbind] in H;
      [|discriminate H].
    apply set_row_returns in Hset as (Hwf1 & Hn & Hm & _); [|exact Hwf].
    destruct (IH a1 a' Hwf1 H) as (Hwf' & Hn' & Hm').
    repeat split; [apply Hwf' | apply Hwf' | congruence | congruence].
Qed.

Lemma length_fold_zip_add (rs : list (list R)) :
  forall acc : list R,
    Forall (fun r => length r = length acc) rs ->
    length (fold_left (zip_with Rplus) rs acc) = length acc.
Proof.
  induction rs as [|r rs IH]; intros acc Hall; cbn [fold_left].
  - reflexivity.
  - apply Forall_cons in Hall as [Hr Hrs].
    assert (Hlen : length (zip_with Rplus acc r) = length acc)
      by (rewrite length_zip_with; lia).
    rewrite IH; [exact Hlen|]. rewrite Hlen. exact Hrs.
Qed.

Lemma length_sum_axis0 (a : ndarray2) :
  well_shaped a -> length (sum_axis0 a) = ncols a.
Proof.
  intros [_ Hall]. unfold sum_axis0.
  rewrite length_fold_zip_add; rewrite length_replicate; [reflexivity | exact Hall].
Qed.

Lemma length_sin_sum_value (z : list R) (t nu_center nu_min : R) (N : Z)
    (spec_width : R) (k_i : list R) (E : list R) :
  sin_sum_value z t nu_center nu_min N spec_width k_i = Ok E ->
  length E = length z.
Proof.
  unfold sin_sum_value.
  destruct (linspace _ _ _) as [fr|e]; cbn [rbind]; [|discriminate].
  rewrite zeros_of_nat. cbn [rbind].
  destruct (slice_step _ _ _ _) as [pf|e]; cbn [rbind]; [|discriminate].
  destruct (fill _ _ _) as [a|e] eqn:Hfill; cbn [rmap rbind]; [|discriminate].
  intros [= <-].
  apply fill_returns in Hfill as (Hwf & _ & Hm); [|apply zeros_well_shaped].
  rewrite length_sum_axis0 by exact Hwf. exact Hm.
Qed.

(** [sin_sum] returns only for a sample count whose slice step is not
    zero. *)
Lemma sin_sum_value_defined (z : list R) (t nu_center nu_min : R) (N : Z)
    (spec_width : R) (k_i : list R) (E : list R) :
  sin_sum_value z t nu_center nu_min N spec_width k_i = Ok E ->
  (0 <= N)%Z /\ slice_spacing N <> 0%Z.
Proof.
  unfold sin_sum_value.
  destruct (linspace _ _ _) as [fr|e] eqn:Hfr; cbn [rbind]; [|discriminate].
  apply linspace_returns in Hfr as (HN & Hlen & _).
  rewrite zeros_of_nat. cbn [rbind].
  destruct (slice_step _ _ _ _) as [pf|e] eqn:Hpf; cbn [rbind]; [|discriminate].
  intros _. apply slice_step_returns in Hpf.
  rewrite plot_spacing_slice_spacing in Hpf by assumption. auto.
Qed.

(** ** The filled array and its column sums *)

Lemma fill_rows (row : nat -> result (list R)) (f : nat -> list R) (n m : nat) :
  (forall i, (i < n)%nat -> row i = Ok (f i) /\ length (f i) = m) ->
  fill row (seq 0 n) (Array2 n m (replicate n (replicate m 0)))
  = Ok (Array2 n m (f <$> seq 0 n)).
Proof.
  intros Hrow.
  enough (Hgen : forall d j, (j + d = n)%nat ->
            fill row (seq j d)
              (Array2 n m ((f <$> seq 0 j) ++ replicate d (replicate m 0)))
            = Ok (Array2 n m (f <$> seq 0 n))).
  { apply (Hgen n 0%nat). reflexivity. }
  induction d as [|d IH]; intros j Hj.
  - cbn [seq fill replicate]. rewrite app_nil_r.
    replace j with n by lia. reflexivity.
  - cbn [seq fill]. destruct (Hrow j) as [-> Hlen]; [lia|]. cbn [rbind].
    rewrite set_row_fits; cbn [nrows ncols rows]; [|lia|exact Hlen].
    cbn [rbind].
    rewrite insert_app_r_alt by (rewrite length_fmap, length_seq; lia).
    rewrite length_fmap, length_seq, Nat.sub_diag.
    cbn [replicate]. change (<[0%nat := f j]> (?x :: ?l)) with (f j :: l).
    rewrite <- (IH (S j)) by lia.
    rewrite seq_S, fmap_app, <- app_assoc. reflexivity.
Qed.

Lemma sum_columns (g : nat -> R -> R) (z : list R) (n : nat) :
  fold_left (zip_with Rplus) ((fun i => g i <$> z) <$> seq 0 n)
    (replicate (length z) 0)
  = (fun z_j => big_sum n (fun i => g i z_j)) <$> z.
Proof.
  induction n as [|n IH].
  - cbn [seq fmap list_fmap fold_left big_sum].
    symmetry. apply const_fmap. reflexivity.
  - rewrite seq_S, fmap_app, fold_left_app, IH.
    cbn [Nat.add fmap list_fmap fold_left big_sum].
    rewrite zip_with_fmap_l, zip_with_fmap_r, zip_with_diag. reflexivity.
Qed.

(** The calls [k(nu, nu_center, *k_i)] either all return or all raise. *)
Lemma k_star_short (k_i : list R) :
  (length k_i <= 3)%nat ->
  exists k0 k1 k2, forall nu nu_center,
    k_star nu nu_center k_i = Ok (k nu nu_center k0 k1 k2).
Proof.
  intros Hlen. destruct k_i as [|k0 [|k1 [|k2 [|]]]]; cbn [length] in Hlen.
  - exists 1, 0, 0. reflexivity.
  - exists k0, 0, 0. reflexivity.
  - exists k0, k1, 0. reflexivity.
  - exists k0, k1, k2. reflexivity.
  - lia.
Qed.

(** The closed form of the value: every entry is the superposition of the
    [N] weighted plane waves at that position. *)
Lemma sin_sum_value_superposition (z : list R) (t nu_center nu_min : R)
    (N : Z) (spec_width : R) (k_i : list R) (wave_vector : R -> R) :
  (0 <= N)%Z -> slice_spacing N <> 0%Z ->
  (forall nu, k_star nu nu_center k_i = Ok (wave_vector nu)) ->
  sin_sum_value z t nu_center nu_min N spec_width k_i
  = Ok (superposition t nu_center nu_min N spec_width wave_vector <$> z).
Proof.
  intros HN Hsp Hk. unfold sin_sum_value.
  rewrite linspace_samples by exact HN. cbn [rbind].
  set (fr := linear_sample nu_min (nu_center * 2) N <$> seq 0 (Z.to_nat N)).
  assert (Hlen : length fr = Z.to_nat N)
    by (subst fr; rewrite length_fmap; apply length_seq).
  rewrite zeros_of_nat. cbn [rbind].
  rewrite plot_spacing_slice_spacing by assumption.
  destruct (slice_step_nonzero fr (int_div (2 * N) 5) (int_div (3 * N) 5)
              (slice_spacing N) Hsp) as [pf ->].
  cbn [rbind]. rewrite Hlen.
  set (g := fun (i : nat) (z_j : R) =>
              let nu_i := linear_sample nu_min (2 * nu_center) N i in
              gaussian_weight (Z.to_nat N) spec_width i
              * sin (2 * PI * nu_i * t - wave_vector nu_i * z_j)).
  rewrite (fill_rows _ (fun i => g i <$> z)).
  - cbn [rmap rbind]. f_equal. unfold sum_axis0. cbn [rows ncols].
    apply sum_columns.
  - intros i Hi. split; [|apply length_fmap].
    unfold component, getitem. subst fr.
    rewrite list_lookup_fmap, lookup_seq_lt by exact Hi.
    cbn [fmap option_fmap option_map Nat.add rbind]. rewrite Hk. cbn [rbind].
    rewrite gaussian_weights, list_lookup_fmap, lookup_seq_lt by exact Hi.
    cbn [fmap option_fmap option_map Nat.add rbind]. f_equal.
    rewrite <- list_fmap_compose. subst g. cbv zeta.
    rewrite (Rmult_comm 2 nu_center). reflexivity.
Qed.

(** ** The loop of [calc_pulses] *)

Lemma sequence_Ok {A B : Type} (f : A -> B) (l : list A) :
  sequence ((fun x => Ok (f x)) <$> l) = Ok (f <$> l).
Proof.
  induction l as [|x l IH]; cbn [fmap list_fmap sequence rbind].
  - reflexivity.
  - change (list_fmap A (result B) (fun x => Ok (f x)) l)
      with ((fun x => Ok (f x)) <$> l).
    rewrite IH. reflexivity.
Qed.

Lemma sequence_returns {A B : Type} (f : A -> result B) (l : list A) (bs : list B) :
  sequence (f <$> l) = Ok bs ->
  length bs = length l
  /\ forall i x, l !! i = Some x -> exists b, f x = Ok b /\ bs !! i = Some b.
Proof.
  revert bs. induction l as [|x l IH]; intros bs; cbn [fmap list_fmap sequence].
  - intros [= <-]. split; [reflexivity|]. intros i y Hy. discriminate Hy.
  - change (list_fmap A (result B) f l) with (f <$> l).
    destruct (f x) as [b|e] eqn:Hb; cbn [rbind rmap]; [|discriminate].
    destruct (sequence (f <$> l)) as [bs'|e]; cbn [rbind rmap]; [|discriminate].
    intros [= <-]. destruct (IH bs' eq_refl) as [Hlen Hrows].
    split; [cbn [length]; congruence|].
    intros [|i] y Hy; cbn in Hy |- *.
    + injection Hy as <-. eauto.
    + apply Hrows. exact Hy.
Qed.

Section CalcPulsesLoop.
Variables (z : list R) (nu_center : R) (k_i : list R) (spec_width : R).
Variables (times : list R) (w : world).

Local Abbreviation body := (calc_pulses_body z nu_center k_i spec_width times).
Local Abbreviation value :=
  (fun t_i : R =>
     sin_sum_value z t_i nu_center default_nu_min default_N_frequencies
       spec_width k_i).
Local Abbreviation blank := (replicate (length z) 0).

Lemma calc_pulses_body_value (i : nat) (pulses : ndarray2) (t_i : R) :
  times !! i = Some t_i ->
  body i pulses w = (rbind (value t_i) (set_row pulses i), w).
Proof.
  intros Hi. unfold calc_pulses_body. cbv beta.
  rewrite bind_lift. unfold getitem. rewrite Hi.
  unfold bind, default_plotting. rewrite sin_sum_quiet.
  destruct (sin_sum_value _ _ _ _ _ _ _); reflexivity.
Qed.

(** With the rows of [done] stored, the iterations over [todo] store
    the values at the times [todo], in order, or stop at the first
    exception. *)
Lemma calc_pulses_loop_value (todo : list R) :
  forall (done : list R) (stored : list (list R)),
    times = done ++ todo -> length stored = length done ->
    foldM body (seq (length done) (length todo))
      (Array2 (length times) (length z)
         (stored ++ replicate (length todo) blank)) w
    = (rmap (fun Es => Array2 (length times) (length z) (stored ++ Es))
         (sequence (value <$> todo)), w).
Proof.
  induction todo as [|t_i todo IH]; intros done stored Htimes Hstored.
  - cbn [length seq foldM replicate fmap list_fmap sequence rmap rbind].
    reflexivity.
  - cbn [length seq foldM]. unfold bind at 1.
    rewrite (calc_pulses_body_value _ _ t_i)
      by (rewrite Htimes; apply list_lookup_middle; reflexivity).
    cbn [fmap list_fmap sequence].
    change (list_fmap R (result (list R)) value todo) with (value <$> todo).
    destruct (value t_i) as [E|e] eqn:HE; cbn [rbind rmap]; [|reflexivity].
    apply length_sin_sum_value in HE.
    rewrite set_row_fits; cbn [nrows ncols rows];
      [| rewrite Htimes, length_app; cbn [length]; lia | exact HE].
    rewrite insert_app_r_alt by lia.
    rewrite Hstored, Nat.sub_diag. cbn [replicate].
    change (<[0%nat := E]> (?x :: ?l)) with (E :: l).
    specialize (IH (done ++ [t_i]) (stored ++ [E])).
    rewrite !length_app, <- !app_assoc in IH. cbn [length app] in IH.
    rewrite !Nat.add_1_r in IH. rewrite IH; [|exact Htimes | lia].
    destruct (sequence (value <$> todo)) as [Es|e]; cbn [rmap rbind];
      [rewrite <- app_assoc|]; reflexivity.
Qed.
End CalcPulsesLoop.

(** [calc_pulses] evaluates [sin_sum_value], with the defaults for
    [nu_min] and [N_frequencies], at the time samples in order, and
    leaves the world as it found it. *)
Lemma calc_pulses_value (z : list R) (t_start t_end : R) (n_steps : Z)
    (nu_center : R) (k_i : list R) (spec_width : R) (w : world) :
  calc_pulses z t_start t_end n_steps nu_center k_i spec_width w
  = (rbind (linspace t_start t_end n_steps) (fun times =>
       rmap (Array2 (length times) (length z))
         (sequence
            ((fun t_i =>
                sin_sum_value z t_i nu_center default_nu_min
                  default_N_frequencies spec_width k_i) <$> times))), w).
Proof.
  unfold calc_pulses. rewrite bind_lift.
  destruct (linspace t_start t_end n_steps) as [times|e] eqn:Htimes;
    cbn [rbind]; [|reflexivity].
  apply linspace_returns in Htimes as (Hn & Hlen & _).
  replace n_steps with (Z.of_nat (length times)) by lia.
  rewrite bind_lift, zeros_of_nat. unfold for_range.
  exact (calc_pulses_loop_value z nu_center k_i spec_width times w
           times [] [] eq_refl eq_refl).
Qed.

(** ** The outcome of a run without plotting *)

(** The call [k(nu, nu_center, *k_i)] pads a short [k_i] with the
    defaults [k0 = 1], [k1 = 0], [k2 = 0]. *)
Lemma k_star_outcome (nu nu_center : R) (k_i : list R) :
  k_star nu nu_center k_i
  = if (length k_i <=? 3)%nat
    then Ok (k nu nu_center (nth 0 k_i 1) (nth 1 k_i 0) (nth 2 k_i 0))
    else Raise (TypeError "k() takes from 2 to 5 positional arguments").
Proof. destruct k_i as [|k0 [|k1 [|k2 [|k3 k_i]]]]; reflexivity. Qed.

Lemma sin_sum_value_outcome (z : list R) (t nu_center nu_min : R) (N : Z)
    (spec_width : R) (k_i : list R) :
  sin_sum_value z t nu_center nu_min N spec_width k_i
  = if (N <? 0)%Z
    then Raise (ValueError "Number of samples must be non-negative.")
    else if (slice_spacing N =? 0)%Z
    then Raise (ValueError "slice step cannot be zero")
    else if (length k_i <=? 3)%nat
    then Ok (superposition t nu_center nu_min N spec_width
               (fun nu =>
                  k nu nu_center (nth 0 k_i 1) (nth 1 k_i 0) (nth 2 k_i 0))
               <$> z)
    else Raise (TypeError "k() takes from 2 to 5 positional arguments").
Proof.
  destruct (Z.ltb_spec N 0) as [Hneg|HN].
  { unfold sin_sum_value. rewrite linspace_negative by exact Hneg. reflexivity. }
  destruct (Z.eqb_spec (slice_spacing N) 0) as [Hzero|Hsp].
  { unfold sin_sum_value. rewrite linspace_samples by exact HN. cbn [rbind].
    rewrite zeros_of_nat. cbn [rbind].
    rewrite plot_spacing_slice_spacing, Hzero;
      [reflexivity | exact HN | rewrite length_fmap; apply length_seq]. }
  destruct (length k_i <=? 3)%nat eqn:Hk.
  { apply sin_sum_value_superposition; [exact HN | exact Hsp |].
    intros nu. rewrite k_star_outcome, Hk. reflexivity. }
  unfold sin_sum_value. rewrite linspace_samples by exact HN. cbn [rbind].
  rewrite zeros_of_nat. cbn [rbind].
  rewrite plot_spacing_slice_spacing;
    [| exact HN | rewrite length_fmap; apply length_seq].
  destruct (slice_step_nonzero
              (linear_sample nu_min (nu_center * 2) N <$> seq 0 (Z.to_nat N))
              (int_div (2 * N) 5) (int_div (3 * N) 5) (slice_spacing N) Hsp)
    as [pf ->].
  cbn [rbind]. rewrite length_fmap, length_seq.
  pose proof (slice_spacing_nonzero N HN Hsp) as H97.
  destruct (Z.to_nat N) as [|n] eqn:HnN; [lia|].
  cbn [seq fmap list_fmap fill]. unfold component at 1.
  unfold getitem at 1. cbn [lookup list_lookup rbind].
  rewrite k_star_outcome, Hk. reflexivity.
Qed.

(** ** Rendering *)

Lemma advance_nil (w : world) : advance w [] = w.
Proof. destruct w. unfold advance. cbn. rewrite app_nil_r. reflexivity. Qed.

Lemma advance_app (w : world) (es es' : list event) :
  advance (advance w es) es' = advance w (es ++ es').
Proof. unfold advance. cbn. rewrite <- app_assoc. reflexivity. Qed.

Lemma accepts_app (w : world) (es es' : list event) :
  accepts w (es ++ es') <-> accepts w es /\ accepts (advance w es) es'.
Proof.
  revert w. induction es as [|e es IH]; intros w; cbn [app accepts].
  - rewrite advance_nil. tauto.
  - rewrite IH, advance_app. cbn [app]. tauto.
Qed.

(** Where nothing is refused, every sequence of calls is accepted. *)
Lemma accepts_all (w : world) (es : list event) :
  (forall history e, refusal w history e = None) -> accepts w es.
Proof.
  revert w. induction es as [|e es IH]; intros w Hall; cbn [accepts];
    [exact I|].
  split; [apply Hall | apply IH; exact Hall].
Qed.

Lemma renders_ret {A : Type} (a : A) (w : world) : renders (ret a) w [] (Ok a).
Proof. intros _. rewrite advance_nil. reflexivity. Qed.

Lemma renders_lift {A : Type} (r : result A) (w : world) :
  renders (lift r) w [] r.
Proof. intros _. rewrite advance_nil. reflexivity. Qed.

Lemma renders_lift_Ok {A : Type} (r : result A) (a : A) (w : world) :
  r = Ok a -> renders (lift r) w [] (Ok a).
Proof. intros ->. apply renders_lift. Qed.

Lemma renders_emit (e : event) (w : world) : renders (emit e) w [e] (Ok tt).
Proof. intros [He _]. unfold emit. rewrite He. reflexivity. Qed.

Lemma renders_savefig (path : string) (w : world) :
  writable w path = true -> renders (savefig path) w [Savefig path] (Ok tt).
Proof. intros Hw Hacc. unfold savefig. rewrite Hw. apply renders_emit, Hacc. Qed.

Lemma renders_savefig_missing (path : string) (w : world) :
  writable w path = false ->
  renders (savefig path) w [] (Raise (FileNotFoundError path)).
Proof.
  intros Hw _. unfold savefig. rewrite Hw, advance_nil. reflexivity.
Qed.

Lemma renders_bind {A B : Type} (m : M A) (f : A -> M B) (w : world)
    (es es' : list event) (a : A) (r : result B) :
  renders m w es (Ok a) -> renders (f a) (advance w es) es' r ->
  renders (bind m f) w (es ++ es') r.
Proof.
  intros Hm Hf Hacc. apply accepts_app in Hacc as [Hes Hes'].
  unfold bind. rewrite (Hm Hes), (Hf Hes'), advance_app. reflexivity.
Qed.

Lemma renders_bind_raise {A B : Type} (m : M A) (f : A -> M B) (w : world)
    (es : list event) (e : exn) :
  renders m w es (Raise e) -> renders (bind m f) w es (Raise e).
Proof. intros Hm Hacc. unfold bind. rewrite (Hm Hacc). reflexivity. Qed.

Lemma renders_as {A : Type} (m : M A) (w : world) (es es' : list event)
    (r r' : result A) :
  renders m w es r -> es = es' -> r = r' -> renders m w es' r'.
Proof. intros Hm <- <-. exact Hm. Qed.

(** Steps through a computation, collecting the calls it makes; [other]
    solves the steps that are loops. *)
Ltac render other :=
  cbv beta iota zeta;
  lazymatch goal with
  | |- renders (bind _ _) _ _ _ =>
      first [ eapply renders_bind; [ solve [render other] | render other ]
            | eapply renders_bind_raise; solve [render other] ]
  | |- renders (ret _) _ _ _ => apply renders_ret
  | |- renders (emit _) _ _ _ => apply renders_emit
  | |- renders (savefig _) _ _ _ =>
      first [ apply renders_savefig; cbn [advance writable]; eassumption
            | apply renders_savefig_missing; cbn [advance writable];
              eassumption ]
  | |- renders (lift _) _ _ _ =>
      first [ eapply renders_lift_Ok; first [eassumption | reflexivity]
            | apply renders_lift ]
  | |- renders (match ?c with _ => _ end) _ _ _ =>
      match goal with
      | H : c = _ |- _ => rewrite H; render other
      end
  | |- _ => other
  end.

Lemma amin_minimum (v : list R) : v <> [] -> amin v = Ok (minimum v).
Proof. destruct v; [contradiction | reflexivity]. Qed.

Lemma amax_maximum (v : list R) : v <> [] -> amax v = Ok (maximum v).
Proof. destruct v; [contradiction | reflexivity]. Qed.

Lemma concat_rows_nonempty (a : ndarray2) :
  well_shaped a -> (0 < nrows a)%nat -> (0 < ncols a)%nat ->
  concat (rows a) <> [].
Proof.
  intros [Hlen Hall] Hn Hm.
  destruct (rows a) as [|r rs]; cbn [length] in Hlen; [lia|].
  apply Forall_cons in Hall as [Hr _].
  destruct r; cbn [length] in Hr; [lia|]. discriminate.
Qed.

(** ** The loop of [sin_sum] with plotting *)

Section SinSumLoopTrace.
Variables (z : list R) (t nu_center : R) (k_i : list R).
Variables (frequencies spectrum plotting_frequencies : list R).

Local Abbreviation body :=
  (sin_sum_body z t nu_center k_i true
     frequencies spectrum plotting_frequencies).
Local Abbreviation row := (component z t nu_center k_i frequencies spectrum).

(** The curve iteration [i] draws, if it draws one. *)
Local Abbreviation curve :=
  (fun i : nat =>
     match frequencies !! i, row i with
     | Some nu_i, Ok v =>
         if in_dec Req_dec_T nu_i plotting_frequencies
         then Some (Plot z v (Some nu_i))
         else None
     | _, _ => None
     end).

Lemma length_component (i : nat) (v : list R) :
  row i = Ok v -> length v = length z.
Proof.
  unfold component.
  destruct (getitem frequencies i) as [nu|]; cbn [rbind]; [|discriminate].
  destruct (k_star nu nu_center k_i) as [k_nu|]; cbn [rbind]; [|discriminate].
  destruct (getitem spectrum i) as [s_i|]; cbn [rbind]; [|discriminate].
  intros [= <-]. rewrite !length_fmap. reflexivity.
Qed.

Lemma sin_sum_body_renders (i : nat) (E_nu E' : ndarray2) (n_plotted : nat)
    (w : world) :
  well_shaped E_nu -> ncols E_nu = length z ->
  rbind (row i) (set_row E_nu i) = Ok E' ->
  renders (body i (E_nu, n_plotted)) w (omap curve [i])
    (Ok (E', (n_plotted + length (omap curve [i]))%nat)).
Proof.
  intros Hwf Hcols Hrow.
  destruct (row i) as [v|e] eqn:Hv; cbn [rbind] in Hrow; [|discriminate Hrow].
  pose proof (length_component i v Hv) as Hlen.
  assert (Hi : (i < nrows E_nu)%nat).
  { unfold set_row in Hrow.
    destruct (Nat.ltb_spec i (nrows E_nu)); [assumption | discriminate Hrow]. }
  rewrite set_row_fits in Hrow by (try exact Hi; congruence).
  injection Hrow as <-.
  cbn [omap list_omap]. rewrite Hv.
  unfold component in Hv. unfold sin_sum_body. cbv beta iota zeta.
  destruct (getitem frequencies i) as [nu_i|e1] eqn:Hnu; cbn [rbind] in Hv;
    [|discriminate Hv].
  destruct (k_star nu_i nu_center k_i) as [k_nu|e1] eqn:Hk; cbn [rbind] in Hv;
    [|discriminate Hv].
  destruct (getitem spectrum i) as [s_i|e1] eqn:Hs; cbn [rbind] in Hv;
    [|discriminate Hv].
  injection Hv as Hv.
  assert (Hfreq : frequencies !! i = Some nu_i)
    by (unfold getitem in Hnu; destruct (frequencies !! i); congruence).
  rewrite Hfreq.
  assert (Hset : set_row E_nu i
                   ((fun phi => s_i * sin (2 * PI * nu_i * t - phi))
                      <$> ((fun z_j => k_nu * z_j) <$> z))
                 = Ok (Array2 (nrows E_nu) (ncols E_nu) (<[i := v]> (rows E_nu)))).
  { rewrite Hv. apply set_row_fits; [exact Hi | congruence]. }
  assert (Hget : getitem (<[i := v]> (rows E_nu)) i = Ok v).
  { unfold getitem. rewrite list_lookup_insert_eq; [reflexivity|].
    destruct Hwf as [-> _]. exact Hi. }
  destruct (in_dec Req_dec_T nu_i plotting_frequencies) as [Hin|Hout] eqn:Hdec.
  - eapply renders_as.
    + render fail.
    + reflexivity.
    + cbn [length]. rewrite Nat.add_1_r. reflexivity.
  - eapply renders_as.
    + render fail.
    + reflexivity.
    + cbn [length]. rewrite Nat.add_0_r. reflexivity.
Qed.

Lemma sin_sum_loop_renders (idxs : list nat) :
  forall (E_nu E' : ndarray2) (n_plotted : nat) (w : world),
    well_shaped E_nu -> ncols E_nu = length z ->
    fill row idxs E_nu = Ok E' ->
    renders (foldM body idxs (E_nu, n_plotted)) w (omap curve idxs)
      (Ok (E', (n_plotted + length (omap curve idxs))%nat)).
Proof.
  induction idxs as [|i idxs IH]; intros E_nu E' n_plotted w Hwf Hcols Hfill.
  - cbn [fill] in Hfill. injection Hfill as <-. cbn [foldM omap list_omap length].
    rewrite Nat.add_0_r. apply renders_ret.
  - cbn [foldM]. cbn [fill] in Hfill.
    destruct (rbind (row i) (set_row E_nu i)) as [E1|e] eqn:Hrow.
    2:{ destruct (row i) as [v|e']; cbn [rbind] in Hrow, Hfill;
          [|discriminate Hfill].
        rewrite Hrow in Hfill. discriminate Hfill. }
    assert (Hrest : fill row idxs E1 = Ok E').
    { destruct (row i) as [v|e']; cbn [rbind] in Hrow, Hfill;
        [|discriminate Hrow].
      rewrite Hrow in Hfill. exact Hfill. }
    assert (Hwf1 : well_shaped E1 /\ ncols E1 = ncols E_nu).
    { destruct (row i) as [v|e']; cbn [rbind] in Hrow; [|discriminate Hrow].
      apply set_row_returns in Hrow as (Hwf1 & _ & Hcols1 & _); auto. }
    destruct Hwf1 as [Hwf1 Hcols1].
    eapply renders_as.
    + eapply renders_bind;
        [exact (sin_sum_body_renders i E_nu E1 n_plotted w Hwf Hcols Hrow)|].
      apply (IH E1 E'); [exact Hwf1 | congruence | exact Hrest].
    + change (i :: idxs) with ([i] ++ idxs). rewrite omap_app. reflexivity.
    + change (i :: idxs) with ([i] ++ idxs).
      rewrite omap_app, length_app, Nat.add_assoc. reflexivity.
Qed.
End SinSumLoopTrace.

(** ** [sin_sum] with plotting *)

Lemma length_frequency_samples (nu_min nu_center : R) (N : Z) :
  length (frequency_samples nu_min nu_center N) = Z.to_nat N.
Proof. unfold frequency_samples. rewrite length_fmap. apply length_seq. Qed.

Lemma plotting_samples_returned (nu_min nu_center : R) (N : Z) :
  (0 <= N)%Z -> slice_spacing N <> 0%Z ->
  slice_step (frequency_samples nu_min nu_center N)
    (int_div (2 * N) 5) (int_div (3 * N) 5)
    (plot_spacing (frequency_samples nu_min nu_center N) N)
  = Ok (plotting_samples nu_min nu_center N).
Proof.
  intros HN Hsp.
  rewrite plot_spacing_slice_spacing
    by (try exact HN; apply length_frequency_samples).
  unfold plotting_samples.
  destruct (slice_step_nonzero (frequency_samples nu_min nu_center N)
              (int_div (2 * N) 5) (int_div (3 * N) 5) (slice_spacing N) Hsp)
    as [pf ->].
  reflexivity.
Qed.

(** Row [i] of [E_nu] is the weighted plane wave of frequency [i]. *)
Lemma component_spectral (z : list R) (t nu_center nu_min : R) (N : Z)
    (spec_width : R) (k_i : list R) (i : nat) :
  (length k_i <= 3)%nat -> (i < Z.to_nat N)%nat ->
  component z t nu_center k_i (frequency_samples nu_min nu_center N)
    (gaussian (length (frequency_samples nu_min nu_center N)) spec_width) i
  = Ok (spectral_component z t nu_center nu_min N spec_width k_i i).
Proof.
  intros Hk Hi. apply Nat.leb_le in Hk.
  rewrite length_frequency_samples.
  unfold component, getitem, frequency_samples.
  rewrite list_lookup_fmap, lookup_seq_lt by exact Hi.
  cbn [fmap option_fmap option_map Nat.add rbind].
  rewrite k_star_outcome, Hk. cbn [rbind].
  rewrite gaussian_weights, list_lookup_fmap, lookup_seq_lt by exact Hi.
  cbn [fmap option_fmap option_map Nat.add rbind]. f_equal.
  rewrite <- list_fmap_compose. unfold spectral_component, wave_vector.
  rewrite (Rmult_comm 2 nu_center). reflexivity.
Qed.

Lemma length_spectral_component (z : list R) (t nu_center nu_min : R) (N : Z)
    (spec_width : R) (k_i : list R) (i : nat) :
  length (spectral_component z t nu_center nu_min N spec_width k_i i)
  = length z.
Proof. unfold spectral_component. apply length_fmap. Qed.

Lemma sum_spectral_components (z : list R) (t nu_center nu_min : R) (N : Z)
    (spec_width : R) (k_i : list R) :
  sum_axis0
    (Array2 (Z.to_nat N) (length z)
       (spectral_component z t nu_center nu_min N spec_width k_i
          <$> seq 0 (Z.to_nat N)))
  = summed_field z t nu_center nu_min N spec_width k_i.
Proof.
  unfold sum_axis0. cbn [rows ncols].
  apply (sum_columns
           (fun i z_j =>
              gaussian_weight (Z.to_nat N) spec_width i
              * sin (2 * PI * linear_sample nu_min (2 * nu_center) N i * t
                     - wave_vector nu_center k_i
                         (linear_sample nu_min (2 * nu_center) N i) * z_j))).
Qed.

Lemma length_summed_field (z : list R) (t nu_center nu_min : R) (N : Z)
    (spec_width : R) (k_i : list R) :
  length (summed_field z t nu_center nu_min N spec_width k_i) = length z.
Proof. unfold summed_field. apply length_fmap. Qed.

(** What a plotting run does, whichever directories exist: it draws and
    saves the three figures and returns the field, or stops at the first
    figure it cannot save. *)
Lemma sin_sum_plotting_run (z : list R) (t nu_center nu_min : R) (N : Z)
    (spec_width : R) (k_i : list R) (z_arrow : bool) (figuresize : Z * Z)
    (w : world) :
  (0 <= N)%Z -> slice_spacing N <> 0%Z -> (length k_i <= 3)%nat -> z <> [] ->
  renders
    (sin_sum z t nu_center nu_min N spec_width k_i true z_arrow figuresize)
    w
    (sin_sum_figures z t nu_center nu_min N spec_width k_i figuresize
       (writable w))
    (sin_sum_outcome z t nu_center nu_min N spec_width k_i (writable w)).
Proof.
  intros HN Hsp Hk Hz.
  pose proof (slice_spacing_nonzero N HN Hsp) as H97.
  pose proof (length_frequency_samples nu_min nu_center N) as Hlen.
  pose proof (linspace_samples nu_min (nu_center * 2) N HN) as Hfr.
  fold (frequency_samples nu_min nu_center N) in Hfr.
  set (fr := frequency_samples nu_min nu_center N) in *.
  pose proof (zeros_of_nat (length fr) (length z)) as Hzeros.
  pose proof (plotting_samples_returned nu_min nu_center N HN Hsp) as Hpf.
  fold fr in Hpf. unfold plot_spacing in Hpf.
  set (comp := spectral_component z t nu_center nu_min N spec_width k_i).
  assert (Hfill :
            fill (component z t nu_center k_i fr
                    (gaussian (length fr) spec_width))
              (seq 0 (length fr))
              (Array2 (length fr) (length z)
                 (replicate (length fr) (replicate (length z) 0)))
            = Ok (Array2 (length fr) (length z) (comp <$> seq 0 (length fr)))).
  { apply fill_rows. intros i Hi. split.
    - apply component_spectral; [exact Hk | lia].
    - apply length_spectral_component. }
  set (E' := Array2 (length fr) (length z) (comp <$> seq 0 (length fr))) in *.
  assert (HE : sum_axis0 E' = summed_field z t nu_center nu_min N spec_width k_i).
  { subst E'. rewrite Hlen. apply sum_spectral_components. }
  assert (HM : (0 < length z)%nat) by (destruct z; [contradiction | cbn; lia]).
  assert (Hwf : well_shaped E').
  { unfold E'. split; cbn [rows nrows ncols].
    - rewrite length_fmap. apply length_seq.
    - apply Forall_fmap, Forall_forall. intros i _.
      apply length_spectral_component. }
  pose proof (amin_minimum z Hz) as Hzmin.
  pose proof (amax_maximum z Hz) as Hzmax.
  assert (Hall : concat (rows E') <> [])
    by (apply concat_rows_nonempty; [exact Hwf | |]; unfold E';
        cbn [nrows ncols]; lia).
  pose proof (amin_minimum _ Hall) as Hlo. fold (amin2 E') in Hlo.
  pose proof (amax_maximum _ Hall) as Hhi. fold (amax2 E') in Hhi.
  assert (HEne : sum_axis0 E' <> []).
  { intros H0. apply (f_equal length) in H0.
    rewrite HE, length_summed_field in H0. cbn in H0. lia. }
  pose proof (amin_minimum _ HEne) as HEmin.
  pose proof (amax_maximum _ HEne) as HEmax.
  assert (Hcurves :
            omap (fun i =>
                    match fr !! i,
                          component z t nu_center k_i fr
                            (gaussian (length fr) spec_width) i
                    with
                    | Some nu_i, Ok v =>
                        if in_dec Req_dec_T nu_i
                             (plotting_samples nu_min nu_center N)
                        then Some (Plot z v (Some nu_i))
                        else None
                    | _, _ => None
                    end) (seq 0 (length fr))
            = component_curves z t nu_center nu_min N spec_width k_i).
  { unfold component_curves.
    replace (seq 0 (length fr)) with (seq 0 (Z.to_nat N))
      by (rewrite Hlen; reflexivity).
    apply list_omap_ext, Forall_Forall2_diag, Forall_forall.
    intros i Hi. apply elem_of_seq in Hi. unfold fr.
    rewrite component_spectral by (try exact Hk; lia).
    unfold frequency_samples.
    rewrite list_lookup_fmap, lookup_seq_lt by lia. reflexivity. }
  unfold sin_sum_figures, sin_sum_outcome, sin_sum_paths.
  cbn [drawn_and_saved find negb].
  unfold sin_sum.
  destruct (writable w "plots/spectral_components.pdf") eqn:Ha;
    [destruct (writable w "plots/resulting_pulse.pdf") eqn:Hb;
     [destruct (writable w "plots/spectrum.pdf") eqn:Hc|]|];
    cbn [negb];
    (eapply renders_as;
     [ render ltac:(unfold for_range;
                    eapply sin_sum_loop_renders;
                    [apply zeros_well_shaped | reflexivity | exact Hfill])
     | unfold components_drawing, pulse_drawing, spectrum_drawing;
       cbn [app Nat.add]; rewrite ?app_nil_r, <- ?app_assoc; cbn [app];
       rewrite Hcurves, ?HE; subst E'; cbn [rows]; rewrite ?Hlen;
       reflexivity
     | rewrite ?HE; reflexivity ]).
Qed.

(** With a non-empty axis, the directories in place and nothing refused,
    the plotting run returns as well. *)
Lemma sin_sum_plotting_returns (z : list R) (t nu_center nu_min : R) (N : Z)
    (spec_width : R) (k_i : list R) (z_arrow : bool) (figuresize : Z * Z)
    (w : world) (E : list R) :
  z <> [] -> (forall path, writable w path = true) ->
  (forall history e, refusal w history e = None) ->
  sin_sum_value z t nu_center nu_min N spec_width k_i = Ok E ->
  exists w',
    sin_sum z t nu_center nu_min N spec_width k_i true z_arrow figuresize w
    = (Ok E, w').
Proof.
  intros Hz Hw Hall Hval.
  destruct (sin_sum_value_defined _ _ _ _ _ _ _ _ Hval) as [HN Hsp].
  rewrite sin_sum_value_outcome in Hval.
  destruct (Z.ltb_spec N 0); [lia|].
  destruct (Z.eqb_spec (slice_spacing N) 0); [contradiction|].
  destruct (Nat.leb_spec (length k_i) 3) as [Hk|]; [|discriminate Hval].
  injection Hval as <-.
  pose proof (sin_sum_plotting_run z t nu_center nu_min N spec_width k_i
                z_arrow figuresize w HN Hsp Hk Hz
                (accepts_all _ _ Hall)) as Hrun.
  unfold sin_sum_outcome, sin_sum_paths in Hrun. cbn [find] in Hrun.
  rewrite !Hw in Hrun. cbn [negb] in Hrun.
  eexists. exact Hrun.
Qed.
(** * The wave-vector model *)





(** * Spectral summation *)

(** C1. The array [sin_sum] returns holds, at every position index [j],
    the sum over the [N_frequencies] spectral components of
    [weight_i * sin(2*pi*frequency_i*t - k(frequency_i)*z_j)], where the
    frequencies are the samples linearly spaced over
    [[nu_min, 2*nu_center]] and the weights the Gaussian sequence of the
    same length (see [linspace_samples] and [gaussian_weights]); this
    holds for every run that returns, plotting or not, for a spectral
    width other than zero (the width divides in the exponent of the
    weights).  A run without plotting returns whenever the slice step is
    not zero. *)
Theorem sin_sum_is_spectral_sum (z : list R) (t nu_center nu_min : R)
    (N_frequencies : Z) (spec_width k0 k1 k2 : R) :
  spec_width <> 0 ->
  (forall plotting z_arrow figuresize w w' E,
     sin_sum z t nu_center nu_min N_frequencies spec_width [k0; k1; k2]
       plotting z_arrow figuresize w = (Ok E, w') ->
     length E = length z
     /\ forall j z_j, z !! j = Some z_j ->
        E !! j
        = Some (big_sum (Z.to_nat N_frequencies) (fun i =>
            let frequency_i :=
              linear_sample nu_min (2 * nu_center) N_frequencies i in
            let weight_i :=
              gaussian_weight (Z.to_nat N_frequencies) spec_width i in
            weight_i
            * sin (2 * PI * frequency_i * t
                   - k frequency_i nu_center k0 k1 k2 * z_j))))
  /\ ((0 <= N_frequencies)%Z -> slice_spacing N_frequencies <> 0%Z ->
      forall z_arrow figuresize w, exists E,
        sin_sum z t nu_center nu_min N_frequencies spec_width [k0; k1; k2]
          false z_arrow figuresize w = (Ok E, w)).
Proof.
  intros _. split.
  - intros plotting z_arrow figuresize w w' E Hrun.
    apply sin_sum_returns in Hrun.
    destruct (sin_sum_value_defined _ _ _ _ _ _ _ _ Hrun) as [HN Hsp].
    rewrite (sin_sum_value_superposition z t nu_center nu_min N_frequencies
               spec_width [k0; k1; k2]
               (fun nu => k nu nu_center k0 k1 k2) HN Hsp
               (fun nu => eq_refl)) in Hrun.
    injection Hrun as <-. split; [apply length_fmap|].
    intros j z_j Hj. rewrite list_lookup_fmap, Hj. reflexivity.
  - intros HN Hsp z_arrow figuresize w. eexists.
    rewrite sin_sum_quiet.
    rewrite (sin_sum_value_superposition z t nu_center nu_min N_frequencies
               spec_width [k0; k1; k2]
               (fun nu => k nu nu_center k0 k1 k2) HN Hsp
               (fun nu => eq_refl)).
    reflexivity.
Qed.

Lemma sin_sum_is_spectral_sum_witness :
  exists E : list R,
    200 <> 0
    /\ sin_sum [0; 1] 0 1 (1 / 1000) 100 200 [1; 5; 0] false false
      (11, 4)%Z (World [] (fun _ => true))
    = (Ok E, World [] (fun _ => true))
    /\ length E = 2%nat
    /\ E !! 1%nat
       = Some (big_sum (Z.to_nat 100) (fun i =>
           gaussian_weight (Z.to_nat 100) 200 i
           * sin (2 * PI * linear_sample (1 / 1000) (2 * 1) 100 i * 0
                  - k (linear_sample (1 / 1000) (2 * 1) 100 i) 1 1 5 0 * 1))).
Proof.
  assert (Hwidth : 200 <> 0) by lra.
  destruct (sin_sum_is_spectral_sum [0; 1] 0 1 (1 / 1000) 100 200 1 5 0
              Hwidth) as [Hsum Hret].
  destruct (Hret ltac:(lia) ltac:(vm_compute; discriminate)
              false (11, 4)%Z (World [] (fun _ => true))) as [E Hrun].
  destruct (Hsum _ _ _ _ _ _ Hrun) as [Hlen Hentries].
  exists E. split; [exact Hwidth|]. split; [exact Hrun|].
  split; [exact Hlen|]. exact (Hentries 1%nat 1 eq_refl).
Defined.

(** C5 (the code does not do this).  With [N_frequencies = 1] the slice
    [frequencies[0:0]] is empty, the slice step is [int(0 / 20) = 0], and
    [frequencies[0:0:0]] raises before anything is computed or rendered. *)
Theorem sin_sum_single_frequency_raises (z : list R) (t nu_center nu_min : R)
    (spec_width : R) (k_i : list R) (plotting z_arrow : bool)
    (figuresize : Z * Z) (w : world) :
  sin_sum z t nu_center nu_min 1 spec_width k_i plotting z_arrow figuresize w
  = (Raise (ValueError "slice step cannot be zero"), w).
Proof.
  unfold sin_sum. cbv zeta.
  rewrite bind_lift, linspace_single, bind_lift, zeros_of_nat, bind_lift.
  reflexivity.
Qed.

(** The same happens for every sample count whose slice step is zero, in
    particular for every count below 97. *)
Lemma sin_sum_zero_spacing_raises (z : list R) (t nu_center nu_min : R)
    (N : Z) (spec_width : R) (k_i : list R) (plotting z_arrow : bool)
    (figuresize : Z * Z) (w : world) :
  (0 <= N)%Z -> slice_spacing N = 0%Z ->
  sin_sum z t nu_center nu_min N spec_width k_i plotting z_arrow figuresize w
  = (Raise (ValueError "slice step cannot be zero"), w).
Proof.
  intros HN Hsp. unfold sin_sum. cbv zeta.
  rewrite bind_lift, linspace_samples by exact HN.
  rewrite bind_lift, zeros_of_nat, bind_lift.
  match goal with
  | |- context [slice_step ?fr ?a ?b ?s] =>
      change s with (plot_spacing fr N)
  end.
  rewrite plot_spacing_slice_spacing, Hsp;
    [reflexivity | exact HN | rewrite length_fmap; apply length_seq].
Qed.

(** C7. Two runs of [sin_sum] on the same arguments, in whatever worlds,
    return the same array if both return; without plotting the two
    outcomes (array or exception) are the same. *)
Theorem sin_sum_deterministic (z : list R) (t nu_center nu_min : R)
    (N_frequencies : Z) (spec_width : R) (k_i : list R)
    (plotting z_arrow : bool) (figuresize : Z * Z) (w1 w2 : world) :
  (forall E1 E2 w1' w2',
     sin_sum z t nu_center nu_min N_frequencies spec_width k_i
       plotting z_arrow figuresize w1 = (Ok E1, w1') ->
     sin_sum z t nu_center nu_min N_frequencies spec_width k_i
       plotting z_arrow figuresize w2 = (Ok E2, w2') ->
     E1 = E2)
  /\ (plotting = false ->
      fst (sin_sum z t nu_center nu_min N_frequencies spec_width k_i
             plotting z_arrow figuresize w1)
      = fst (sin_sum z t nu_center nu_min N_frequencies spec_width k_i
               plotting z_arrow figuresize w2)).
Proof.
  split.
  - intros E1 E2 w1' w2' H1 H2.
    apply sin_sum_returns in H1. apply sin_sum_returns in H2. congruence.
  - intros ->. rewrite !sin_sum_quiet. reflexivity.
Qed.

Lemma sin_sum_deterministic_witness :
  fst (sin_sum [0; 1] 0 1 (1 / 1000) 100 200 [1; 5; 0] false false (11, 4)%Z
         (World [] (fun _ => true)))
  = fst (sin_sum [0; 1] 0 1 (1 / 1000) 100 200 [1; 5; 0] false false (11, 4)%Z
           (World [Show] (fun _ => false))).
Proof.
  exact (proj2 (sin_sum_deterministic [0; 1] 0 1 (1 / 1000) 100 200 [1; 5; 0]
                  false false (11, 4)%Z (World [] (fun _ => true))
                  (World [Show] (fun _ => false))) eq_refl).
Defined.

(** C9. The array [sin_sum] returns does not depend on [plotting],
    [z_arrow] or [figuresize]: two runs that differ only in these (and in
    the world they start from) and both return, return the same array. *)
Theorem sin_sum_rendering_flags_noninterference (z : list R)
    (t nu_center nu_min : R) (N_frequencies : Z) (spec_width : R)
    (k_i : list R) (plotting1 z_arrow1 : bool) (figuresize1 : Z * Z)
    (plotting2 z_arrow2 : bool) (figuresize2 : Z * Z)
    (w1 w2 w1' w2' : world) (E1 E2 : list R) :
  sin_sum z t nu_center nu_min N_frequencies spec_width k_i
    plotting1 z_arrow1 figuresize1 w1 = (Ok E1, w1') ->
  sin_sum z t nu_center nu_min N_frequencies spec_width k_i
    plotting2 z_arrow2 figuresize2 w2 = (Ok E2, w2') ->
  E1 = E2.
Proof.
  intros H1 H2.
  apply sin_sum_returns in H1. apply sin_sum_returns in H2. congruence.
Qed.

Lemma sin_sum_rendering_flags_noninterference_witness :
  exists (E1 E2 : list R) (w2' : world),
    sin_sum [0; 1] 0 1 (1 / 1000) 100 200 [1; 5; 0] false false (11, 4)%Z
      (World [] (fun _ => true)) = (Ok E1, World [] (fun _ => true))
    /\ sin_sum [0; 1] 0 1 (1 / 1000) 100 200 [1; 5; 0] true true (6, 4)%Z
         (World [] (fun _ => true)) = (Ok E2, w2')
    /\ E1 = E2.
Proof.
  assert (Hval : exists E,
            sin_sum_value [0; 1] 0 1 (1 / 1000) 100 200 [1; 5; 0] = Ok E).
  { eexists. apply (sin_sum_value_superposition _ _ _ _ _ _ _
                      (fun nu => k nu 1 1 5 0));
      [lia | vm_compute; discriminate | reflexivity]. }
  destruct Hval as [E HE].
  destruct (sin_sum_plotting_returns [0; 1] 0 1 (1 / 1000) 100 200 [1; 5; 0]
              true (6, 4)%Z (World [] (fun _ => true)) E)
    as [w2' Hplot]; [discriminate | reflexivity | reflexivity | exact HE |].
  exists E, E, w2'.
  assert (Hquiet :
            sin_sum [0; 1] 0 1 (1 / 1000) 100 200 [1; 5; 0] false false
              (11, 4)%Z (World [] (fun _ => true))
            = (Ok E, World [] (fun _ => true)))
    by (rewrite sin_sum_quiet, HE; reflexivity).
  split; [exact Hquiet|]. split; [exact Hplot|].
  exact (sin_sum_rendering_flags_noninterference _ _ _ _ _ _ _ _ _ _ _ _ _
           _ _ _ _ _ _ Hquiet Hplot).
Defined.

(** ** The amplitude bound *)

Lemma big_sum_sine_bound (n : nat) (a x : nat -> R) :
  (forall i, 0 <= a i) ->
  Rabs (big_sum n (fun i => a i * sin (x i))) <= big_sum n a.
Proof.
  intros Ha. induction n as [|n IH]; cbn [big_sum].
  - rewrite Rabs_R0. lra.
  - eapply Rle_trans; [apply Rabs_triang|].
    apply Rplus_le_compat; [exact IH|].
    rewrite Rabs_mult, (Rabs_right (a n)) by (apply Rle_ge, Ha).
    rewrite <- (Rmult_1_r (a n)) at 2.
    apply Rmult_le_compat_l; [apply Ha|].
    apply Rabs_le, SIN_bound.
Qed.

Lemma sum_list_shift (l : list R) (a : R) :
  fold_right Rplus a l = sum_list l + a.
Proof.
  unfold sum_list. induction l as [|x l IH]; cbn [fold_right].
  - ring.
  - rewrite IH. ring.
Qed.

Lemma sum_list_big_sum (f : nat -> R) (n : nat) :
  sum_list (f <$> seq 0 n) = big_sum n f.
Proof.
  induction n as [|n IH]; [reflexivity|].
  rewrite seq_S, fmap_app. unfold sum_list at 1. rewrite fold_right_app.
  cbn [Nat.add fmap list_fmap fold_right big_sum].
  rewrite sum_list_shift, IH. ring.
Qed.

(** C8. For [z = linspace(-10, 10, 500)], [t = 0], [nu_center = 1],
    [k_i = [1, 5, 0]], [nu_min = 0.001], [N_frequencies = 4000] and
    [spec_width = 200], [sin_sum] returns an array of length 500, every
    entry of which is bounded in absolute value by the sum of the
    spectral weights. *)
Theorem end_to_end_example (w : world) :
  exists z E : list R,
    linspace (-10) 10 500 = Ok z
    /\ sin_sum z 0 1 (1 / 1000) 4000 200 [1; 5; 0] false false (11, 4)%Z w
       = (Ok E, w)
    /\ length E = 500%nat
    /\ Forall (fun E_j => Rabs E_j <= sum_list (gaussian (Z.to_nat 4000) 200)) E.
Proof.
  assert (Hsp : slice_spacing 4000 <> 0%Z) by (vm_compute; discriminate).
  eexists. eexists. split; [apply linspace_samples; lia|].
  split; [|split].
  - rewrite sin_sum_quiet.
    rewrite (sin_sum_value_superposition _ _ _ _ _ _ _
               (fun nu => k nu 1 1 5 0)); [reflexivity | lia | exact Hsp |].
    intros nu. reflexivity.
  - rewrite !length_fmap, length_seq. reflexivity.
  - rewrite gaussian_weights, sum_list_big_sum.
    apply Forall_fmap, Forall_forall. intros z_j _. cbv beta.
    unfold compose, superposition. cbv zeta.
    apply (big_sum_sine_bound (Z.to_nat 4000)
             (gaussian_weight (Z.to_nat 4000) 200)).
    apply gaussian_weight_nonneg.
Qed.

(** * The time-series driver *)

(** C4. For a spatial axis of [M] points and [n_steps] time steps,
    [calc_pulses] builds the [n_steps] time values linearly spaced over
    [[t_start, t_end]]; the array it returns has shape [(n_steps, M)], and
    its row [i] is what [sin_sum] returns at time value [i], in order,
    every one of these calls starting from, and leaving, the same world.
    It returns whenever [n_steps] is not negative and [k_i] holds at most
    three coefficients. *)
Theorem calc_pulses_time_series (z : list R) (t_start t_end : R)
    (n_steps : Z) (nu_center : R) (k_i : list R) (spec_width : R)
    (w : world) :
  (forall pulses w',
     calc_pulses z t_start t_end n_steps nu_center k_i spec_width w
     = (Ok pulses, w') ->
     w' = w
     /\ linspace t_start t_end n_steps
        = Ok (linear_sample t_start t_end n_steps
                <$> seq 0 (Z.to_nat n_steps))
     /\ shape pulses = (Z.to_nat n_steps, length z)
     /\ well_shaped pulses
     /\ forall i, (i < Z.to_nat n_steps)%nat ->
        exists E,
          sin_sum z (linear_sample t_start t_end n_steps i) nu_center
            default_nu_min default_N_frequencies spec_width k_i
            default_plotting default_z_arrow default_figuresize w
          = (Ok E, w)
          /\ rows pulses !! i = Some E)
  /\ ((0 <= n_steps)%Z -> (length k_i <= 3)%nat ->
      exists pulses,
        calc_pulses z t_start t_end n_steps nu_center k_i spec_width w
        = (Ok pulses, w)).
Proof.
  split.
  - intros pulses w' Hrun. rewrite calc_pulses_value in Hrun.
    injection Hrun as Hrun <-. split; [reflexivity|].
    destruct (linspace t_start t_end n_steps) as [times|e] eqn:Htimes;
      cbn [rbind] in Hrun; [|discriminate Hrun].
    apply linspace_returns in Htimes as (Hn & Hlen & Htimes).
    split; [congruence|].
    destruct (sequence _) as [Es|e] eqn:Hseq; cbn [rmap rbind] in Hrun;
      [|discriminate Hrun].
    injection Hrun as <-.
    apply sequence_returns in Hseq as [HlenEs Hrows].
    split; [unfold shape; cbn [nrows ncols]; congruence|].
    split.
    + split; cbn [rows nrows ncols]; [exact HlenEs|].
      apply Forall_lookup. intros i E HE.
      destruct (lookup_lt_is_Some_2 times i) as [t_i Hi];
        [rewrite <- HlenEs; eapply lookup_lt_Some, HE|].
      destruct (Hrows i t_i Hi) as (E' & Hval & HE').
      rewrite HE in HE'. injection HE' as <-.
      eapply length_sin_sum_value, Hval.
    + intros i Hi. cbn [rows].
      assert (Hti : times !! i = Some (linear_sample t_start t_end n_steps i)).
      { rewrite Htimes, list_lookup_fmap, lookup_seq_lt by exact Hi.
        reflexivity. }
      destruct (Hrows i _ Hti) as (E & Hval & HE).
      exists E. split; [|exact HE].
      unfold default_plotting. rewrite sin_sum_quiet, Hval. reflexivity.
  - intros Hn Hk.
    destruct (k_star_short k_i Hk) as (k0 & k1 & k2 & Hstar).
    rewrite calc_pulses_value, linspace_samples by exact Hn. cbn [rbind].
    rewrite (list_fmap_ext _
               (fun t_i =>
                  Ok (superposition t_i nu_center default_nu_min
                        default_N_frequencies spec_width
                        (fun nu => k nu nu_center k0 k1 k2) <$> z))).
    + rewrite sequence_Ok. cbn [rmap rbind]. eauto.
    + intros i t_i _. apply sin_sum_value_superposition;
        [unfold default_N_frequencies; lia | vm_compute; discriminate |].
      intros nu. apply Hstar.
Qed.

Lemma calc_pulses_time_series_witness :
  exists pulses : ndarray2,
    calc_pulses [0; 1] 0 1 3 1 [1; 5; 0] 100 (World [] (fun _ => true))
    = (Ok pulses, World [] (fun _ => true))
    /\ shape pulses = (3, 2)%nat.
Proof.
  destruct (calc_pulses_time_series [0; 1] 0 1 3 1 [1; 5; 0] 100
              (World [] (fun _ => true))) as [Hrows Hret].
  destruct (Hret ltac:(lia) ltac:(cbn; lia)) as [pulses Hrun].
  destruct (Hrows pulses _ Hrun) as (_ & _ & Hshape & _).
  exists pulses. split; [exact Hrun | exact Hshape].
Defined.

(** C6. With [n_steps = 1], [calc_pulses] makes the one call
    [sin_sum(z, t_start, nu_center=nu_center, k_i=k_i,
    spec_width=spec_width)]: it returns the one-row array holding what
    that call returns, and raises what that call raises. *)
Theorem calc_pulses_single_step (z : list R) (t_start t_end nu_center : R)
    (k_i : list R) (spec_width : R) (w : world) :
  calc_pulses z t_start t_end 1 nu_center k_i spec_width w
  = (rmap (fun E => Array2 1 (length z) [E])
       (fst (sin_sum z t_start nu_center default_nu_min
               default_N_frequencies spec_width k_i default_plotting
               default_z_arrow default_figuresize w)), w).
Proof.
  rewrite calc_pulses_value, linspace_single.
  unfold default_plotting. rewrite sin_sum_quiet.
  cbn [rbind fmap list_fmap sequence length fst].
  destruct (sin_sum_value _ _ _ _ _ _ _); reflexivity.
Qed.

(** C10. [calc_pulses] takes no minimum frequency and no sample count: it
    returns the rows [sin_sum(z, times[i], nu_center, nu_min=0.001,
    N_frequencies=4000, spec_width, k_i)], in order, for the time values
    [times = linspace(t_start, t_end, n_steps)], and raises what the
    first failing one of these calls raises. *)
Theorem calc_pulses_default_spectrum (z : list R) (t_start t_end : R)
    (n_steps : Z) (nu_center : R) (k_i : list R) (spec_width : R)
    (w : world) :
  calc_pulses z t_start t_end n_steps nu_center k_i spec_width w
  = (rbind (linspace t_start t_end n_steps) (fun times =>
       rmap (Array2 (length times) (length z))
         (sequence
            ((fun t_i =>
                fst (sin_sum z t_i nu_center (1 / 1000) 4000 spec_width k_i
                       false false (11, 4)%Z w)) <$> times))), w).
Proof.
  rewrite calc_pulses_value. f_equal.
  destruct (linspace t_start t_end n_steps) as [times|e]; cbn [rbind];
    [|reflexivity].
  f_equal. f_equal. apply list_fmap_ext. intros i t_i _.
  rewrite sin_sum_quiet. reflexivity.
Qed.

(** * Further properties of the spectral summation *)

(** ** Sums *)

Lemma big_sum_ext (n : nat) (f g : nat -> R) :
  (forall i, (i < n)%nat -> f i = g i) -> big_sum n f = big_sum n g.
Proof.
  induction n as [|n IH]; intros Hfg; cbn [big_sum]; [reflexivity|].
  rewrite IH, Hfg by (intros; try apply Hfg; lia). reflexivity.
Qed.

Lemma big_sum_opp (n : nat) (f : nat -> R) :
  big_sum n (fun i => - f i) = - big_sum n f.
Proof.
  induction n as [|n IH]; cbn [big_sum]; [ring|]. rewrite IH. ring.
Qed.

Lemma big_sum_at_most (n : nat) (a : nat -> R) :
  (forall i, a i <= 1) -> big_sum n a <= INR n.
Proof.
  intros Ha. induction n as [|n IH].
  - cbn [big_sum INR]. lra.
  - cbn [big_sum]. rewrite S_INR. specialize (Ha n). lra.
Qed.

Lemma gaussian_weight_at_most_one (n : nat) (std : R) (i : nat) :
  std <> 0 -> gaussian_weight n std i <= 1.
Proof.
  intros Hstd. unfold gaussian_weight. destruct (n <=? 1)%nat; [lra|].
  set (v := INR i - (INR n - 1) / 2).
  assert (Harg : - v ^ 2 / (2 * std * std) <= 0).
  { assert (0 < 2 * std * std) by nra.
    assert (0 <= v ^ 2) by (apply pow2_ge_0).
    unfold Rdiv. assert (0 < / (2 * std * std)) by (apply Rinv_0_lt_compat; lra).
    nra. }
  destruct Harg as [Hlt|Heq].
  - apply exp_increasing in Hlt. rewrite exp_0 in Hlt. lra.
  - rewrite Heq, exp_0. lra.
Qed.

Lemma sin_period_Z (x : R) (m : Z) : sin (x + 2 * PI * IZR m) = sin x.
Proof.
  destruct (Z.le_gt_cases 0 m) as [Hm|Hm].
  - rewrite <- (sin_period x (Z.to_nat m)).
    rewrite INR_IZR_INZ, Z2Nat.id by exact Hm. f_equal. ring.
  - rewrite <- (sin_period (x + 2 * PI * IZR m) (Z.to_nat (- m))).
    rewrite INR_IZR_INZ, Z2Nat.id, opp_IZR by lia. f_equal. ring.
Qed.

(** ** Errors, and the outcome without plotting *)

(** X1. Without plotting, [sin_sum] leaves the world alone and its outcome
    is decided in this order: a negative [N_frequencies] is a
    [ValueError] of [np.linspace]; a zero slice step is a [ValueError];
    more than three coefficients in [k_i] are a [TypeError] of the first
    call of [k]; otherwise the array of superpositions is returned, a
    short [k_i] being padded with the defaults of [k] (for a spectral
    width other than zero). *)
Theorem sin_sum_quiet_outcome (z : list R) (t nu_center nu_min : R)
    (N_frequencies : Z) (spec_width : R) (k_i : list R) (z_arrow : bool)
    (figuresize : Z * Z) (w : world) :
  spec_width <> 0 ->
  sin_sum z t nu_center nu_min N_frequencies spec_width k_i
    false z_arrow figuresize w
  = (if (N_frequencies <? 0)%Z
     then Raise (ValueError "Number of samples must be non-negative.")
     else if (slice_spacing N_frequencies =? 0)%Z
     then Raise (ValueError "slice step cannot be zero")
     else if (length k_i <=? 3)%nat
     then Ok (superposition t nu_center nu_min N_frequencies spec_width
                (fun nu =>
                   k nu nu_center (nth 0 k_i 1) (nth 1 k_i 0) (nth 2 k_i 0))
                <$> z)
     else Raise (TypeError "k() takes from 2 to 5 positional arguments"),
     w).
Proof. intros _. rewrite sin_sum_quiet, sin_sum_value_outcome. reflexivity. Qed.

Lemma sin_sum_quiet_outcome_witness :
  200 <> 0
  /\ sin_sum [0; 1] 0 1 (1 / 1000) 100 200 [1; 5] false false (11, 4)%Z
       (World [] (fun _ => true))
     = (Ok (superposition 0 1 (1 / 1000) 100 200 (fun nu => k nu 1 1 5 0)
              <$> [0; 1]),
        World [] (fun _ => true))
  /\ sin_sum [0; 1] 0 1 (1 / 1000) 100 200 [1; 5; 0; 0] false false (11, 4)%Z
       (World [] (fun _ => true))
     = (Raise (TypeError "k() takes from 2 to 5 positional arguments"),
        World [] (fun _ => true)).
Proof.
  assert (Hwidth : 200 <> 0) by lra.
  split; [exact Hwidth|]. split.
  - exact (sin_sum_quiet_outcome [0; 1] 0 1 (1 / 1000) 100 200 [1; 5] false
             (11, 4)%Z (World [] (fun _ => true)) Hwidth).
  - exact (sin_sum_quiet_outcome [0; 1] 0 1 (1 / 1000) 100 200 [1; 5; 0; 0]
             false (11, 4)%Z (World [] (fun _ => true)) Hwidth).
Defined.

(** X2. A negative [N_frequencies] raises the [ValueError] of
    [np.linspace], whatever the flags, before anything is rendered. *)
Theorem sin_sum_negative_count_raises (z : list R) (t nu_center nu_min : R)
    (N_frequencies : Z) (spec_width : R) (k_i : list R)
    (plotting z_arrow : bool) (figuresize : Z * Z) (w : world) :
  (N_frequencies < 0)%Z ->
  sin_sum z t nu_center nu_min N_frequencies spec_width k_i
    plotting z_arrow figuresize w
  = (Raise (ValueError "Number of samples must be non-negative."), w).
Proof.
  intros Hneg. unfold sin_sum. cbv zeta.
  rewrite bind_lift, linspace_negative by exact Hneg. reflexivity.
Qed.

Lemma sin_sum_negative_count_raises_witness :
  (-1 < 0)%Z
  /\ sin_sum [0; 1] 0 1 (1 / 1000) (-1) 200 [1; 5; 0] true false (11, 4)%Z
       (World [] (fun _ => true))
     = (Raise (ValueError "Number of samples must be non-negative."),
        World [] (fun _ => true)).
Proof.
  split; [lia|]. apply sin_sum_negative_count_raises. lia.
Defined.

(** X3. With fewer than 97 frequencies the slice step of the plot
    selection is zero and [sin_sum] raises, plotting or not, before
    anything is computed or rendered. *)
Theorem sin_sum_few_frequencies_raise (z : list R) (t nu_center nu_min : R)
    (N_frequencies : Z) (spec_width : R) (k_i : list R)
    (plotting z_arrow : bool) (figuresize : Z * Z) (w : world) :
  (0 <= N_frequencies < 97)%Z ->
  sin_sum z t nu_center nu_min N_frequencies spec_width k_i
    plotting z_arrow figuresize w
  = (Raise (ValueError "slice step cannot be zero"), w).
Proof.
  intros [HN Hfew]. apply sin_sum_zero_spacing_raises; [exact HN|].
  destruct (Z.eq_dec (slice_spacing N_frequencies) 0%Z) as [Hz|Hnz];
    [exact Hz|].
  apply slice_spacing_nonzero in Hnz; [lia | exact HN].
Qed.

Lemma sin_sum_few_frequencies_raise_witness :
  (0 <= 50 < 97)%Z
  /\ sin_sum [0; 1] 0 1 (1 / 1000) 50 200 [1; 5; 0] false false (11, 4)%Z
       (World [] (fun _ => true))
     = (Raise (ValueError "slice step cannot be zero"),
        World [] (fun _ => true)).
Proof.
  split; [lia|]. apply sin_sum_few_frequencies_raise. lia.
Defined.

(** ** Bounds and symmetries of the field *)

Lemma sin_sum_value_quiet_run (z : list R) (t nu_center nu_min : R) (N : Z)
    (spec_width : R) (k_i : list R) (z_arrow : bool) (figuresize : Z * Z)
    (w : world) :
  fst (sin_sum z t nu_center nu_min N spec_width k_i false z_arrow
         figuresize w)
  = sin_sum_value z t nu_center nu_min N spec_width k_i.
Proof. rewrite sin_sum_quiet. reflexivity. Qed.

(** X4. Whatever the flags, every entry of an array [sin_sum] returns is
    bounded in absolute value by the sum of the spectral weights, which
    is itself at most [N_frequencies] (for a spectral width other than
    zero). *)
Theorem sin_sum_amplitude_bound (z : list R) (t nu_center nu_min : R)
    (N_frequencies : Z) (spec_width : R) (k_i : list R)
    (plotting z_arrow : bool) (figuresize : Z * Z) (w w' : world)
    (E : list R) :
  spec_width <> 0 ->
  sin_sum z t nu_center nu_min N_frequencies spec_width k_i
    plotting z_arrow figuresize w = (Ok E, w') ->
  sum_list (gaussian (Z.to_nat N_frequencies) spec_width)
  <= IZR N_frequencies
  /\ Forall (fun E_j =>
              Rabs E_j
              <= sum_list (gaussian (Z.to_nat N_frequencies) spec_width)) E.
Proof.
  intros Hsw Hrun. apply sin_sum_returns in Hrun.
  destruct (sin_sum_value_defined _ _ _ _ _ _ _ _ Hrun) as [HN Hsp].
  rewrite gaussian_weights, sum_list_big_sum. split.
  - apply Rle_trans with (INR (Z.to_nat N_frequencies)).
    + apply big_sum_at_most. intros i.
      apply gaussian_weight_at_most_one. exact Hsw.
    + rewrite INR_IZR_INZ, Z2Nat.id by exact HN. lra.
  - rewrite sin_sum_value_outcome in Hrun.
    destruct (N_frequencies <? 0)%Z; [discriminate Hrun|].
    destruct (slice_spacing N_frequencies =? 0)%Z; [discriminate Hrun|].
    destruct (length k_i <=? 3)%nat; [|discriminate Hrun].
    injection Hrun as <-.
    apply Forall_fmap, Forall_forall. intros z_j _. cbv beta.
    unfold compose, superposition. cbv zeta.
    apply (big_sum_sine_bound (Z.to_nat N_frequencies)
             (gaussian_weight (Z.to_nat N_frequencies) spec_width)).
    apply gaussian_weight_nonneg.
Qed.

Lemma sin_sum_amplitude_bound_witness :
  exists (E : list R) (w' : world),
    (200 <> 0)
    /\ sin_sum [0; 1] 0 1 (1 / 1000) 100 200 [1; 5; 0] true false (11, 4)%Z
         (World [] (fun _ => true)) = (Ok E, w')
    /\ sum_list (gaussian (Z.to_nat 100) 200) <= 100
    /\ Forall (fun E_j => Rabs E_j <= sum_list (gaussian (Z.to_nat 100) 200)) E.
Proof.
  assert (Hval : exists E,
            sin_sum_value [0; 1] 0 1 (1 / 1000) 100 200 [1; 5; 0] = Ok E).
  { eexists. rewrite sin_sum_value_outcome. reflexivity. }
  destruct Hval as [E HE].
  destruct (sin_sum_plotting_returns [0; 1] 0 1 (1 / 1000) 100 200 [1; 5; 0]
              false (11, 4)%Z (World [] (fun _ => true)) E)
    as [w' Hplot]; [discriminate | reflexivity | reflexivity | exact HE |].
  assert (Hsw : 200 <> 0) by lra.
  exists E, w'. split; [exact Hsw|]. split; [exact Hplot|].
  exact (sin_sum_amplitude_bound _ _ _ _ _ _ _ _ _ _ _ _ _ Hsw Hplot).
Defined.

(** X5. Reversing the time and mirroring every position flips the sign of
    the field: [sin_sum(-z, -t) = -sin_sum(z, t)], and the two calls
    raise alike. *)
Theorem sin_sum_parity (z : list R) (t nu_center nu_min : R)
    (N_frequencies : Z) (spec_width : R) (k_i : list R) (z_arrow : bool)
    (figuresize : Z * Z) (w : world) :
  fst (sin_sum (Ropp <$> z) (- t) nu_center nu_min N_frequencies
         spec_width k_i false z_arrow figuresize w)
  = rmap (fmap Ropp)
      (fst (sin_sum z t nu_center nu_min N_frequencies spec_width k_i
              false z_arrow figuresize w)).
Proof.
  rewrite !sin_sum_value_quiet_run, !sin_sum_value_outcome.
  destruct (N_frequencies <? 0)%Z; [reflexivity|].
  destruct (slice_spacing N_frequencies =? 0)%Z; [reflexivity|].
  destruct (length k_i <=? 3)%nat; [|reflexivity].
  cbn [rmap rbind]. f_equal. rewrite <- !list_fmap_compose.
  apply list_fmap_ext. intros j z_j _. unfold compose, superposition.
  cbv zeta. rewrite <- big_sum_opp. apply big_sum_ext. intros i _.
  rewrite Ropp_mult_distr_r, <- sin_neg. do 2 f_equal. ring.
Qed.

(** X6. Without second-order dispersion ([k2 = 0]) the field moves rigidly
    at the group velocity [1/k1]: advancing the time by [dt] and every
    position by [dt / k1] returns the same array whenever the carrier
    phase [(2*pi*nu_center - k0/k1) * dt] is a whole number of turns. *)
Theorem sin_sum_rigid_translation (z : list R) (t nu_center nu_min : R)
    (N_frequencies : Z) (spec_width k0 k1 dt : R) (turns : Z)
    (z_arrow : bool) (figuresize : Z * Z) (w : world) :
  k1 <> 0 ->
  (2 * PI * nu_center - k0 / k1) * dt = 2 * PI * IZR turns ->
  fst (sin_sum ((fun z_j => z_j + dt / k1) <$> z) (t + dt) nu_center nu_min
         N_frequencies spec_width [k0; k1; 0] false z_arrow figuresize w)
  = fst (sin_sum z t nu_center nu_min N_frequencies spec_width [k0; k1; 0]
           false z_arrow figuresize w).
Proof.
  intros Hk1 Hphase.
  rewrite !sin_sum_value_quiet_run, !sin_sum_value_outcome.
  destruct (N_frequencies <? 0)%Z; [reflexivity|].
  destruct (slice_spacing N_frequencies =? 0)%Z; [reflexivity|].
  cbn [length Nat.leb nth]. f_equal. rewrite <- list_fmap_compose.
  apply list_fmap_ext. intros j z_j _. unfold compose, superposition.
  cbv zeta. apply big_sum_ext. intros i _. f_equal.
  set (nu := linear_sample nu_min (2 * nu_center) N_frequencies i).
  rewrite <- (sin_period_Z (2 * PI * nu * t - k nu nu_center k0 k1 0 * z_j)
                turns).
  rewrite <- Hphase. f_equal. unfold k. cbv zeta. field. exact Hk1.
Qed.

Lemma sin_sum_rigid_translation_witness :
  1 <> 0
  /\ (2 * PI * 1 - 0 / 1) * 1 = 2 * PI * IZR 1
  /\ fst (sin_sum ((fun z_j => z_j + 1 / 1) <$> [0; 1]) (0 + 1) 1 (1 / 1000)
            100 200 [0; 1; 0] false false (11, 4)%Z
            (World [] (fun _ => true)))
     = fst (sin_sum [0; 1] 0 1 (1 / 1000) 100 200 [0; 1; 0] false false
              (11, 4)%Z (World [] (fun _ => true))).
Proof.
  assert (H1 : 1 <> 0) by lra.
  assert (H2 : (2 * PI * 1 - 0 / 1) * 1 = 2 * PI * IZR 1) by (field).
  split; [exact H1|]. split; [exact H2|].
  exact (sin_sum_rigid_translation [0; 1] 0 1 (1 / 1000) 100 200 0 1 1 1
           false (11, 4)%Z (World [] (fun _ => true)) H1 H2).
Defined.

(** * Further properties of the time-series driver *)

Lemma default_sin_sum_value_outcome (z : list R) (t nu_center : R)
    (spec_width : R) (k_i : list R) :
  sin_sum_value z t nu_center default_nu_min default_N_frequencies
    spec_width k_i
  = if (length k_i <=? 3)%nat
    then Ok (superposition t nu_center default_nu_min default_N_frequencies
               spec_width
               (fun nu =>
                  k nu nu_center (nth 0 k_i 1) (nth 1 k_i 0) (nth 2 k_i 0))
               <$> z)
    else Raise (TypeError "k() takes from 2 to 5 positional arguments").
Proof. rewrite sin_sum_value_outcome. reflexivity. Qed.

Lemma calc_pulses_cases (z : list R) (t_start t_end : R) (n_steps : Z)
    (nu_center : R) (k_i : list R) (spec_width : R) (w : world) :
  calc_pulses z t_start t_end n_steps nu_center k_i spec_width w
  = (if (n_steps <? 0)%Z
     then Raise (ValueError "Number of samples must be non-negative.")
     else if (n_steps =? 0)%Z
     then Ok (Array2 0 (length z) [])
     else if (length k_i <=? 3)%nat
     then Ok (Array2 (Z.to_nat n_steps) (length z)
                ((fun i =>
                    superposition (linear_sample t_start t_end n_steps i)
                      nu_center default_nu_min default_N_frequencies
                      spec_width
                      (fun nu =>
                         k nu nu_center
                           (nth 0 k_i 1) (nth 1 k_i 0) (nth 2 k_i 0))
                    <$> z)
                   <$> seq 0 (Z.to_nat n_steps)))
     else Raise (TypeError "k() takes from 2 to 5 positional arguments"),
     w).
Proof.
  rewrite calc_pulses_value. f_equal.
  destruct (Z.ltb_spec n_steps 0) as [Hneg|Hn].
  { rewrite linspace_negative by exact Hneg. reflexivity. }
  rewrite linspace_samples by exact Hn. cbn [rbind].
  rewrite length_fmap, length_seq.
  destruct (Z.eqb_spec n_steps 0) as [->|Hpos]; [reflexivity|].
  rewrite (list_fmap_ext _ _ _ (fun _ t_i _ =>
             default_sin_sum_value_outcome z t_i nu_center spec_width k_i)).
  destruct (length k_i <=? 3)%nat.
  - rewrite (sequence_Ok
               (fun t_i =>
                  superposition t_i nu_center default_nu_min
                    default_N_frequencies spec_width
                    (fun nu =>
                       k nu nu_center
                         (nth 0 k_i 1) (nth 1 k_i 0) (nth 2 k_i 0)) <$> z)).
    cbn [rmap rbind]. rewrite <- list_fmap_compose. reflexivity.
  - destruct (Z.to_nat n_steps) as [|m] eqn:Hm; [lia|]. reflexivity.
Qed.

(** X7. [calc_pulses] never renders anything, and its outcome is decided
    in this order: a negative [n_steps] is the [ValueError] of
    [np.linspace]; [n_steps = 0] returns the empty array of shape
    [(0, M)] without a single call of [sin_sum], so even for an
    ill-formed [k_i]; more than three coefficients are the [TypeError] of
    the first call; otherwise row [i] is the field at time value [i]
    (for a spectral width other than zero). *)
Theorem calc_pulses_outcome (z : list R) (t_start t_end : R) (n_steps : Z)
    (nu_center : R) (k_i : list R) (spec_width : R) (w : world) :
  spec_width <> 0 ->
  calc_pulses z t_start t_end n_steps nu_center k_i spec_width w
  = (if (n_steps <? 0)%Z
     then Raise (ValueError "Number of samples must be non-negative.")
     else if (n_steps =? 0)%Z
     then Ok (Array2 0 (length z) [])
     else if (length k_i <=? 3)%nat
     then Ok (Array2 (Z.to_nat n_steps) (length z)
                ((fun i =>
                    superposition (linear_sample t_start t_end n_steps i)
                      nu_center default_nu_min default_N_frequencies
                      spec_width
                      (fun nu =>
                         k nu nu_center
                           (nth 0 k_i 1) (nth 1 k_i 0) (nth 2 k_i 0))
                    <$> z)
                   <$> seq 0 (Z.to_nat n_steps)))
     else Raise (TypeError "k() takes from 2 to 5 positional arguments"),
     w).
Proof. intros _. apply calc_pulses_cases. Qed.

Lemma calc_pulses_outcome_witness :
  100 <> 0
  /\ calc_pulses [0; 1] 0 1 0 1 [1; 5; 0; 0] 100 (World [] (fun _ => true))
     = (Ok (Array2 0 2 []), World [] (fun _ => true))
  /\ calc_pulses [0; 1] 0 1 2 1 [1; 5; 0; 0] 100 (World [] (fun _ => true))
     = (Raise (TypeError "k() takes from 2 to 5 positional arguments"),
        World [] (fun _ => true)).
Proof.
  assert (Hwidth : 100 <> 0) by lra.
  split; [exact Hwidth|]. split.
  - exact (calc_pulses_outcome [0; 1] 0 1 0 1 [1; 5; 0; 0] 100
             (World [] (fun _ => true)) Hwidth).
  - exact (calc_pulses_outcome [0; 1] 0 1 2 1 [1; 5; 0; 0] 100
             (World [] (fun _ => true)) Hwidth).
Defined.

(** X8. From two time steps on, the first row of [calc_pulses] is the
    field at [t_start] and the last row the field at [t_end]. *)
Theorem calc_pulses_endpoints (z : list R) (t_start t_end : R) (n_steps : Z)
    (nu_center : R) (k_i : list R) (spec_width : R) (w : world) :
  (2 <= n_steps)%Z -> (length k_i <= 3)%nat ->
  exists (pulses : ndarray2) (E_first E_last : list R),
    calc_pulses z t_start t_end n_steps nu_center k_i spec_width w
    = (Ok pulses, w)
    /\ sin_sum z t_start nu_center default_nu_min default_N_frequencies
         spec_width k_i default_plotting default_z_arrow default_figuresize w
       = (Ok E_first, w)
    /\ sin_sum z t_end nu_center default_nu_min default_N_frequencies
         spec_width k_i default_plotting default_z_arrow default_figuresize w
       = (Ok E_last, w)
    /\ rows pulses !! 0%nat = Some E_first
    /\ rows pulses !! (Z.to_nat n_steps - 1)%nat = Some E_last.
Proof.
  intros Hn Hk. apply Nat.leb_le in Hk.
  rewrite calc_pulses_cases, Hk.
  destruct (Z.ltb_spec n_steps 0); [lia|].
  destruct (Z.eqb_spec n_steps 0); [lia|].
  unfold default_plotting. rewrite !sin_sum_quiet.
  rewrite !default_sin_sum_value_outcome, Hk.
  destruct (linear_sample_endpoints t_start t_end n_steps) as [Hfirst Hlast].
  eexists _, _, _. split; [reflexivity|]. split; [reflexivity|].
  split; [reflexivity|]. cbn [rows].
  split; rewrite list_lookup_fmap, lookup_seq_lt by lia;
    cbn [fmap option_fmap option_map Nat.add].
  - rewrite Hfirst. reflexivity.
  - replace (Z.to_nat n_steps - 1)%nat with (Z.to_nat (n_steps - 1)) by lia.
    rewrite Hlast by lia. reflexivity.
Qed.

Lemma calc_pulses_endpoints_witness :
  (2 <= 3)%Z /\ (length [1; 5; 0] <= 3)%nat
  /\ exists (pulses : ndarray2) (E_first E_last : list R),
       calc_pulses [0; 1] 0 1 3 1 [1; 5; 0] 100 (World [] (fun _ => true))
       = (Ok pulses, World [] (fun _ => true))
       /\ rows pulses !! 0%nat = Some E_first
       /\ rows pulses !! 2%nat = Some E_last.
Proof.
  split; [lia|]. split; [cbn; lia|].
  destruct (calc_pulses_endpoints [0; 1] 0 1 3 1 [1; 5; 0] 100
              (World [] (fun _ => true)))
    as (pulses & E_first & E_last & Hrun & _ & _ & H0 & H2);
    [lia | cbn; lia |].
  exists pulses, E_first, E_last.
  split; [exact Hrun|]. split; [exact H0 | exact H2].
Defined.

(** X9. When [t_start = t_end] every row of [calc_pulses] is the field at
    that one time. *)
Theorem calc_pulses_frozen_time (z : list R) (t_0 : R) (n_steps : Z)
    (nu_center : R) (k_i : list R) (spec_width : R) (w : world) :
  (0 <= n_steps)%Z -> (length k_i <= 3)%nat ->
  exists E : list R,
    sin_sum z t_0 nu_center default_nu_min default_N_frequencies
      spec_width k_i default_plotting default_z_arrow default_figuresize w
    = (Ok E, w)
    /\ calc_pulses z t_0 t_0 n_steps nu_center k_i spec_width w
       = (Ok (Array2 (Z.to_nat n_steps) (length z)
                (replicate (Z.to_nat n_steps) E)), w).
Proof.
  intros Hn Hk. apply Nat.leb_le in Hk.
  unfold default_plotting.
  rewrite sin_sum_quiet, default_sin_sum_value_outcome, Hk.
  eexists. split; [reflexivity|].
  rewrite calc_pulses_cases, Hk.
  destruct (Z.ltb_spec n_steps 0); [lia|].
  destruct (Z.eqb_spec n_steps 0) as [->|_]; [reflexivity|].
  do 3 f_equal.
  erewrite const_fmap; [rewrite length_seq; reflexivity|].
  intros j i _. cbv beta.
  replace (linear_sample t_0 t_0 n_steps i) with t_0
    by (unfold linear_sample, Rdiv; ring).
  reflexivity.
Qed.

Lemma calc_pulses_frozen_time_witness :
  (0 <= 3)%Z /\ (length [1; 5; 0] <= 3)%nat
  /\ exists E : list R,
       calc_pulses [0; 1] 2 2 3 1 [1; 5; 0] 100 (World [] (fun _ => true))
       = (Ok (Array2 3 2 [E; E; E]), World [] (fun _ => true)).
Proof.
  split; [lia|]. split; [cbn; lia|].
  destruct (calc_pulses_frozen_time [0; 1] 2 3 1 [1; 5; 0] 100
              (World [] (fun _ => true))) as (E & _ & Hrun);
    [lia | cbn; lia |].
  exists E. exact Hrun.
Defined.

(** * What a plotting run of [sin_sum] renders *)

(** ** How many components are selected for plotting *)

Lemma slice_indices_range (stop step : Z) (fuel : nat) :
  (0 < step)%Z ->
  forall i, Forall (fun x => (i <= x < stop)%Z) (slice_indices fuel i stop step)
            /\ NoDup (slice_indices fuel i stop step).
Proof.
  intros Hstep. induction fuel as [|fuel IH]; intros i; cbn [slice_indices].
  - split; constructor.
  - destruct (Z.ltb_spec 0 step) as [_|]; [|lia].
    destruct (Z.ltb_spec i stop) as [Hi|Hi]; [|split; constructor].
    destruct (IH (i + step)%Z) as [Hrange Hnodup]. split.
    + constructor; [lia|]. eapply Forall_impl; [exact Hrange|].
      cbv beta. intros x Hx. lia.
    + constructor; [|exact Hnodup]. intros Hin.
      rewrite Forall_forall in Hrange. specialize (Hrange i Hin). lia.
Qed.

(** For a positive step, the number [m] of indices of a non-empty slice
    is the quotient of its extent by the step, rounded up. *)
Lemma slice_indices_count (stop step : Z) (fuel : nat) :
  (0 < step)%Z ->
  forall i, (i < stop)%Z -> (stop - i <= Z.of_nat fuel)%Z ->
    let m := Z.of_nat (length (slice_indices fuel i stop step)) in
    ((m - 1) * step < stop - i <= m * step)%Z.
Proof.
  intros Hstep. induction fuel as [|fuel IH]; intros i Hi Hfuel; [lia|].
  cbn [slice_indices].
  destruct (Z.ltb_spec 0 step) as [_|]; [|lia].
  destruct (Z.ltb_spec i stop) as [_|]; [|lia].
  cbn [length]. rewrite Nat2Z.inj_succ.
  destruct (Z.lt_ge_cases (i + step) stop) as [Hnext|Hlast].
  - specialize (IH (i + step)%Z Hnext ltac:(lia)). cbv zeta in IH |- *. nia.
  - assert (Hnil : slice_indices fuel (i + step) stop step = []).
    { destruct fuel; cbn [slice_indices]; [reflexivity|].
      destruct (Z.ltb_spec 0 step) as [_|]; [|lia].
      destruct (Z.ltb_spec (i + step) stop); [lia | reflexivity]. }
    rewrite Hnil. cbn [length]. cbv zeta. lia.
Qed.

Lemma linear_sample_injective (start stop : R) (num : Z) (i j : nat) :
  start <> stop -> (1 < num)%Z ->
  linear_sample start stop num i = linear_sample start stop num j -> i = j.
Proof.
  intros Hne Hnum Heq. unfold linear_sample in Heq.
  apply Rplus_eq_reg_l in Heq. apply INR_eq.
  apply Rmult_eq_reg_r in Heq; [exact Heq|].
  unfold Rdiv. apply Rmult_integral_contrapositive_currified; [lra|].
  apply Rinv_neq_0_compat, not_0_IZR. lia.
Qed.

Lemma NoDup_linear_samples (start stop : R) (num : Z) :
  start <> stop -> (1 < num)%Z ->
  NoDup (linear_sample start stop num <$> seq 0 (Z.to_nat num)).
Proof.
  intros Hne Hnum. apply NoDup_fmap_2_strong; [|apply NoDup_seq].
  intros i j _ _. apply linear_sample_injective; assumption.
Qed.

(** Among the indices [0 .. n-1], those listed in a duplicate-free list
    of indices below [n] are as many as the list is long. *)
Lemma count_listed (n : nat) (listed : list nat) :
  NoDup listed -> Forall (fun i => (i < n)%nat) listed ->
  length (filter (fun i => i ∈ listed) (seq 0 n)) = length listed.
Proof.
  intros Hnodup Hrange. apply Permutation_length, NoDup_Permutation.
  - apply NoDup_filter, NoDup_seq.
  - exact Hnodup.
  - intros i. rewrite list_elem_of_filter, elem_of_seq.
    rewrite Forall_forall in Hrange. split; [tauto|].
    intros Hi. specialize (Hrange i Hi). split; [exact Hi | lia].
Qed.

(** The components [sin_sum] selects, for frequencies that differ from
    one another: their number is the extent of the slice
    [frequencies[int(2N/5) : int(3N/5)]] divided by the slice step,
    rounded up, which lies between 20 and 39. *)
Lemma selected_count (nu_min stop : R) (N : Z) (pf : list R) :
  nu_min <> stop -> (0 <= N)%Z -> slice_spacing N <> 0%Z ->
  slice_step (linear_sample nu_min stop N <$> seq 0 (Z.to_nat N))
    (int_div (2 * N) 5) (int_div (3 * N) 5) (slice_spacing N) = Ok pf ->
  let m :=
    Z.of_nat
      (length
         (filter
            (fun i =>
               match (linear_sample nu_min stop N <$> seq 0 (Z.to_nat N)) !! i
               with
               | Some nu => if in_dec Req_dec_T nu pf then true else false
               | None => false
               end = true)
            (seq 0 (length (linear_sample nu_min stop N
                              <$> seq 0 (Z.to_nat N)))))) in
  ((m - 1) * slice_spacing N
   < int_div (3 * N) 5 - int_div (2 * N) 5 <= m * slice_spacing N)%Z
  /\ (20 <= m <= 39)%Z.
Proof.
  intros Hne HN Hsp Hpf.
  pose proof (slice_spacing_nonzero N HN Hsp) as H97.
  destruct (plot_bounds N HN) as [Hlo Hhi].
  set (a := int_div (2 * N) 5) in *. set (b := int_div (3 * N) 5) in *.
  set (s := slice_spacing N) in *.
  assert (Hs : (0 < s)%Z /\ (20 * s <= b - a < 20 * s + 20)%Z).
  { subst s a b. unfold slice_spacing, int_div in *.
    Z.quot_rem_to_equations. lia. }
  destruct Hs as [Hs Hext].
  set (fr := linear_sample nu_min stop N <$> seq 0 (Z.to_nat N)) in *.
  assert (Hlen : length fr = Z.to_nat N)
    by (subst fr; rewrite length_fmap; apply length_seq).
  assert (Hnodup : NoDup fr) by (apply NoDup_linear_samples; [exact Hne | lia]).
  set (idx := slice_indices (length fr) a b s).
  assert (Hpf' : pf = omap (fun i => fr !! Z.to_nat i) idx).
  { unfold slice_step in Hpf.
    destruct (Z.eqb_spec s 0) as [|_]; [lia|].
    destruct (Z.ltb_spec 0 s) as [_|]; [|lia].
    injection Hpf as <-. subst idx. unfold adjust_index.
    destruct (Z.ltb_spec a 0); [lia|]. destruct (Z.ltb_spec b 0); [lia|].
    rewrite !Z.max_r, !Z.min_r by lia. reflexivity. }
  destruct (slice_indices_range b s (length fr) Hs a) as [Hrange Hidx].
  fold idx in Hrange, Hidx. rewrite Forall_forall in Hrange.
  assert (Hcount :
            length (filter
                      (fun i =>
                         match fr !! i with
                         | Some nu =>
                             if in_dec Req_dec_T nu pf then true else false
                         | None => false
                         end = true) (seq 0 (length fr)))
            = length idx).
  { rewrite <- (length_fmap Z.to_nat idx).
    rewrite <- (count_listed (length fr) (Z.to_nat <$> idx)).
    - f_equal. apply list_filter_iff. intros i. split.
      + destruct (fr !! i) as [nu|] eqn:Hi; [|discriminate].
        destruct (in_dec Req_dec_T nu pf) as [Hin|]; [|discriminate].
        intros _. apply list_elem_of_In in Hin. rewrite Hpf' in Hin.
        apply list_elem_of_omap in Hin as (x & Hx & Hnu).
        apply list_elem_of_fmap. exists x. split; [|exact Hx].
        exact (NoDup_lookup fr i (Z.to_nat x) nu Hnodup Hi Hnu).
      + intros Hin. apply list_elem_of_fmap in Hin as (x & -> & Hx).
        destruct (lookup_lt_is_Some_2 fr (Z.to_nat x)) as [nu Hnu];
          [specialize (Hrange x Hx); lia|].
        rewrite Hnu.
        destruct (in_dec Req_dec_T nu pf) as [|Hout]; [reflexivity|].
        exfalso. apply Hout, list_elem_of_In. rewrite Hpf'.
        apply list_elem_of_omap. exists x. split; [exact Hx | exact Hnu].
    - apply NoDup_fmap_2_strong; [|exact Hidx].
      intros x y Hx Hy Hxy.
      specialize (Hrange x Hx) as Hx'. specialize (Hrange y Hy) as Hy'. lia.
    - apply Forall_fmap, Forall_forall. intros x Hx. cbv beta.
      specialize (Hrange x Hx). unfold compose. lia. }
  cbv zeta. rewrite Hcount.
  pose proof (slice_indices_count b s (length fr) Hs a ltac:(lia) ltac:(lia))
    as Hm.
  cbv zeta in Hm. fold idx in Hm. split; [exact Hm | nia].
Qed.

(** As many curves are drawn as there are selected indices. *)
Lemma length_omap_filter {A B : Type} (f : A -> option B) (P : A -> Prop)
    `{!forall x, Decision (P x)} (l : list A) :
  (forall x, x ∈ l -> is_Some (f x) <-> P x) ->
  length (omap f l) = length (filter P l).
Proof.
  induction l as [|x l IH]; intros Hf; [reflexivity|].
  cbn [omap list_omap]. rewrite filter_cons.
  assert (IH' : length (omap f l) = length (filter P l))
    by (apply IH; intros y Hy; apply Hf; right; exact Hy).
  destruct (decide (P x)) as [HP|HP].
  - apply Hf in HP as [y ->]; [|left]. cbn [length]. rewrite <- IH'.
    reflexivity.
  - destruct (f x) as [y|] eqn:Hy; [|exact IH'].
    exfalso. apply HP, Hf; [left | eauto].
Qed.

Lemma component_curves_count (z : list R) (t nu_center nu_min : R) (N : Z)
    (spec_width : R) (k_i : list R) :
  nu_min <> 2 * nu_center -> (0 <= N)%Z -> slice_spacing N <> 0%Z ->
  let m :=
    Z.of_nat (length (component_curves z t nu_center nu_min N spec_width k_i)) in
  ((m - 1) * slice_spacing N
   < int_div (3 * N) 5 - int_div (2 * N) 5 <= m * slice_spacing N)%Z
  /\ (20 <= m <= 39)%Z.
Proof.
  intros Hne HN Hsp.
  assert (Hpf : slice_step (frequency_samples nu_min nu_center N)
                  (int_div (2 * N) 5) (int_div (3 * N) 5) (slice_spacing N)
                = Ok (plotting_samples nu_min nu_center N)).
  { rewrite <- (plotting_samples_returned nu_min nu_center N HN Hsp).
    rewrite plot_spacing_slice_spacing
      by (try exact HN; apply length_frequency_samples).
    reflexivity. }
  pose proof (selected_count nu_min (nu_center * 2) N
                (plotting_samples nu_min nu_center N) ltac:(lra) HN Hsp Hpf)
    as Hcount.
  cbv zeta in Hcount |- *.
  fold (frequency_samples nu_min nu_center N) in Hcount.
  rewrite length_frequency_samples in Hcount.
  unfold component_curves.
  rewrite (length_omap_filter _
             (fun i =>
                match frequency_samples nu_min nu_center N !! i with
                | Some nu =>
                    if in_dec Req_dec_T nu (plotting_samples nu_min nu_center N)
                    then true else false
                | None => false
                end = true)).
  - exact Hcount.
  - intros i Hi. apply elem_of_seq in Hi. cbv zeta.
    unfold frequency_samples at 1.
    rewrite list_lookup_fmap, lookup_seq_lt by lia.
    cbn [fmap option_fmap option_map Nat.add].
    destruct (in_dec Req_dec_T _ _); split; intros H;
      first [reflexivity | solve [eauto] | discriminate H
            | destruct H as [? H]; discriminate H].
Qed.

(** The curves of the components carry a label and print nothing. *)
Lemma component_curves_labelled (z : list R) (t nu_center nu_min : R) (N : Z)
    (spec_width : R) (k_i : list R) :
  printed_counts (component_curves z t nu_center nu_min N spec_width k_i) = []
  /\ labelled_curves (component_curves z t nu_center nu_min N spec_width k_i)
     = component_curves z t nu_center nu_min N spec_width k_i.
Proof.
  unfold component_curves, printed_counts, labelled_curves.
  induction (seq 0 (Z.to_nat N)) as [|i l [IH1 IH2]]; [split; reflexivity|].
  cbn [omap list_omap]. cbv zeta.
  destruct (in_dec Req_dec_T _ _); [|split; assumption].
  cbn [omap list_omap]. cbv zeta in IH1, IH2. rewrite IH1, IH2.
  split; reflexivity.
Qed.

(** X10. What a plotting run renders, call for call: the figure of the
    spectral components (the limits of the axis, one labelled curve for
    every index whose frequency is among the plotting frequencies, the
    limits taken from all components, the printed number of curves,
    [plt.show()]) saved as [plots/spectral_components.pdf]; the figure of
    the resulting pulse saved as [plots/resulting_pulse.pdf]; the figure
    of the spectrum saved as [plots/spectrum.pdf].  The run returns the
    field, for a non-empty axis, a slice step and a spectral width other
    than zero, at most three coefficients and the directory [plots/] in
    place, provided Matplotlib accepts these calls. *)
Theorem sin_sum_plotting_trace (z : list R) (t nu_center nu_min : R)
    (N_frequencies : Z) (spec_width : R) (k_i : list R) (z_arrow : bool)
    (figuresize : Z * Z) (w : world) :
  (0 <= N_frequencies)%Z -> slice_spacing N_frequencies <> 0%Z ->
  (length k_i <= 3)%nat -> z <> [] -> spec_width <> 0 ->
  writable w "plots/spectral_components.pdf" = true ->
  writable w "plots/resulting_pulse.pdf" = true ->
  writable w "plots/spectrum.pdf" = true ->
  let figures :=
    components_drawing z t nu_center nu_min N_frequencies spec_width k_i
      figuresize
    ++ [Savefig "plots/spectral_components.pdf"]
    ++ pulse_drawing z t nu_center nu_min N_frequencies spec_width k_i
         figuresize
    ++ [Savefig "plots/resulting_pulse.pdf"]
    ++ spectrum_drawing nu_center nu_min N_frequencies spec_width
    ++ [Savefig "plots/spectrum.pdf"] in
  accepts w figures ->
  sin_sum z t nu_center nu_min N_frequencies spec_width k_i
    true z_arrow figuresize w
  = (Ok (summed_field z t nu_center nu_min N_frequencies spec_width k_i),
     advance w figures).
Proof.
  intros HN Hsp Hk Hz _ Ha Hb Hc figures Hacc.
  pose proof (sin_sum_plotting_run z t nu_center nu_min N_frequencies
                spec_width k_i z_arrow figuresize w HN Hsp Hk Hz) as Hrun.
  unfold sin_sum_figures, sin_sum_outcome, sin_sum_paths in Hrun.
  cbn [drawn_and_saved find] in Hrun. rewrite Ha, Hb, Hc in Hrun.
  cbn [negb] in Hrun. apply Hrun. exact Hacc.
Qed.

Lemma sin_sum_plotting_trace_witness :
  sin_sum [0; 1] 0 1 (1 / 1000) 100 200 [1; 5; 0] true false (11, 4)%Z
    (World [] (fun _ => true))
  = (Ok (summed_field [0; 1] 0 1 (1 / 1000) 100 200 [1; 5; 0]),
     advance (World [] (fun _ => true))
       (components_drawing [0; 1] 0 1 (1 / 1000) 100 200 [1; 5; 0] (11, 4)%Z
        ++ [Savefig "plots/spectral_components.pdf"]
        ++ pulse_drawing [0; 1] 0 1 (1 / 1000) 100 200 [1; 5; 0] (11, 4)%Z
        ++ [Savefig "plots/resulting_pulse.pdf"]
        ++ spectrum_drawing 1 (1 / 1000) 100 200
        ++ [Savefig "plots/spectrum.pdf"])).
Proof.
  apply (sin_sum_plotting_trace [0; 1] 0 1 (1 / 1000) 100 200 [1; 5; 0]
           false (11, 4)%Z (World [] (fun _ => true)));
    [lia | vm_compute; discriminate | cbn; lia | discriminate | lra
     | reflexivity | reflexivity | reflexivity |].
  apply accepts_all. reflexivity.
Defined.

Lemma sin_sum_figures_counts (z : list R) (t nu_center nu_min : R) (N : Z)
    (spec_width : R) (k_i : list R) (figuresize : Z * Z) :
  let curves := component_curves z t nu_center nu_min N spec_width k_i in
  let figures :=
    components_drawing z t nu_center nu_min N spec_width k_i figuresize
    ++ [Savefig "plots/spectral_components.pdf"]
    ++ pulse_drawing z t nu_center nu_min N spec_width k_i figuresize
    ++ [Savefig "plots/resulting_pulse.pdf"]
    ++ spectrum_drawing nu_center nu_min N spec_width
    ++ [Savefig "plots/spectrum.pdf"] in
  printed_counts figures = [length curves]
  /\ labelled_curves figures = curves.
Proof.
  cbv zeta.
  destruct (component_curves_labelled z t nu_center nu_min N spec_width k_i)
    as [Hprinted Hlabelled].
  unfold components_drawing, pulse_drawing, spectrum_drawing.
  unfold printed_counts, labelled_curves in *. cbv zeta.
  rewrite <- !app_assoc. cbn [app omap list_omap].
  rewrite !omap_app, Hprinted, Hlabelled. cbn [app omap list_omap].
  rewrite app_nil_r. split; reflexivity.
Qed.

(** X11. A plotting run that returns prints one number, the number of
    labelled curves it has drawn.  For a spectrum of more than one
    frequency ([nu_min] other than [2 * nu_center]) this number is the
    extent of the slice [frequencies[int(2N/5) : int(3N/5)]] divided by
    the slice step and rounded up: at least the 20 of [N_spec_plot_tot],
    at most 39. *)
Theorem sin_sum_plotted_count (z : list R) (t nu_center nu_min : R)
    (N_frequencies : Z) (spec_width : R) (k_i : list R) (z_arrow : bool)
    (figuresize : Z * Z) (w : world) :
  (0 <= N_frequencies)%Z -> slice_spacing N_frequencies <> 0%Z ->
  (length k_i <= 3)%nat -> z <> [] -> spec_width <> 0 ->
  writable w "plots/spectral_components.pdf" = true ->
  writable w "plots/resulting_pulse.pdf" = true ->
  writable w "plots/spectrum.pdf" = true ->
  let figures :=
    components_drawing z t nu_center nu_min N_frequencies spec_width k_i
      figuresize
    ++ [Savefig "plots/spectral_components.pdf"]
    ++ pulse_drawing z t nu_center nu_min N_frequencies spec_width k_i
         figuresize
    ++ [Savefig "plots/resulting_pulse.pdf"]
    ++ spectrum_drawing nu_center nu_min N_frequencies spec_width
    ++ [Savefig "plots/spectrum.pdf"] in
  accepts w figures ->
  exists (E : list R) (n : nat),
    sin_sum z t nu_center nu_min N_frequencies spec_width k_i
      true z_arrow figuresize w = (Ok E, advance w figures)
    /\ printed_counts figures = [n]
    /\ length (labelled_curves figures) = n
    /\ (nu_min <> 2 * nu_center ->
        ((Z.of_nat n - 1) * slice_spacing N_frequencies
         < int_div (3 * N_frequencies) 5 - int_div (2 * N_frequencies) 5
         <= Z.of_nat n * slice_spacing N_frequencies)%Z
        /\ (20 <= n <= 39)%nat).
Proof.
  intros HN Hsp Hk Hz _ Ha Hb Hc figures Hacc.
  pose proof (sin_sum_plotting_run z t nu_center nu_min N_frequencies
                spec_width k_i z_arrow figuresize w HN Hsp Hk Hz) as Hrun.
  unfold sin_sum_figures, sin_sum_outcome, sin_sum_paths in Hrun.
  cbn [drawn_and_saved find] in Hrun. rewrite Ha, Hb, Hc in Hrun.
  cbn [negb] in Hrun.
  destruct (sin_sum_figures_counts z t nu_center nu_min N_frequencies
              spec_width k_i figuresize) as [Hprinted Hlabelled].
  eexists _, _. split; [exact (Hrun Hacc)|].
  split; [exact Hprinted|]. split; [subst figures; rewrite Hlabelled; reflexivity|].
  intros Hne.
  destruct (component_curves_count z t nu_center nu_min N_frequencies
              spec_width k_i Hne HN Hsp) as [Hceil Hbounds].
  cbv zeta in Hceil, Hbounds. split; [exact Hceil | lia].
Qed.

Lemma sin_sum_plotted_count_witness :
  printed_counts
    (components_drawing [0; 1] 0 1 (1 / 1000) 4000 200 [1; 5; 0] (11, 4)%Z
     ++ [Savefig "plots/spectral_components.pdf"]
     ++ pulse_drawing [0; 1] 0 1 (1 / 1000) 4000 200 [1; 5; 0] (11, 4)%Z
     ++ [Savefig "plots/resulting_pulse.pdf"]
     ++ spectrum_drawing 1 (1 / 1000) 4000 200
     ++ [Savefig "plots/spectrum.pdf"]) = [20%nat]
  /\ printed_counts
       (components_drawing [0; 1] 0 1 (1 / 1000) 195 200 [1; 5; 0] (11, 4)%Z
        ++ [Savefig "plots/spectral_components.pdf"]
        ++ pulse_drawing [0; 1] 0 1 (1 / 1000) 195 200 [1; 5; 0] (11, 4)%Z
        ++ [Savefig "plots/resulting_pulse.pdf"]
        ++ spectrum_drawing 1 (1 / 1000) 195 200
        ++ [Savefig "plots/spectrum.pdf"]) = [39%nat].
Proof.
  split.
  - destruct (sin_sum_plotted_count [0; 1] 0 1 (1 / 1000) 4000 200 [1; 5; 0]
                false (11, 4)%Z (World [] (fun _ => true)))
      as (E & n & _ & Hprinted & _ & Hcount);
      [lia | vm_compute; discriminate | cbn; lia | discriminate | lra
       | reflexivity | reflexivity | reflexivity
       | apply accepts_all; reflexivity |].
    destruct Hcount as [Hceil _]; [lra|].
    change (slice_spacing 4000) with 40%Z in Hceil.
    change (int_div (3 * 4000) 5 - int_div (2 * 4000) 5)%Z with 800%Z in Hceil.
    assert (n = 20%nat) as -> by lia. exact Hprinted.
  - destruct (sin_sum_plotted_count [0; 1] 0 1 (1 / 1000) 195 200 [1; 5; 0]
                false (11, 4)%Z (World [] (fun _ => true)))
      as (E & n & _ & Hprinted & _ & Hcount);
      [lia | vm_compute; discriminate | cbn; lia | discriminate | lra
       | reflexivity | reflexivity | reflexivity
       | apply accepts_all; reflexivity |].
    destruct Hcount as [Hceil _]; [lra|].
    change (slice_spacing 195) with 1%Z in Hceil.
    change (int_div (3 * 195) 5 - int_div (2 * 195) 5)%Z with 39%Z in Hceil.
    assert (n = 39%nat) as -> by lia. exact Hprinted.
Defined.

(** X12. On an empty axis a plotting run opens the first figure, if
    Matplotlib accepts its size, and then raises the [ValueError] of
    [z.min()], whatever [k_i] is; a run without plotting returns the
    empty array.  Both need a sample count that is not negative and a
    slice step that is not zero. *)
Theorem sin_sum_empty_axis (t nu_center nu_min : R) (N_frequencies : Z)
    (spec_width : R) (k_i : list R) (z_arrow : bool) (figuresize : Z * Z)
    (w : world) :
  (0 <= N_frequencies)%Z -> slice_spacing N_frequencies <> 0%Z ->
  refusal w (rendered w) (Subplots figuresize) = None ->
  sin_sum [] t nu_center nu_min N_frequencies spec_width k_i
    true z_arrow figuresize w
  = (Raise (ValueError "zero-size array to reduction operation minimum"),
     advance w [Subplots figuresize])
  /\ ((length k_i <= 3)%nat ->
      sin_sum [] t nu_center nu_min N_frequencies spec_width k_i
        false z_arrow figuresize w = (Ok [], w)).
Proof.
  intros HN Hsp Hfig. split.
  - pose proof (linspace_samples nu_min (nu_center * 2) N_frequencies HN)
      as Hfr.
    fold (frequency_samples nu_min nu_center N_frequencies) in Hfr.
    pose proof (zeros_of_nat
                  (length (frequency_samples nu_min nu_center N_frequencies))
                  (@length R [])) as Hzeros.
    pose proof (plotting_samples_returned nu_min nu_center N_frequencies
                  HN Hsp) as Hpf.
    unfold plot_spacing in Hpf.
    assert (Hrun : renders
                     (sin_sum [] t nu_center nu_min N_frequencies spec_width
                        k_i true z_arrow figuresize) w [Subplots figuresize]
                     (Raise (ValueError
                               "zero-size array to reduction operation minimum"))).
    { unfold sin_sum. eapply renders_as; [render fail | |]; reflexivity. }
    apply Hrun. split; [exact Hfig | exact I].
  - intros Hk. apply Nat.leb_le in Hk.
    rewrite sin_sum_quiet, sin_sum_value_outcome, Hk.
    destruct (Z.ltb_spec N_frequencies 0); [lia|].
    destruct (Z.eqb_spec (slice_spacing N_frequencies) 0); [contradiction|].
    reflexivity.
Qed.

Lemma sin_sum_empty_axis_witness :
  (0 <= 100)%Z /\ slice_spacing 100 <> 0%Z
  /\ sin_sum [] 0 1 (1 / 1000) 100 200 [1; 5; 0] true false (11, 4)%Z
       (World [] (fun _ => true))
     = (Raise (ValueError "zero-size array to reduction operation minimum"),
        World [Subplots (11, 4)%Z] (fun _ => true)).
Proof.
  split; [lia|]. split; [vm_compute; discriminate|].
  apply (sin_sum_empty_axis 0 1 (1 / 1000) 100 200 [1; 5; 0] false (11, 4)%Z
           (World [] (fun _ => true)));
    [lia | vm_compute; discriminate | reflexivity].
Defined.

(** X13. [sin_sum] does not create the directory [plots/].  When it is
    missing, so that [plots/spectral_components.pdf] cannot be created,
    a plotting run draws and shows the figure of the components and then
    raises the [FileNotFoundError] of the first [savefig]: the field has
    been computed by then, but it is not returned. *)
Theorem sin_sum_unwritable_plot_raises (z : list R) (t nu_center nu_min : R)
    (N_frequencies : Z) (spec_width : R) (k_i : list R) (z_arrow : bool)
    (figuresize : Z * Z) (w : world) :
  (0 <= N_frequencies)%Z -> slice_spacing N_frequencies <> 0%Z ->
  (length k_i <= 3)%nat -> z <> [] -> spec_width <> 0 ->
  writable w "plots/spectral_components.pdf" = false ->
  accepts w
    (components_drawing z t nu_center nu_min N_frequencies spec_width k_i
       figuresize) ->
  sin_sum z t nu_center nu_min N_frequencies spec_width k_i
    true z_arrow figuresize w
  = (Raise (FileNotFoundError "plots/spectral_components.pdf"),
     advance w
       (components_drawing z t nu_center nu_min N_frequencies spec_width k_i
          figuresize)).
Proof.
  intros HN Hsp Hk Hz _ Ha Hacc.
  pose proof (sin_sum_plotting_run z t nu_center nu_min N_frequencies
                spec_width k_i z_arrow figuresize w HN Hsp Hk Hz) as Hrun.
  unfold sin_sum_figures, sin_sum_outcome, sin_sum_paths in Hrun.
  cbn [drawn_and_saved find] in Hrun. rewrite Ha in Hrun.
  cbn [negb] in Hrun. rewrite app_nil_r in Hrun.
  apply Hrun. exact Hacc.
Qed.

Lemma sin_sum_unwritable_plot_raises_witness :
  sin_sum [0; 1] 0 1 (1 / 1000) 100 200 [1; 5; 0] true false (11, 4)%Z
    (World [] (fun _ => false))
  = (Raise (FileNotFoundError "plots/spectral_components.pdf"),
     advance (World [] (fun _ => false))
       (components_drawing [0; 1] 0 1 (1 / 1000) 100 200 [1; 5; 0]
          (11, 4)%Z)).
Proof.
  apply (sin_sum_unwritable_plot_raises [0; 1] 0 1 (1 / 1000) 100 200
           [1; 5; 0] false (11, 4)%Z (World [] (fun _ => false)));
    [lia | vm_compute; discriminate | cbn; lia | discriminate | lra
     | reflexivity |].
  apply accepts_all. reflexivity.
Defined.

(** X21. What Matplotlib raises when the first figure is opened (a
    [ValueError] for a size that is not positive, say) is what a
    plotting run raises, and nothing has been rendered. *)
Theorem sin_sum_figure_refused (z : list R) (t nu_center nu_min : R)
    (N_frequencies : Z) (spec_width : R) (k_i : list R) (z_arrow : bool)
    (figuresize : Z * Z) (w : world) (x : exn) :
  (0 <= N_frequencies)%Z -> slice_spacing N_frequencies <> 0%Z ->
  refusal w (rendered w) (Subplots figuresize) = Some x ->
  sin_sum z t nu_center nu_min N_frequencies spec_width k_i
    true z_arrow figuresize w
  = (Raise x, w).
Proof.
  intros HN Hsp Hfig. unfold sin_sum. cbv zeta.
  rewrite bind_lift, linspace_samples by exact HN.
  fold (frequency_samples nu_min nu_center N_frequencies).
  rewrite bind_lift, zeros_of_nat, bind_lift.
  match goal with
  | |- context [slice_step ?fr ?a ?b ?s] =>
      change s with (plot_spacing fr N_frequencies)
  end.
  rewrite plotting_samples_returned by assumption.
  unfold bind at 1. unfold bind at 1. unfold emit at 1. rewrite Hfig.
  reflexivity.
Qed.

Lemma sin_sum_figure_refused_witness :
  sin_sum [0; 1] 0 1 (1 / 1000) 100 200 [1; 5; 0] true false (-11, 4)%Z
    (MkWorld [] (fun _ => true)
       (fun _ e =>
          match e with
          | Subplots (width, height) =>
              if ((width <=? 0) || (height <=? 0))%Z
              then Some (ValueError "figure size must be positive finite")
              else None
          | _ => None
          end))
  = (Raise (ValueError "figure size must be positive finite"),
     MkWorld [] (fun _ => true)
       (fun _ e =>
          match e with
          | Subplots (width, height) =>
              if ((width <=? 0) || (height <=? 0))%Z
              then Some (ValueError "figure size must be positive finite")
              else None
          | _ => None
          end)).
Proof.
  apply sin_sum_figure_refused;
    [lia | vm_compute; discriminate | reflexivity].
Defined.

(** * [plot_pulses] *)

(** ** The session monad *)

Lemma padvance_nil (s : session) : padvance s [] = s.
Proof. destruct s. unfold padvance. cbn. rewrite app_nil_r. reflexivity. Qed.

Lemma padvance_app (s : session) (cs cs' : list pyplot_call) :
  padvance (padvance s cs) cs' = padvance s (cs ++ cs').
Proof. unfold padvance. cbn. rewrite <- app_assoc. reflexivity. Qed.

Lemma paccepts_app (s : session) (cs cs' : list pyplot_call) :
  paccepts s (cs ++ cs') <-> paccepts s cs /\ paccepts (padvance s cs) cs'.
Proof.
  revert s. induction cs as [|c cs IH]; intros s; cbn [app paccepts].
  - rewrite padvance_nil. tauto.
  - rewrite IH, padvance_app. cbn [app]. tauto.
Qed.

Lemma paccepts_all (s : session) (cs : list pyplot_call) :
  (forall history c, denial s history c = None) -> paccepts s cs.
Proof.
  revert s. induction cs as [|c cs IH]; intros s Hall; cbn [paccepts];
    [exact I|].
  split; [apply Hall | apply IH; exact Hall].
Qed.

Lemma draws_pret {A : Type} (a : A) (s : session) : draws (pret a) s [] (Ok a).
Proof. intros _. rewrite padvance_nil. reflexivity. Qed.

Lemma draws_plift {A : Type} (r : result A) (s : session) :
  draws (plift r) s [] r.
Proof. intros _. rewrite padvance_nil. reflexivity. Qed.

Lemma draws_plift_Ok {A : Type} (r : result A) (a : A) (s : session) :
  r = Ok a -> draws (plift r) s [] (Ok a).
Proof. intros ->. apply draws_plift. Qed.

Lemma draws_quiet {A : Type} (m : P A) (r : result A) (s : session) :
  m s = (r, s) -> draws m s [] r.
Proof. intros Hm _. rewrite padvance_nil. exact Hm. Qed.

Lemma draws_pcall (c : pyplot_call) (s : session) :
  draws (pcall c) s [c] (Ok tt).
Proof. intros [Hc _]. unfold pcall. rewrite Hc. reflexivity. Qed.

Lemma draws_psavefig (path : string) (s : session) :
  writable (backdrop s) path = true ->
  draws (psavefig path) s [PSavefig path] (Ok tt).
Proof.
  intros Hw Hacc. unfold psavefig. rewrite Hw. apply draws_pcall, Hacc.
Qed.

Lemma draws_pbind {A B : Type} (m : P A) (f : A -> P B) (s : session)
    (cs cs' : list pyplot_call) (a : A) (r : result B) :
  draws m s cs (Ok a) -> draws (f a) (padvance s cs) cs' r ->
  draws (pbind m f) s (cs ++ cs') r.
Proof.
  intros Hm Hf Hacc. apply paccepts_app in Hacc as [Hcs Hcs'].
  unfold pbind. rewrite (Hm Hcs), (Hf Hcs'), padvance_app. reflexivity.
Qed.

Lemma draws_pbind_raise {A B : Type} (m : P A) (f : A -> P B) (s : session)
    (cs : list pyplot_call) (e : exn) :
  draws m s cs (Raise e) -> draws (pbind m f) s cs (Raise e).
Proof. intros Hm Hacc. unfold pbind. rewrite (Hm Hacc). reflexivity. Qed.

Lemma draws_as {A : Type} (m : P A) (s : session) (cs cs' : list pyplot_call)
    (r r' : result A) :
  draws m s cs r -> cs = cs' -> r = r' -> draws m s cs' r'.
Proof. intros Hm <- <-. exact Hm. Qed.

(** Steps through a computation of [P], collecting its calls; [other]
    solves the steps that are loops or comprehensions. *)
Ltac draw other :=
  cbv beta iota zeta;
  lazymatch goal with
  | |- draws (pbind _ _) _ _ _ =>
      first [ eapply draws_pbind; [ solve [draw other] | draw other ]
            | eapply draws_pbind_raise; solve [draw other] ]
  | |- draws (pret _) _ _ _ => apply draws_pret
  | |- draws (pcall _) _ _ _ => apply draws_pcall
  | |- draws (psavefig _) _ _ _ =>
      apply draws_psavefig; cbn [padvance backdrop]; auto
  | |- draws (plift _) _ _ _ =>
      first [ eapply draws_plift_Ok; first [eassumption | reflexivity]
            | apply draws_plift ]
  | |- draws (match ?c with _ => _ end) _ _ _ =>
      match goal with
      | H : c = _ |- _ => rewrite H; draw other
      end
  | |- _ => other
  end.

(** ** The pulses *)

Lemma prun_sin_sum (z : list R) (t nu_center : R) (k_i : list R)
    (spec_width : R) (s : session) :
  prun (sin_sum z t nu_center default_nu_min default_N_frequencies
          spec_width k_i default_plotting default_z_arrow
          default_figuresize) s
  = (sin_sum_value z t nu_center default_nu_min default_N_frequencies
       spec_width k_i, s).
Proof.
  unfold prun, default_plotting. rewrite sin_sum_quiet.
  destruct s. reflexivity.
Qed.

(** The list comprehension of [plot_pulses] evaluates [sin_sum_value] at
    the times in order, stops at the first exception and leaves the
    session as it is. *)
Lemma plot_pulses_comprehension (z : list R) (nu_center : R) (k_i : list R)
    (spec_width : R) (times : list R) (s : session) :
  comprehension
    (fun t =>
       prun (sin_sum z t nu_center default_nu_min default_N_frequencies
               spec_width k_i default_plotting default_z_arrow
               default_figuresize))
    times s
  = (sequence
       ((fun t =>
           sin_sum_value z t nu_center default_nu_min default_N_frequencies
             spec_width k_i) <$> times), s).
Proof.
  induction times as [|t times IH]; [reflexivity|].
  cbn [comprehension fmap list_fmap sequence]. unfold pbind at 1.
  rewrite prun_sin_sum.
  destruct (sin_sum_value z t _ _ _ _ _) as [E|e]; cbn [rbind];
    [|reflexivity].
  unfold pbind at 1. rewrite IH.
  match goal with
  | |- context [sequence ?l] => destruct (sequence l) as [Es|e]
  end; reflexivity.
Qed.

(** With at most three coefficients every pulse is computed: it is what
    [sin_sum] returns at its time. *)
Lemma pulse_returned (z : list R) (nu_center : R) (k_i : list R)
    (spec_width : R) (w : world) (t : R) :
  (length k_i <= 3)%nat ->
  sin_sum z t nu_center default_nu_min default_N_frequencies spec_width k_i
    default_plotting default_z_arrow default_figuresize w
  = (Ok (pulse z nu_center k_i spec_width w t), w)
  /\ length (pulse z nu_center k_i spec_width w t) = length z.
Proof.
  intros Hk. apply Nat.leb_le in Hk. unfold pulse, default_plotting.
  rewrite sin_sum_quiet, default_sin_sum_value_outcome, Hk.
  cbn [fst value_or]. split; [reflexivity | apply length_fmap].
Qed.

Lemma pulses_computed (z : list R) (nu_center : R) (k_i : list R)
    (spec_width : R) (times : list R) (s : session) :
  (length k_i <= 3)%nat ->
  comprehension
    (fun t =>
       prun (sin_sum z t nu_center default_nu_min default_N_frequencies
               spec_width k_i default_plotting default_z_arrow
               default_figuresize))
    times s
  = (Ok (pulse z nu_center k_i spec_width (backdrop s) <$> times), s).
Proof.
  intros Hk. rewrite plot_pulses_comprehension. f_equal.
  rewrite (list_fmap_ext _
             (fun t => Ok (pulse z nu_center k_i spec_width (backdrop s) t))
             times).
  - apply sequence_Ok.
  - intros i t _.
    destruct (pulse_returned z nu_center k_i spec_width (backdrop s) t Hk)
      as [Hrun _].
    unfold default_plotting in Hrun. rewrite sin_sum_quiet in Hrun.
    injection Hrun as Hrun. exact Hrun.
Qed.

(** ** The loop over the pulses *)

Lemma plot_pulses_loop (z : list R) (pulses : list (list R))
    (plotname : string) (colors : list string) :
  forall (d j : nat) (s : session),
    plotname = "" \/ (forall path, writable (backdrop s) path = true) ->
    (j + d = length pulses)%nat -> (j <= length colors)%nat ->
    draws (pfoldM (plot_pulses_body z pulses plotname colors) (seq j d) tt) s
      (curve_calls z plotname (length pulses) j
         (drop j pulses) (drop j colors))
      (if (length pulses <=? length colors)%nat then Ok tt
       else Raise (IndexError "index out of bounds")).
Proof.
  induction d as [|d IH]; intros j s Hfiles Hj Hcol.
  - cbn [seq pfoldM]. rewrite drop_ge by lia. cbn [curve_calls].
    destruct (Nat.leb_spec (length pulses) (length colors)); [|lia].
    apply draws_pret.
  - destruct (lookup_lt_is_Some_2 pulses j) as [E HE]; [lia|].
    assert (Hpulse : getitem pulses j = Ok E) by (unfold getitem; rewrite HE; reflexivity).
    cbn [seq pfoldM]. rewrite (drop_S _ _ _ HE).
    destruct (colors !! j) as [color|] eqn:Hc.
    + assert (Hcolor : getitem colors j = Ok color)
        by (unfold getitem; rewrite Hc; reflexivity).
      rewrite (drop_S _ _ _ Hc). cbn [curve_calls].
      apply lookup_lt_Some in Hc.
      specialize (IH (S j)). unfold saved_name.
      destruct (plotname =? "")%string eqn:Hname.
      * eapply draws_as.
        -- unfold plot_pulses_body at 1. rewrite Hname. cbn [negb].
           draw ltac:(apply IH; [exact Hfiles | lia | lia]).
        -- reflexivity.
        -- reflexivity.
      * destruct Hfiles as [->|Hw]; [discriminate Hname|].
        destruct (1 <? length pulses)%nat eqn:Hmany;
          (eapply draws_as;
           [ unfold plot_pulses_body at 1; rewrite Hname, Hmany; cbn [negb];
             draw ltac:(apply IH; [right; exact Hw | lia | lia])
           | rewrite <- ?app_assoc; reflexivity
           | reflexivity ]).
    + assert (Hcolor : getitem colors j
                       = Raise (IndexError "index out of bounds"))
        by (unfold getitem; rewrite Hc; reflexivity).
      apply lookup_ge_None_1 in Hc.
      rewrite (drop_ge colors) by lia. cbn [curve_calls].
      destruct (Nat.leb_spec (length pulses) (length colors)); [lia|].
      eapply draws_as.
      * unfold plot_pulses_body at 1. rewrite Hpulse, Hcolor.
        draw fail.
      * reflexivity.
      * reflexivity.
Qed.
(** ** The whole run *)

Lemma drawn_curves_curve_calls (z : list R) (plotname : string) (n : nat)
    (pulses : list (list R)) (colors : list string) :
  forall i, drawn_curves (curve_calls z plotname n i pulses colors)
            = zip pulses colors.
Proof.
  revert colors. induction pulses as [|E pulses IH]; intros colors i;
    [reflexivity|].
  destruct colors as [|color colors]; [reflexivity|].
  cbn [curve_calls zip zip_with]. unfold drawn_curves. cbn [omap list_omap].
  destruct (plotname =? "")%string; cbn [app omap list_omap]; f_equal; apply IH.
Qed.

Lemma saved_files_curve_calls (z : list R) (plotname : string) (n : nat)
    (pulses : list (list R)) (colors : list string) :
  forall i,
    saved_files (curve_calls z plotname n i pulses colors)
    = if (plotname =? "")%string then []
      else saved_name plotname n
             <$> seq i (Nat.min (length pulses) (length colors)).
Proof.
  revert colors. induction pulses as [|E pulses IH]; intros colors i.
  - cbn. destruct (plotname =? "")%string; reflexivity.
  - destruct colors as [|color colors].
    + cbn. destruct (plotname =? "")%string; reflexivity.
    + cbn [curve_calls length Nat.min seq fmap list_fmap].
      unfold saved_files. cbn [omap list_omap].
      specialize (IH colors (S i)). unfold saved_files in IH.
      destruct (plotname =? "")%string; cbn [app omap list_omap];
        rewrite IH; reflexivity.
Qed.

Lemma saved_files_app (cs cs' : list pyplot_call) :
  saved_files (cs ++ cs') = saved_files cs ++ saved_files cs'.
Proof. unfold saved_files. apply omap_app. Qed.

Lemma drawn_curves_app (cs cs' : list pyplot_call) :
  drawn_curves (cs ++ cs') = drawn_curves cs ++ drawn_curves cs'.
Proof. unfold drawn_curves. apply omap_app. Qed.

Lemma decoration_calls_plain (z : list R) (ymin : R) (no_axes z_arrow : bool) :
  saved_files (decoration_calls z ymin no_axes z_arrow) = []
  /\ drawn_curves (decoration_calls z ymin no_axes z_arrow) = []
  /\ ~ In PShow (decoration_calls z ymin no_axes z_arrow).
Proof.
  destruct no_axes, z_arrow; cbn; repeat split; try tauto;
    intros H; repeat (destruct H as [H|H]; try discriminate H); exact H.
Qed.

Lemma curve_calls_no_show (z : list R) (plotname : string) (n : nat)
    (pulses : list (list R)) (colors : list string) :
  forall i, ~ In PShow (curve_calls z plotname n i pulses colors).
Proof.
  revert colors. induction pulses as [|E pulses IH]; intros colors i;
    [cbn; tauto|].
  destruct colors as [|color colors]; [cbn; tauto|].
  cbn [curve_calls]. intros [H|H]; [discriminate H|].
  apply in_app_or in H as [H|H]; [|exact (IH _ _ H)].
  destruct (plotname =? "")%string; cbn in H; [tauto|].
  destruct H as [H|H]; [discriminate H | exact H].
Qed.

Lemma curve_calls_cumulative (z : list R) (plotname : string) (n : nat) :
  (plotname =? "")%string = false ->
  forall (pulses : list (list R)) (colors : list string) (i j : nat),
    (j < length pulses)%nat -> (j < length colors)%nat ->
    exists before after : list pyplot_call,
      curve_calls z plotname n i pulses colors
      = before ++ PSavefig (saved_name plotname n (i + j)) :: after
      /\ length (drawn_curves before) = S j
      /\ saved_files before = saved_name plotname n <$> seq i j.
Proof.
  intros Hname. induction pulses as [|E pulses IH]; intros colors i j Hp Hc;
    [cbn in Hp; lia|].
  destruct colors as [|color colors]; [cbn in Hc; lia|].
  cbn [curve_calls]. rewrite Hname. cbn [app].
  destruct j as [|j].
  - exists [PPlot z E color], (curve_calls z plotname n (S i) pulses colors).
    rewrite Nat.add_0_r. repeat split.
  - cbn [length] in Hp, Hc.
    destruct (IH colors (S i) j ltac:(lia) ltac:(lia))
      as (before & after & -> & Hdrawn & Hsaved).
    exists (PPlot z E color :: PSavefig (saved_name plotname n i) :: before),
      after.
    replace (i + S j)%nat with (S i + j)%nat by lia.
    split; [reflexivity|]. unfold drawn_curves, saved_files in *.
    cbn [omap list_omap length seq fmap list_fmap].
    rewrite Hdrawn, Hsaved. split; reflexivity.
Qed.

(** [plot_pulses] computes the pulses, opens the figure, sets the limits
    from the axis and the first pulse, decorates, and draws and saves
    curve after curve; it ends with [plt.show()] unless the colours run
    out, which is an [IndexError]. *)
Lemma plot_pulses_run (z times : list R) (nu_center : R) (k_i : list R)
    (spec_width : R) (no_axes : bool) (plotname : string) (dpi : Z)
    (figuresize : Z * Z) (z_arrow : bool) (colors : list string)
    (s : session) :
  z <> [] -> times <> [] -> (length k_i <= 3)%nat ->
  plotname = "" \/ (forall path, writable (backdrop s) path = true) ->
  draws
    (plot_pulses z times nu_center k_i spec_width no_axes plotname dpi
       figuresize z_arrow colors)
    s
    (plot_pulses_calls z times nu_center k_i spec_width no_axes plotname dpi
       figuresize z_arrow colors (backdrop s))
    (if (length times <=? length colors)%nat then Ok tt
     else Raise (IndexError "index out of bounds")).
Proof.
  intros Hz Htimes Hk Hfiles.
  set (pulses := pulse z nu_center k_i spec_width (backdrop s) <$> times).
  assert (Hpulses : forall s', backdrop s' = backdrop s ->
            draws
              (comprehension
                 (fun t =>
                    prun (sin_sum z t nu_center default_nu_min
                            default_N_frequencies spec_width k_i
                            default_plotting default_z_arrow
                            default_figuresize)) times) s' [] (Ok pulses)).
  { intros s' Hs'. apply draws_quiet. subst pulses. rewrite <- Hs'.
    apply pulses_computed. exact Hk. }
  destruct times as [|t_0 times']; [contradiction|].
  set (times := t_0 :: times') in *.
  set (first_pulse := pulse z nu_center k_i spec_width (backdrop s) t_0).
  assert (Hget : getitem pulses 0 = Ok first_pulse) by reflexivity.
  assert (Hfirst : first_pulse <> []).
  { intros H0. apply (f_equal length) in H0.
    destruct (pulse_returned z nu_center k_i spec_width (backdrop s) t_0 Hk)
      as [_ Hlen].
    fold first_pulse in Hlen. rewrite Hlen in H0.
    destruct z; [contradiction | discriminate H0]. }
  pose proof (amin_minimum z Hz) as Hzmin.
  pose proof (amax_maximum z Hz) as Hzmax.
  pose proof (amin_minimum first_pulse Hfirst) as Hlo.
  pose proof (amax_maximum first_pulse Hfirst) as Hhi.
  assert (Hlen : length pulses = length times)
    by (subst pulses; apply length_fmap).
  unfold plot_pulses_calls. fold pulses. rewrite Hget. cbn [value_or].
  cbv zeta.
  destruct (length times <=? length colors)%nat eqn:Hcolors.
  - assert (Hloop : forall s', backdrop s' = backdrop s ->
              draws
                (pfoldM (plot_pulses_body z pulses plotname colors)
                   (seq 0 (length pulses)) tt) s'
                (curve_calls z plotname (length times) 0 pulses colors)
                (Ok tt)).
    { intros s' Hs'.
      pose proof (plot_pulses_loop z pulses plotname colors (length pulses)
                    0 s') as Hloop.
      rewrite Hs', Hlen, Hcolors in Hloop. rewrite Hlen.
      apply Hloop; [exact Hfiles | lia | lia]. }
    unfold plot_pulses.
    destruct no_axes, z_arrow;
      (eapply draws_as;
       [ draw ltac:(first [ apply Hpulses; reflexivity
                          | unfold pfor_range; apply Hloop; reflexivity ])
       | cbn [decoration_calls app]; rewrite ?app_nil_r, <- ?app_assoc;
         cbn [app]; reflexivity
       | reflexivity ]).
  - assert (Hloop : forall s', backdrop s' = backdrop s ->
              draws
                (pfoldM (plot_pulses_body z pulses plotname colors)
                   (seq 0 (length pulses)) tt) s'
                (curve_calls z plotname (length times) 0 pulses colors)
                (Raise (IndexError "index out of bounds"))).
    { intros s' Hs'.
      pose proof (plot_pulses_loop z pulses plotname colors (length pulses)
                    0 s') as Hloop.
      rewrite Hs', Hlen, Hcolors in Hloop. rewrite Hlen.
      apply Hloop; [exact Hfiles | lia | lia]. }
    unfold plot_pulses.
    destruct no_axes, z_arrow;
      (eapply draws_as;
       [ draw ltac:(first [ apply Hpulses; reflexivity
                          | unfold pfor_range; apply Hloop; reflexivity ])
       | cbn [decoration_calls app]; rewrite ?app_nil_r, <- ?app_assoc;
         cbn [app]; reflexivity
       | reflexivity ]).
Qed.

(** X14. What a run of [plot_pulses] does when it succeeds, call for
    call: it computes one pulse per time with [sin_sum] (the defaults for
    [nu_min] and [N_frequencies], no plotting), opens the figure, sets
    the x limits from the axis and the y limits from the first pulse
    ([ymin] doubled with [z_arrow]), decorates, draws the pulses in time
    order, each in the colour of its index and followed by its file when
    a plot name is given, and shows the figure.  It succeeds when the
    axis and the times are not empty, [k_i] has at most three entries,
    there is a colour for every time and the directory of the files
    exists, provided Matplotlib accepts these calls. *)
Theorem plot_pulses_trace (z times : list R) (nu_center : R) (k_i : list R)
    (spec_width : R) (no_axes : bool) (plotname : string) (dpi : Z)
    (figuresize : Z * Z) (z_arrow : bool) (colors : list string)
    (s : session) :
  z <> [] -> times <> [] -> (length k_i <= 3)%nat -> spec_width <> 0 ->
  (length times <= length colors)%nat ->
  plotname = "" \/ (forall path, writable (backdrop s) path = true) ->
  let pulses := pulse z nu_center k_i spec_width (backdrop s) <$> times in
  let called :=
    plot_pulses_calls z times nu_center k_i spec_width no_axes plotname dpi
      figuresize z_arrow colors (backdrop s) in
  paccepts s called ->
  plot_pulses z times nu_center k_i spec_width no_axes plotname dpi
    figuresize z_arrow colors s
  = (Ok tt, padvance s called)
  /\ Forall2 (fun t_i E =>
               sin_sum z t_i nu_center default_nu_min default_N_frequencies
                 spec_width k_i default_plotting default_z_arrow
                 default_figuresize (backdrop s) = (Ok E, backdrop s))
       times pulses
  /\ drawn_curves called = zip pulses colors
  /\ last called = Some PShow.
Proof.
  intros Hz Htimes Hk _ Hcolors Hfiles pulses called Hacc.
  pose proof (plot_pulses_run z times nu_center k_i spec_width no_axes
                plotname dpi figuresize z_arrow colors s Hz Htimes Hk Hfiles)
    as Hrun.
  apply Nat.leb_le in Hcolors. rewrite Hcolors in Hrun.
  split; [exact (Hrun Hacc)|]. split; [|split].
  - subst pulses. apply Forall2_fmap_r, Forall_Forall2_diag, Forall_forall.
    intros t_i _. apply pulse_returned. exact Hk.
  - subst called. unfold plot_pulses_calls. cbv zeta.
    rewrite !drawn_curves_app, drawn_curves_curve_calls.
    match goal with
    | |- context [decoration_calls ?a ?b ?c ?d] =>
        destruct (decoration_calls_plain a b c d) as (_ & -> & _)
    end.
    rewrite Hcolors. cbn [drawn_curves omap list_omap app].
    rewrite app_nil_r. reflexivity.
  - subst called. unfold plot_pulses_calls. cbv zeta. rewrite Hcolors.
    rewrite !app_assoc. apply last_snoc.
Qed.

Lemma plot_pulses_trace_witness :
  plot_pulses [0; 1] [0; 1; 2] (1 / 2) [1; 10; 0] 400 true "pulse" 100
    (11, 4)%Z true default_colors (Session (World [] (fun _ => true)) [])
  = (Ok tt,
     padvance (Session (World [] (fun _ => true)) [])
       (plot_pulses_calls [0; 1] [0; 1; 2] (1 / 2) [1; 10; 0] 400 true
          "pulse" 100 (11, 4)%Z true default_colors
          (World [] (fun _ => true)))).
Proof.
  apply (plot_pulses_trace [0; 1] [0; 1; 2] (1 / 2) [1; 10; 0] 400 true
           "pulse" 100 (11, 4)%Z true default_colors
           (Session (World [] (fun _ => true)) []));
    [discriminate | discriminate | cbn; lia | lra | cbn; lia
     | right; reflexivity |].
  apply paccepts_all. reflexivity.
Defined.

(** X15. The files a successful [plot_pulses] saves: none without a plot
    name; [plotname.pdf] for a single time; [plotname_1.pdf], ...,
    [plotname_n.pdf], numbered from one in time order, for [n > 1]
    times. *)
Theorem plot_pulses_saved_files (z times : list R) (nu_center : R)
    (k_i : list R) (spec_width : R) (no_axes : bool) (plotname : string)
    (dpi : Z) (figuresize : Z * Z) (z_arrow : bool) (colors : list string)
    (s : session) :
  z <> [] -> times <> [] -> (length k_i <= 3)%nat -> spec_width <> 0 ->
  (length times <= length colors)%nat ->
  plotname = "" \/ (forall path, writable (backdrop s) path = true) ->
  let called :=
    plot_pulses_calls z times nu_center k_i spec_width no_axes plotname dpi
      figuresize z_arrow colors (backdrop s) in
  paccepts s called ->
  plot_pulses z times nu_center k_i spec_width no_axes plotname dpi
    figuresize z_arrow colors s
  = (Ok tt, padvance s called)
  /\ saved_files called
     = if (plotname =? "")%string then []
       else if (length times =? 1)%nat
       then [(plotname ++ ".pdf")%string]
       else (fun i => (plotname ++ "_" ++ str (i + 1) ++ ".pdf")%string)
              <$> seq 0 (length times).
Proof.
  intros Hz Htimes Hk _ Hcolors Hfiles called Hacc.
  pose proof (plot_pulses_run z times nu_center k_i spec_width no_axes
                plotname dpi figuresize z_arrow colors s Hz Htimes Hk Hfiles)
    as Hrun.
  pose proof Hcolors as Hleb. apply Nat.leb_le in Hleb. rewrite Hleb in Hrun.
  split; [exact (Hrun Hacc)|].
  subst called. unfold plot_pulses_calls. cbv zeta.
  rewrite !saved_files_app, saved_files_curve_calls.
  match goal with
  | |- context [decoration_calls ?a ?b ?c ?d] =>
      destruct (decoration_calls_plain a b c d) as (-> & _ & _)
  end.
  rewrite Hleb, length_fmap, Nat.min_l by lia.
  cbn [saved_files omap list_omap app]. rewrite app_nil_r.
  destruct (plotname =? "")%string; [reflexivity|].
  unfold saved_name.
  destruct times as [|t_0 [|t_1 times]]; [contradiction | reflexivity |].
  reflexivity.
Qed.

Lemma plot_pulses_saved_files_witness :
  saved_files
    (plot_pulses_calls [0; 1] [0; 1; 2] (1 / 2) [1; 10; 0] 400 false "pulse"
       100 (11, 4)%Z false default_colors (World [] (fun _ => true)))
  = ["pulse_1.pdf"; "pulse_2.pdf"; "pulse_3.pdf"].
Proof.
  destruct (plot_pulses_saved_files [0; 1] [0; 1; 2] (1 / 2) [1; 10; 0] 400
              false "pulse" 100 (11, 4)%Z false default_colors
              (Session (World [] (fun _ => true)) []))
    as [_ Hsaved];
    [discriminate | discriminate | cbn; lia | lra | cbn; lia
     | right; reflexivity | apply paccepts_all; reflexivity |].
  exact Hsaved.
Defined.

(** X16. With more times than colours (more than ten with the default
    colours) [plot_pulses] raises an [IndexError]: by then it has drawn
    one curve per colour, and it never shows the figure. *)
Theorem plot_pulses_too_few_colors (z times : list R) (nu_center : R)
    (k_i : list R) (spec_width : R) (no_axes : bool) (plotname : string)
    (dpi : Z) (figuresize : Z * Z) (z_arrow : bool) (colors : list string)
    (s : session) :
  z <> [] -> (length k_i <= 3)%nat -> spec_width <> 0 ->
  (length colors < length times)%nat ->
  plotname = "" \/ (forall path, writable (backdrop s) path = true) ->
  let called :=
    plot_pulses_calls z times nu_center k_i spec_width no_axes plotname dpi
      figuresize z_arrow colors (backdrop s) in
  paccepts s called ->
  plot_pulses z times nu_center k_i spec_width no_axes plotname dpi
    figuresize z_arrow colors s
  = (Raise (IndexError "index out of bounds"), padvance s called)
  /\ length (drawn_curves called) = length colors
  /\ ~ In PShow called.
Proof.
  intros Hz Hk _ Hcolors Hfiles called Hacc.
  assert (Htimes : times <> [])
    by (destruct times; [cbn in Hcolors; lia | discriminate]).
  pose proof (plot_pulses_run z times nu_center k_i spec_width no_axes
                plotname dpi figuresize z_arrow colors s Hz Htimes Hk Hfiles)
    as Hrun.
  subst called. unfold plot_pulses_calls in *. cbv zeta in *.
  destruct (Nat.leb_spec (length times) (length colors)) as [|_]; [lia|].
  split; [exact (Hrun Hacc)|].
  match goal with
  | |- context [decoration_calls ?a ?b ?c ?d] =>
      destruct (decoration_calls_plain a b c d) as (_ & Hdeco & Hshow)
  end.
  split.
  - rewrite !drawn_curves_app, Hdeco, drawn_curves_curve_calls.
    cbn [drawn_curves omap list_omap app]. rewrite app_nil_r.
    rewrite length_zip_with, length_fmap. lia.
  - intros Hin. apply in_app_or in Hin as [Hin|Hin].
    { repeat (destruct Hin as [Hin|Hin]; try discriminate Hin). exact Hin. }
    apply in_app_or in Hin as [Hin|Hin]; [exact (Hshow Hin)|].
    rewrite app_nil_r in Hin. exact (curve_calls_no_show _ _ _ _ _ _ Hin).
Qed.

Lemma plot_pulses_too_few_colors_witness :
  plot_pulses [0; 1] [0; 1; 2; 3; 4; 5; 6; 7; 8; 9; 10] (1 / 2) [1; 10; 0]
    400 false "" 100 (11, 4)%Z false default_colors
    (Session (World [] (fun _ => true)) [])
  = (Raise (IndexError "index out of bounds"),
     padvance (Session (World [] (fun _ => true)) [])
       (plot_pulses_calls [0; 1] [0; 1; 2; 3; 4; 5; 6; 7; 8; 9; 10] (1 / 2)
          [1; 10; 0] 400 false "" 100 (11, 4)%Z false default_colors
          (World [] (fun _ => true))))
  /\ length
       (drawn_curves
          (plot_pulses_calls [0; 1] [0; 1; 2; 3; 4; 5; 6; 7; 8; 9; 10] (1 / 2)
             [1; 10; 0] 400 false "" 100 (11, 4)%Z false default_colors
             (World [] (fun _ => true)))) = 10%nat.
Proof.
  destruct (plot_pulses_too_few_colors [0; 1]
              [0; 1; 2; 3; 4; 5; 6; 7; 8; 9; 10] (1 / 2) [1; 10; 0] 400 false
              "" 100 (11, 4)%Z false default_colors
              (Session (World [] (fun _ => true)) []))
    as (Hrun & Hcurves & _);
    [discriminate | cbn; lia | lra | cbn; lia | left; reflexivity
     | apply paccepts_all; reflexivity |].
  split; [exact Hrun | exact Hcurves].
Defined.

(** X17. Without times [plot_pulses] opens the figure and sets the x
    limits, if Matplotlib accepts the two calls, and then raises the
    [IndexError] of [pulses[0]]. *)
Theorem plot_pulses_no_times (z : list R) (nu_center : R) (k_i : list R)
    (spec_width : R) (no_axes : bool) (plotname : string) (dpi : Z)
    (figuresize : Z * Z) (z_arrow : bool) (colors : list string)
    (s : session) :
  z <> [] ->
  paccepts s [PSubplots figuresize dpi; PSetXlim (minimum z) (maximum z)] ->
  plot_pulses z [] nu_center k_i spec_width no_axes plotname dpi
    figuresize z_arrow colors s
  = (Raise (IndexError "index out of bounds"),
     padvance s [PSubplots figuresize dpi; PSetXlim (minimum z) (maximum z)]).
Proof.
  intros Hz Hacc.
  pose proof (amin_minimum z Hz) as Hzmin.
  pose proof (amax_maximum z Hz) as Hzmax.
  assert (Hrun : draws
                   (plot_pulses z [] nu_center k_i spec_width no_axes plotname
                      dpi figuresize z_arrow colors) s
                   [PSubplots figuresize dpi;
                    PSetXlim (minimum z) (maximum z)]
                   (Raise (IndexError "index out of bounds"))).
  { unfold plot_pulses. cbn [comprehension].
    eapply draws_as; [draw fail | |]; reflexivity. }
  exact (Hrun Hacc).
Qed.

Lemma plot_pulses_no_times_witness :
  plot_pulses [0; 1] [] (1 / 2) [1; 10; 0] 400 false "" 100 (11, 4)%Z
    false default_colors (Session (World [] (fun _ => true)) [])
  = (Raise (IndexError "index out of bounds"),
     padvance (Session (World [] (fun _ => true)) [])
       [PSubplots (11, 4)%Z 100; PSetXlim (minimum [0; 1]) (maximum [0; 1])]).
Proof.
  apply (plot_pulses_no_times [0; 1] (1 / 2) [1; 10; 0] 400 false "" 100
           (11, 4)%Z false default_colors
           (Session (World [] (fun _ => true)) []));
    [discriminate | apply paccepts_all; reflexivity].
Defined.

(** X18. The pulses are computed before the figure is opened: with more
    than three coefficients and at least one time, [plot_pulses] raises
    the [TypeError] of [k] and has drawn nothing. *)
Theorem plot_pulses_checks_coefficients_first (z times : list R)
    (nu_center : R) (k_i : list R) (spec_width : R) (no_axes : bool)
    (plotname : string) (dpi : Z) (figuresize : Z * Z) (z_arrow : bool)
    (colors : list string) (s : session) :
  times <> [] -> (3 < length k_i)%nat ->
  plot_pulses z times nu_center k_i spec_width no_axes plotname dpi
    figuresize z_arrow colors s
  = (Raise (TypeError "k() takes from 2 to 5 positional arguments"), s).
Proof.
  intros Htimes Hk. unfold plot_pulses, pbind at 1.
  rewrite plot_pulses_comprehension.
  destruct times as [|t_0 times]; [contradiction|].
  cbn [fmap list_fmap sequence].
  rewrite default_sin_sum_value_outcome.
  destruct (Nat.leb_spec (length k_i) 3); [lia | reflexivity].
Qed.

Lemma plot_pulses_checks_coefficients_first_witness :
  [0] <> [] /\ (3 < length [1; 10; 0; 0])%nat
  /\ plot_pulses [0; 1] [0] (1 / 2) [1; 10; 0; 0] 400 false "" 100 (11, 4)%Z
       false default_colors (Session (World [] (fun _ => true)) [])
     = (Raise (TypeError "k() takes from 2 to 5 positional arguments"),
        Session (World [] (fun _ => true)) []).
Proof.
  assert (Ht : [0] <> []) by discriminate.
  assert (Hk : (3 < length [1; 10; 0; 0])%nat) by (cbn; lia).
  split; [exact Ht|]. split; [exact Hk|].
  exact (plot_pulses_checks_coefficients_first [0; 1] [0] (1 / 2)
           [1; 10; 0; 0] 400 false "" 100 (11, 4)%Z false default_colors
           (Session (World [] (fun _ => true)) []) Ht Hk).
Defined.

(** X19. On an empty axis [plot_pulses] computes the (empty) pulses, opens
    the figure, if Matplotlib accepts it, and raises the [ValueError] of
    [z.min()]. *)
Theorem plot_pulses_empty_axis (times : list R) (nu_center : R)
    (k_i : list R) (spec_width : R) (no_axes : bool) (plotname : string)
    (dpi : Z) (figuresize : Z * Z) (z_arrow : bool) (colors : list string)
    (s : session) :
  (length k_i <= 3)%nat ->
  denial s (calls s) (PSubplots figuresize dpi) = None ->
  plot_pulses [] times nu_center k_i spec_width no_axes plotname dpi
    figuresize z_arrow colors s
  = (Raise (ValueError "zero-size array to reduction operation minimum"),
     padvance s [PSubplots figuresize dpi]).
Proof.
  intros Hk Hfig.
  assert (Hrun : draws
                   (plot_pulses [] times nu_center k_i spec_width no_axes
                      plotname dpi figuresize z_arrow colors) s
                   [PSubplots figuresize dpi]
                   (Raise (ValueError
                             "zero-size array to reduction operation minimum"))).
  { unfold plot_pulses.
    eapply draws_as;
      [draw ltac:(apply draws_quiet, pulses_computed; exact Hk) | |];
      reflexivity. }
  apply Hrun. split; [exact Hfig | exact I].
Qed.

Lemma plot_pulses_empty_axis_witness :
  (length [1; 10; 0] <= 3)%nat
  /\ plot_pulses [] [0; 1] (1 / 2) [1; 10; 0] 400 false "" 100 (11, 4)%Z
       false default_colors (Session (World [] (fun _ => true)) [])
     = (Raise (ValueError "zero-size array to reduction operation minimum"),
        Session (World [] (fun _ => true)) [PSubplots (11, 4)%Z 100]).
Proof.
  assert (Hk : (length [1; 10; 0] <= 3)%nat) by (cbn; lia).
  split; [exact Hk|].
  exact (plot_pulses_empty_axis [0; 1] (1 / 2) [1; 10; 0] 400 false "" 100
           (11, 4)%Z false default_colors
           (Session (World [] (fun _ => true)) []) Hk eq_refl).
Defined.

(** X20. With a plot name, every file [plot_pulses] saves holds the curves
    of the time steps so far: file number [i + 1] is saved when exactly
    [i + 1] curves have been drawn and [i] files saved before it. *)
Theorem plot_pulses_cumulative_figures (z times : list R) (nu_center : R)
    (k_i : list R) (spec_width : R) (no_axes : bool) (plotname : string)
    (dpi : Z) (figuresize : Z * Z) (z_arrow : bool) (colors : list string)
    (s : session) :
  z <> [] -> times <> [] -> (length k_i <= 3)%nat -> spec_width <> 0 ->
  (length times <= length colors)%nat ->
  plotname <> "" -> (forall path, writable (backdrop s) path = true) ->
  let called :=
    plot_pulses_calls z times nu_center k_i spec_width no_axes plotname dpi
      figuresize z_arrow colors (backdrop s) in
  paccepts s called ->
  plot_pulses z times nu_center k_i spec_width no_axes plotname dpi
    figuresize z_arrow colors s
  = (Ok tt, padvance s called)
  /\ forall i, (i < length times)%nat ->
     exists before after : list pyplot_call,
       called
       = before ++ PSavefig (saved_name plotname (length times) i) :: after
       /\ length (drawn_curves before) = S i
       /\ length (saved_files before) = i.
Proof.
  intros Hz Htimes Hk _ Hcolors Hname Hw called Hacc.
  pose proof (plot_pulses_run z times nu_center k_i spec_width no_axes
                plotname dpi figuresize z_arrow colors s Hz Htimes Hk
                (or_intror Hw)) as Hrun.
  pose proof Hcolors as Hleb. apply Nat.leb_le in Hleb. rewrite Hleb in Hrun.
  split; [exact (Hrun Hacc)|].
  intros i Hi. subst called. unfold plot_pulses_calls. cbv zeta.
  rewrite Hleb.
  assert (Hneq : (plotname =? "")%string = false)
    by (apply String.eqb_neq; exact Hname).
  set (pulses := pulse z nu_center k_i spec_width (backdrop s) <$> times).
  assert (Hlen : length pulses = length times)
    by (subst pulses; apply length_fmap).
  destruct (curve_calls_cumulative z plotname (length times) Hneq pulses
              colors 0 i ltac:(lia) ltac:(lia))
    as (before & after & -> & Hdrawn & Hsaved).
  match goal with
  | |- context [decoration_calls ?a ?b ?c ?d] =>
      destruct (decoration_calls_plain a b c d)
        as (Hdeco_saved & Hdeco_drawn & _);
      set (decoration := decoration_calls a b c d) in *
  end.
  match goal with
  | |- context [[?c1; ?c2; ?c3] ++ decoration ++ _] =>
      exists ([c1; c2; c3] ++ decoration ++ before), (after ++ [PShow])
  end.
  split.
  { cbn [app]. do 3 f_equal. rewrite <- !app_assoc. reflexivity. }
  rewrite !drawn_curves_app, !saved_files_app, Hdeco_saved, Hdeco_drawn,
    Hsaved.
  cbn [drawn_curves saved_files omap list_omap app].
  fold (drawn_curves before). rewrite Hdrawn, length_fmap, length_seq.
  split; reflexivity.
Qed.

Lemma plot_pulses_cumulative_figures_witness :
  exists before after : list pyplot_call,
    plot_pulses_calls [0; 1] [0; 1; 2] (1 / 2) [1; 10; 0] 400 false "pulse"
      100 (11, 4)%Z false default_colors (World [] (fun _ => true))
    = before ++ PSavefig "pulse_2.pdf" :: after
    /\ length (drawn_curves before) = 2%nat.
Proof.
  destruct (plot_pulses_cumulative_figures [0; 1] [0; 1; 2] (1 / 2)
              [1; 10; 0] 400 false "pulse" 100 (11, 4)%Z false default_colors
              (Session (World [] (fun _ => true)) []))
    as (_ & Hfiles);
    [discriminate | discriminate | cbn; lia | lra | cbn; lia | discriminate
     | reflexivity | apply paccepts_all; reflexivity |].
  destruct (Hfiles 1%nat ltac:(cbn; lia)) as (before & after & Hcalls & Hdrawn & _).
  exists before, after. split; [exact Hcalls | exact Hdrawn].
Defined.

(** X22. What Matplotlib raises when the figure is opened (a
    [ValueError] for a size that is not positive, say) is what
    [plot_pulses] raises: the pulses have been computed, and nothing has
    been drawn. *)
Theorem plot_pulses_figure_refused (z times : list R) (nu_center : R)
    (k_i : list R) (spec_width : R) (no_axes : bool) (plotname : string)
    (dpi : Z) (figuresize : Z * Z) (z_arrow : bool) (colors : list string)
    (s : session) (x : exn) :
  (length k_i <= 3)%nat ->
  denial s (calls s) (PSubplots figuresize dpi) = Some x ->
  plot_pulses z times nu_center k_i spec_width no_axes plotname dpi
    figuresize z_arrow colors s
  = (Raise x, s).
Proof.
  intros Hk Hfig. unfold plot_pulses, pbind at 1.
  rewrite pulses_computed by exact Hk.
  unfold pbind at 1. unfold pcall at 1. rewrite Hfig. reflexivity.
Qed.

Lemma plot_pulses_figure_refused_witness :
  plot_pulses [0; 1] [0; 1] (1 / 2) [1; 10; 0] 400 false "" 100 (-11, 4)%Z
    false default_colors
    (MkSession (World [] (fun _ => true)) []
       (fun _ c =>
          match c with
          | PSubplots (width, height) dpi =>
              if ((width <=? 0) || (height <=? 0))%Z
              then Some (ValueError "figure size must be positive finite")
              else None
          | _ => None
          end))
  = (Raise (ValueError "figure size must be positive finite"),
     MkSession (World [] (fun _ => true)) []
       (fun _ c =>
          match c with
          | PSubplots (width, height) dpi =>
              if ((width <=? 0) || (height <=? 0))%Z
              then Some (ValueError "figure size must be positive finite")
              else None
          | _ => None
          end)).
Proof.
  apply plot_pulses_figure_refused; [cbn; lia | reflexivity].
Defined.
